(** * Control software of the DK7IH 8-band SSB transceiver

    A shallow embedding of [8-band-trx2.c] (STM32F411, ARM GCC): the radio
    state, the two interrupt handlers, the keypad decoder, the bit-banged
    AD9951 link, the 24C65 frequency store, the loading of the VFOs and of
    the LO calibration at start-up, the LO calibration dialogue, and the
    control loop from the tuning step to the end of the key [switch];
    further the saving of the VFOs, the bit-banged ST7735 link with the
    meter bar, the register values of the SI5351, the supply voltage and
    PA temperature computations, and [int2asc] with [strlen].

    The program is a state transformer on [radio]: its globals, the EEPROM
    content, the output data registers, the inputs the hardware will deliver
    (ADC conversions and interrupts) and the outputs produced so far.

    Target conventions (ARM EABI, ILP32): [int] and [long] are 32-bit two's
    complement, [unsigned long] is 32 bits, [double] is IEEE 754 binary64.
    Integers are modelled in [Z] with the wrap-around written out. *)

From Stdlib Require Import ZArith List Lia String SpecFloat.
From stdpp Require Import base option list gmap strings.

#[local] Open Scope Z_scope.

(** ** C integer types *)

Module CInt.

(** Conversion to [unsigned long] / [unsigned int] / [uint32_t]. *)
Definition to_ulong (z : Z) : Z := z mod 2 ^ 32.

(** Conversion to [long] / [int] (two's complement, as GCC does). *)
Definition to_long (z : Z) : Z := (z + 2 ^ 31) mod 2 ^ 32 - 2 ^ 31.

(** Conversion to [unsigned char] / [uint8_t]. *)
Definition to_uchar (z : Z) : Z := z mod 2 ^ 8.

(** Conversion to [uint16_t]. *)
Definition to_u16 (z : Z) : Z := z mod 2 ^ 16.

(** C truth value of a condition. *)
Definition c_bool (b : bool) : Z := if b then 1 else 0.

(** [!x] *)
Definition c_not (x : Z) : Z := c_bool (x =? 0).

(** [a[i]] on a one-dimensional table.  An access outside the table is
    undefined in C; the model reads 0 there. *)
Definition idx (a : list Z) (i : Z) : Z :=
  if i <? 0 then 0 else default 0 (a !! Z.to_nat i).

(** [a[i][j]] on a two-dimensional table. *)
Definition idx2 (a : list (list Z)) (i j : Z) : Z :=
  if i <? 0 then 0 else idx (default [] (a !! Z.to_nat i)) j.

(** [a[i] = x]; a store outside the table (undefined in C) is dropped. *)
Definition upd (a : list Z) (i x : Z) : list Z :=
  if i <? 0 then a else <[Z.to_nat i := x]> a.

(** [a[i][j] = x]. *)
Definition upd2 (a : list (list Z)) (i j x : Z) : list (list Z) :=
  if i <? 0 then a else alter (fun row => upd row j x) (Z.to_nat i) a.

End CInt.
Import CInt.

(** ** Constants of the source *)

Definition MAXBANDS : Z := 8.
Definition DDS_IO_UD : Z := 12.
Definition DDS_SDIO : Z := 13.
Definition DDS_SCLK : Z := 14.
Definition SYNTH_MS_0 : Z := 42.
Definition INTERFREQUENCY : Z := 10000000.

Definition WHITE : Z := 0xFFFF.
Definition DARKBLUE2 : Z := 0x20AA.
Definition LIGHTBLUE : Z := 0x755C.
Definition LIGHTRED : Z := 0xFA60.
Definition LIGHTGREEN : Z := 0x27E0.
Definition YELLOW : Z := 0xFF00.
Definition backcolor : Z := DARKBLUE2.
Definition FONTWIDTH : Z := 8.
Definition FONTHEIGHT : Z := 12.

Definition f_vfo0 : list (list Z) :=
  [ [ 1888000;  1961000];
    [ 3650000;  3650000];
    [ 7120000;  7120000];
    [14200000; 14280000];
    [18080000; 18150000];
    [21290000; 21390000];
    [24910000; 24912000];
    [28500000; 28590000] ].
Definition pref_sideband : list Z := [0; 0; 0; 1; 1; 1; 1; 1].
Definition f_cntr : list Z :=
  [1840000; 3650000; 7120000; 14180000; 18100000; 21290000; 24931000; 28500000].
Definition band_f0 : list Z :=
  [1810000; 3500000; 7000000; 14000000; 18065000; 21000000; 24890000; 28000000].
Definition band_f1 : list Z :=
  [2000000; 3800000; 7200000; 14350000; 18165000; 21465000; 24990000; 29700000].

(** ** The machine *)

(** What the hardware feeds the program: a finished ADC conversion (the
    content of [ADC1->DR]), a rising edge on PB0 with the value of
    [GPIOB->IDR] seen by the handler, an update event of timer 2. *)
Inductive input : Type :=
  | Adc (dr : Z)
  | Exti0 (idr : Z)
  | Tim2.

(** What the program drives: writes to the output data registers of the
    ports B (AD9951), A (band relays) and C (LED), the calls into the
    Si5351 and LCD drivers (their register traffic is not unfolded), and
    the byte writes to the 24C65. *)
Inductive event : Type :=
  | GpiobOdr (v : Z)
  | GpioaOdr (v : Z)
  | GpiocOdr (v : Z)
  | Si5351SetFreq (synth freq : Z)
  | EepromWrite (mem_address value : Z)
  | LcdPutstring (x0 y0 : Z) (s : string) (fcol bcol xf yf : Z)
  | LcdPutnumber (col row num dec fcolor bcolor xf yf : Z)
  | ShowFrequency1 (f csize : Z)
  | ShowBand (band invert : Z)
  | ShowSideband (sb invert : Z)
  | ShowVfo (cvfo cband invert : Z)
  | ShowMsg (msg : string) (fcolor : Z).

(** The globals of the program, the 24C65 content, the three output data
    registers, the inputs still to come and the outputs so far (newest
    first). *)
Record radio : Type := mkRadio {
  cur_vfo : Z;
  cur_band : Z;
  sideband : Z;
  f_lo : list Z;
  f_vfo : list (list Z);
  tuning : Z;
  pulses : Z;
  runsecs : Z;
  runsecs_msg : Z;
  eeprom : gmap Z Z;
  gpioa_odr : Z;
  gpiob_odr : Z;
  gpioc_odr : Z;
  pending : list input;
  log : list event
}.

Definition set_cur_vfo (x : Z) (r : radio) : radio :=
  mkRadio x (cur_band r) (sideband r) (f_lo r) (f_vfo r) (tuning r) (pulses r)
    (runsecs r) (runsecs_msg r) (eeprom r) (gpioa_odr r) (gpiob_odr r)
    (gpioc_odr r) (pending r) (log r).
Definition set_cur_band (x : Z) (r : radio) : radio :=
  mkRadio (cur_vfo r) x (sideband r) (f_lo r) (f_vfo r) (tuning r) (pulses r)
    (runsecs r) (runsecs_msg r) (eeprom r) (gpioa_odr r) (gpiob_odr r)
    (gpioc_odr r) (pending r) (log r).
Definition set_sideband (x : Z) (r : radio) : radio :=
  mkRadio (cur_vfo r) (cur_band r) x (f_lo r) (f_vfo r) (tuning r) (pulses r)
    (runsecs r) (runsecs_msg r) (eeprom r) (gpioa_odr r) (gpiob_odr r)
    (gpioc_odr r) (pending r) (log r).
Definition set_f_lo (x : list Z) (r : radio) : radio :=
  mkRadio (cur_vfo r) (cur_band r) (sideband r) x (f_vfo r) (tuning r) (pulses r)
    (runsecs r) (runsecs_msg r) (eeprom r) (gpioa_odr r) (gpiob_odr r)
    (gpioc_odr r) (pending r) (log r).
Definition set_f_vfo (x : list (list Z)) (r : radio) : radio :=
  mkRadio (cur_vfo r) (cur_band r) (sideband r) (f_lo r) x (tuning r) (pulses r)
    (runsecs r) (runsecs_msg r) (eeprom r) (gpioa_odr r) (gpiob_odr r)
    (gpioc_odr r) (pending r) (log r).
Definition set_tuning (x : Z) (r : radio) : radio :=
  mkRadio (cur_vfo r) (cur_band r) (sideband r) (f_lo r) (f_vfo r) x (pulses r)
    (runsecs r) (runsecs_msg r) (eeprom r) (gpioa_odr r) (gpiob_odr r)
    (gpioc_odr r) (pending r) (log r).
Definition set_pulses (x : Z) (r : radio) : radio :=
  mkRadio (cur_vfo r) (cur_band r) (sideband r) (f_lo r) (f_vfo r) (tuning r) x
    (runsecs r) (runsecs_msg r) (eeprom r) (gpioa_odr r) (gpiob_odr r)
    (gpioc_odr r) (pending r) (log r).
Definition set_runsecs (x : Z) (r : radio) : radio :=
  mkRadio (cur_vfo r) (cur_band r) (sideband r) (f_lo r) (f_vfo r) (tuning r)
    (pulses r) x (runsecs_msg r) (eeprom r) (gpioa_odr r) (gpiob_odr r)
    (gpioc_odr r) (pending r) (log r).
Definition set_runsecs_msg (x : Z) (r : radio) : radio :=
  mkRadio (cur_vfo r) (cur_band r) (sideband r) (f_lo r) (f_vfo r) (tuning r)
    (pulses r) (runsecs r) x (eeprom r) (gpioa_odr r) (gpiob_odr r)
    (gpioc_odr r) (pending r) (log r).
Definition set_eeprom (x : gmap Z Z) (r : radio) : radio :=
  mkRadio (cur_vfo r) (cur_band r) (sideband r) (f_lo r) (f_vfo r) (tuning r)
    (pulses r) (runsecs r) (runsecs_msg r) x (gpioa_odr r) (gpiob_odr r)
    (gpioc_odr r) (pending r) (log r).
Definition set_gpioa_odr (x : Z) (r : radio) : radio :=
  mkRadio (cur_vfo r) (cur_band r) (sideband r) (f_lo r) (f_vfo r) (tuning r)
    (pulses r) (runsecs r) (runsecs_msg r) (eeprom r) x (gpiob_odr r)
    (gpioc_odr r) (pending r) (log r).
Definition set_gpiob_odr (x : Z) (r : radio) : radio :=
  mkRadio (cur_vfo r) (cur_band r) (sideband r) (f_lo r) (f_vfo r) (tuning r)
    (pulses r) (runsecs r) (runsecs_msg r) (eeprom r) (gpioa_odr r) x
    (gpioc_odr r) (pending r) (log r).
Definition set_gpioc_odr (x : Z) (r : radio) : radio :=
  mkRadio (cur_vfo r) (cur_band r) (sideband r) (f_lo r) (f_vfo r) (tuning r)
    (pulses r) (runsecs r) (runsecs_msg r) (eeprom r) (gpioa_odr r)
    (gpiob_odr r) x (pending r) (log r).
Definition set_pending (x : list input) (r : radio) : radio :=
  mkRadio (cur_vfo r) (cur_band r) (sideband r) (f_lo r) (f_vfo r) (tuning r)
    (pulses r) (runsecs r) (runsecs_msg r) (eeprom r) (gpioa_odr r)
    (gpiob_odr r) (gpioc_odr r) x (log r).
Definition set_log (x : list event) (r : radio) : radio :=
  mkRadio (cur_vfo r) (cur_band r) (sideband r) (f_lo r) (f_vfo r) (tuning r)
    (pulses r) (runsecs r) (runsecs_msg r) (eeprom r) (gpioa_odr r)
    (gpiob_odr r) (gpioc_odr r) (pending r) x.

(** Emit one output. *)
Definition emit (e : event) (r : radio) : radio := set_log (e :: log r) r.

(** The outputs in the order they happened. *)
Definition trace (r : radio) : list event := rev (log r).

(** Code that waits for the hardware threads the machine and may find the
    inputs exhausted ([None]: the wait never ends on this input). *)
Definition M (A : Type) : Type := radio -> option (A * radio).

Definition ret {A} (a : A) : M A := fun r => Some (a, r).
Definition bind {A B} (c : M A) (k : A -> M B) : M B :=
  fun r => match c r with Some (a, r') => k a r' | None => None end.
Definition lift (f : radio -> radio) : M unit := fun r => Some (tt, f r).
Definition gets {A} (f : radio -> A) : M A := fun r => Some (f r, r).
Definition stuck {A} : M A := fun _ => None.

Notation "'let*' x ':=' c1 'in' c2" := (bind c1 (fun x => c2))
  (at level 10, x name, c1 at level 100, c2 at level 200).
Notation "c1 '>>' c2" := (bind c1 (fun _ => c2))
  (at level 90, c2 at level 200, right associativity).

(** ** Interrupt handlers *)

(** [EXTI0_IRQHandler], entered with the pending bit of line 0 set. *)
Definition EXTI0_IRQHandler (idr : Z) (r : radio) : radio :=
  let led := Z.lxor (gpioc_odr r) (Z.shiftl 1 13) in
  let r := emit (GpiocOdr led) (set_gpioc_odr led r) in
  let state := Z.land (to_u16 idr) 0x03 in
  if Z.land state 1 =? 0 then r
  else if Z.land state 2 =? 0
       then set_pulses (to_long (pulses r + 1)) (set_tuning (-1) r)
       else set_pulses (to_long (pulses r + 1)) (set_tuning 1 r).

(** [TIM2_IRQHandler], entered with the update flag set. *)
Definition TIM2_IRQHandler (r : radio) : radio :=
  set_runsecs (to_long (runsecs r + 1)) (set_pulses 0 r).

(** A counted loop [for(t = t0; t < t0 + n; t++) body]. *)
Fixpoint for_loop (n : nat) (t : Z) (body : Z -> radio -> radio) (r : radio)
  : radio :=
  match n with
  | O => r
  | S n' => for_loop n' (t + 1) body (body t r)
  end.

(** ** ADC and keypad *)

(** [get_adc]: the conversion is awaited in a busy loop, during which the
    interrupts that come first are served. *)
Fixpoint await_adc (ins : list input) (r : radio) : option (Z * radio) :=
  match ins with
  | [] => None
  | Adc dr :: rest => Some (dr, set_pending rest r)
  | Exti0 idr :: rest => await_adc rest (EXTI0_IRQHandler idr r)
  | Tim2 :: rest => await_adc rest (TIM2_IRQHandler r)
  end.

Definition get_adc (adc_channel : Z) : M Z := fun r => await_adc (pending r) r.

Definition calc_xpos (col : Z) : Z := col * FONTWIDTH.
Definition calc_ypos (row : Z) : Z := row * (FONTHEIGHT + 5) + 5.

Definition key_value : list Z := [370; 735; 1320; 2462; 1863; 3135].

(** The [while(get_adc(1) <= 4000)] loop of [get_keys]; every turn takes at
    least one conversion from the inputs. *)
Fixpoint get_keys_sample (fuel : nat) (secs0 adcval1 adcvalcnt : Z)
  : M (Z * Z) :=
  match fuel with
  | O => stuck
  | S fuel' =>
      let* held := get_adc 1 in
      if held <=? 4000 then
        let* a := get_adc 1 in
        let* now := gets runsecs in
        lift (emit (LcdPutnumber (calc_xpos 0) (calc_ypos 5)
                      (to_long (now - secs0)) (-1) YELLOW backcolor 1 1)) >>
        get_keys_sample fuel' secs0 (to_long (adcval1 + a))
          (to_long (adcvalcnt + 1))
      else ret (adcval1, adcvalcnt)
  end.

(** The [for(t1 = 0; t1 < 6; t1++)] loop of [get_keys] with its two
    [return]s, and the final [return -1]. *)
Fixpoint get_keys_match (n : nat) (t1 adcval0 secs0 : Z) (r : radio)
  : Z * radio :=
  match n with
  | O => (-1, r)
  | S n' =>
      if (idx key_value t1 - 100 <? adcval0) && (adcval0 <? idx key_value t1 + 100)
      then
        let r := emit (LcdPutstring (calc_xpos 0) (calc_ypos 6) "KEY:    "
                         WHITE backcolor 1 1) r in
        let r := set_runsecs_msg (runsecs r) r in
        if to_long (runsecs r - secs0) <? 2
        then (t1, emit (LcdPutnumber (calc_xpos 4) (calc_ypos 6) t1 (-1)
                          YELLOW backcolor 1 1) r)
        else (t1 + 6, emit (LcdPutnumber (calc_xpos 4) (calc_ypos 6) (t1 + 6)
                              (-1) YELLOW backcolor 1 1) r)
      else get_keys_match n' (t1 + 1) adcval0 secs0 r
  end.

(** [get_keys].  A division by a zero count (key released before the first
    sample of the loop) is undefined in C and has no result here. *)
Definition get_keys : M Z :=
  let* fuel := gets (fun r => S (length (pending r))) in
  let* adcval0 := get_adc 1 in
  let* secs0 := gets runsecs in
  if 4000 <? adcval0 then ret (-1)
  else
    let* s := get_keys_sample fuel secs0 0 0 in
    let adcval1 := fst s in
    let adcvalcnt := snd s in
    if adcvalcnt =? 0 then stuck
    else
      let adcval0 := to_long (Z.quot adcval1 adcvalcnt) in
      fun r => Some (get_keys_match 6 0 adcval0 secs0 r).

(** ** AD9951 serial link *)

(** [ODR |= (1 << pin)] and [ODR &= ~(1 << pin)] on a 32-bit register. *)
Definition odr_set (pin odr : Z) : Z := Z.lor odr (Z.shiftl 1 pin).
Definition odr_clr (pin odr : Z) : Z :=
  Z.land odr (to_ulong (Z.lnot (Z.shiftl 1 pin))).

(** A read-modify-write of [DDS_GPIO->ODR] (port B). *)
Definition dds_odr (f : Z -> Z) (r : radio) : radio :=
  let v := f (gpiob_odr r) in emit (GpiobOdr v) (set_gpiob_odr v r).

(** The loop of [spi_send_byte]: [n] bits left, mask [x]. *)
Fixpoint spi_send_bits (n : nat) (sbyte x : Z) (r : radio) : radio :=
  match n with
  | O => r
  | S n' =>
      let r := dds_odr (odr_clr DDS_SCLK) r in
      let r := if Z.land sbyte x =? 0
               then dds_odr (odr_clr DDS_SDIO) r
               else dds_odr (odr_set DDS_SDIO) r in
      let r := dds_odr (odr_set DDS_SCLK) r in
      spi_send_bits n' sbyte (Z.shiftr x 1) r
  end.

Definition spi_send_byte (sbyte : Z) (r : radio) : radio :=
  spi_send_bits 8 (to_ulong sbyte) (Z.shiftl 1 7) r.

(** IEEE 754 binary64 ([double]). *)
Definition dprec : Z := 53.
Definition demax : Z := 1024.

(** [unsigned long] to [double] (exact: 32 bits fit in the mantissa). *)
Definition ulong_to_double (z : Z) : spec_float :=
  binary_normalize dprec demax z 0 false.

(** [double] to [unsigned long]: the fraction is discarded.  A value outside
    the range of the type is undefined in C; the ARM run-time conversion
    saturates, and so does the model. *)
Definition double_to_ulong (x : spec_float) : Z :=
  match x with
  | S754_finite false m e =>
      Z.min (if 0 <=? e then Z.pos m * 2 ^ e else Z.pos m / 2 ^ (- e))
            (2 ^ 32 - 1)
  | S754_infinity false => 2 ^ 32 - 1
  | _ => 0
  end.

(** The literal [10.73741824] (2^32 / 400 MHz) as the compiler rounds it to
    binary64. *)
Definition dds_scale : spec_float := S754_finite false 6044629098073146 (-49).

(** [fword = (unsigned long) (f + INTERFREQUENCY) * 10.73741824;] the cast
    applies to the sum, the product is taken in [double] and converted on
    assignment. *)
Definition dds_fword (frequency : Z) : Z :=
  let f := to_ulong frequency in
  double_to_ulong
    (SFmul dprec demax (ulong_to_double (to_ulong (f + INTERFREQUENCY)))
       dds_scale).

(** The loop of [set_frequency] sending the four bytes of the tuning word. *)
Fixpoint set_frequency_bytes (n : nat) (fword comparebyte shiftbyte : Z)
  (r : radio) : radio :=
  match n with
  | O => r
  | S n' =>
      let resultbyte := to_long (Z.shiftr (Z.land fword comparebyte) shiftbyte) in
      let comparebyte := Z.shiftr comparebyte 8 in
      let shiftbyte := shiftbyte - 8 in
      set_frequency_bytes n' fword comparebyte shiftbyte
        (spi_send_byte resultbyte r)
  end.

Definition set_frequency (frequency : Z) (r : radio) : radio :=
  let fword := dds_fword frequency in
  let r := dds_odr (odr_clr DDS_IO_UD) r in
  let r := spi_send_byte 0x04 r in
  let r := set_frequency_bytes 4 fword 0xFF000000 24 r in
  dds_odr (odr_set DDS_IO_UD) r.

(** What the AD9951 takes from the pins: SDIO is sampled on every rising
    edge of SCLK.  [odrs] are the successive values of the port, [prev] its
    value before the first of them. *)
Fixpoint dds_shift_in (prev : Z) (odrs : list Z) : list bool :=
  match odrs with
  | [] => []
  | v :: rest =>
      (if negb (Z.testbit prev DDS_SCLK) && Z.testbit v DDS_SCLK
       then [Z.testbit v DDS_SDIO] else [])
        ++ dds_shift_in v rest
  end.

(** The value of a bit string, most significant bit first. *)
Definition bits_value (bs : list bool) : Z :=
  fold_left (fun acc (b : bool) => 2 * acc + (if b then 1 else 0)) bs 0.

(** The bits grouped into bytes. *)
Fixpoint bits_bytes (fuel : nat) (bs : list bool) : list Z :=
  match fuel, bs with
  | S fuel', _ :: _ => bits_value (take 8 bs) :: bits_bytes fuel' (drop 8 bs)
  | _, _ => []
  end.

Definition dds_bytes (bs : list bool) : list Z := bits_bytes (length bs) bs.

(** ** 24C65 EEPROM *)

(** One byte write; the I2C transaction carries the address as two bytes. *)
Definition eeprom_write (mem_address value : Z) (r : radio) : radio :=
  let a := to_u16 mem_address in
  let v := to_uchar value in
  emit (EepromWrite a v) (set_eeprom (<[a := v]> (eeprom r)) r).

(** One byte read; a cell never written holds the erased value 0xFF. *)
Definition eeprom_read (mem_address : Z) (r : radio) : Z :=
  to_uchar (default 0xFF (eeprom r !! to_u16 mem_address)).

Definition is_freq_ok (f cband : Z) : Z :=
  if (idx band_f0 cband <=? f) && (f <=? idx band_f1 cband) then 1 else 0.

Definition eeprom_load_frequency (band vfo : Z) (r : radio) : Z :=
  let start_adr := to_long (vfo * 4 + band * 8 + 128) in
  let hmsb := eeprom_read start_adr r in
  let hlsb := eeprom_read (start_adr + 1) r in
  let lmsb := eeprom_read (start_adr + 2) r in
  let llsb := eeprom_read (start_adr + 3) r in
  (* long * int and long + long are taken in long; adding the unsigned int
     product turns the sum into unsigned long; the result is stored in a
     long. *)
  let hi := to_long (to_long (16777216 * hmsb) + to_long (65536 * hlsb)) in
  let lo := to_ulong (256 * lmsb) in
  to_long (to_ulong (to_ulong (to_ulong hi + lo) + llsb)).

Definition eeprom_store_frequency (band vfo f : Z) (r : radio) : radio :=
  let f := to_long f in
  let start_adr := to_long (vfo * 4 + band * 8 + 128) in
  let hiword := Z.shiftr f 16 in
  let loword := to_long (f - to_long (Z.shiftl hiword 16)) in
  let hmsb := to_uchar (Z.shiftr hiword 8) in
  let hlsb := to_uchar (hiword - Z.shiftl hmsb 8) in
  let lmsb := to_uchar (Z.shiftr loword 8) in
  let llsb := to_uchar (loword - Z.shiftl lmsb 8) in
  let r := eeprom_write start_adr hmsb r in
  let r := eeprom_write (start_adr + 1) hlsb r in
  let r := eeprom_write (start_adr + 2) lmsb r in
  eeprom_write (start_adr + 3) llsb r.

Definition save_all_vfos (r : radio) : radio :=
  let r :=
    for_loop 8 0 (fun t0 =>
      for_loop 2 0 (fun t1 r =>
        eeprom_store_frequency t0 t1 (idx2 (f_vfo r) t0 t1) r)) r in
  eeprom_write 257 (cur_vfo r) r.

(** The body of the inner loop of [load_all_vfos]. *)
Definition load_vfo (t0 t1 : Z) (r : radio) : radio :=
  let r := set_f_vfo (upd2 (f_vfo r) t0 t1 (eeprom_load_frequency t0 t1 r)) r in
  if is_freq_ok (idx2 (f_vfo r) t0 t1) t0 =? 0
  then set_f_vfo (upd2 (f_vfo r) t0 t1 (idx2 f_vfo0 t0 t1)) r
  else r.

Definition load_all_vfos (r : radio) : radio :=
  for_loop 8 0 (fun t0 => for_loop 2 0 (load_vfo t0)) r.

(** ** LO calibration and band relays *)

(** [si5351_set_freq]: the call is recorded; the multisynth registers it
    computes (in floating point) are not unfolded. *)
Definition si5351_set_freq (synth freq : Z) (r : radio) : radio :=
  emit (Si5351SetFreq synth freq) r.

(** The display routines only draw. *)
Definition show_frequency1 (f csize : Z) : radio -> radio :=
  emit (ShowFrequency1 f csize).
Definition show_band (band invert : Z) : radio -> radio :=
  emit (ShowBand band invert).
Definition show_sideband (sb invert : Z) : radio -> radio :=
  emit (ShowSideband sb invert).
Definition show_vfo (cvfo cband invert : Z) : radio -> radio :=
  emit (ShowVfo cvfo cband invert).
Definition show_msg (msg : string) (fcolor : Z) : radio -> radio :=
  emit (ShowMsg msg fcolor).

(** [while(get_keys() != -1);] *)
Fixpoint set_lo_release (fuel : nat) : M unit :=
  match fuel with
  | O => stuck
  | S fuel' =>
      let* key := get_keys in
      if key =? -1 then ret tt else set_lo_release fuel'
  end.

(** [while((key != 6) && (key != 7))] with the tuning of the LO. *)
Fixpoint set_lo_tune (fuel : nat) (key f_lo_tmp : Z) : M (Z * Z) :=
  match fuel with
  | O => stuck
  | S fuel' =>
      if (key =? 6) || (key =? 7) then ret (key, f_lo_tmp)
      else
        let* t := gets tuning in
        let* p := gets pulses in
        let f_lo_tmp' :=
          if t =? 0 then f_lo_tmp
          else to_long (f_lo_tmp + to_long (to_long (p * p) * t)) in
        (if t =? 0 then ret tt
         else lift (fun r =>
                let r := si5351_set_freq SYNTH_MS_0 f_lo_tmp' r in
                let r := show_frequency1 0 2 r in
                let r := show_frequency1 f_lo_tmp' 2 r in
                set_tuning 0 r)) >>
        let* key' := get_keys in
        set_lo_tune fuel' key' f_lo_tmp'
  end.

Definition set_lo (sb : Z) : M Z :=
  let* fuel := gets (fun r => S (length (pending r))) in
  let* f_lo_tmp := gets (fun r => idx (f_lo r) sb) in
  lift (show_sideband sb 1) >>
  lift (show_frequency1 0 2) >>
  lift (show_frequency1 f_lo_tmp 2) >>
  set_lo_release fuel >>
  let* key := get_keys in
  let* kf := set_lo_tune fuel key f_lo_tmp in
  let key := fst kf in
  let f_lo_tmp := snd kf in
  (if key =? 6 then
     lift (fun r =>
       let r := si5351_set_freq SYNTH_MS_0 (idx (f_lo r) sb) r in
       let r := show_msg "Aborted." LIGHTRED r in
       set_runsecs_msg (runsecs r) r)
   else if key =? 7 then
     lift (fun r =>
       let r := set_f_lo (upd (f_lo r) sb f_lo_tmp) r in
       let r := eeprom_store_frequency 8 sb (idx (f_lo r) sb) r in
       let r := show_msg "Stored." LIGHTGREEN r in
       set_runsecs_msg (runsecs r) r)
   else ret tt) >>
  ret key.

(** A read-modify-write of [GPIOA->ODR]. *)
Definition relay_odr (f : Z -> Z) (r : radio) : radio :=
  let v := f (gpioa_odr r) in emit (GpioaOdr v) (set_gpioa_odr v r).

Definition set_band_relay (b : Z) (r : radio) : radio :=
  let r :=
    for_loop 3 0 (fun t1 r =>
      if Z.land (Z.shiftl 1 t1) b =? 0
      then relay_odr (odr_clr (10 + t1)) r
      else relay_odr (odr_set (10 + t1)) r) r in
  let r := si5351_set_freq SYNTH_MS_0 (idx (f_lo r) (idx pref_sideband b)) r in
  show_sideband (idx pref_sideband b) 0 r.

(** ** [main] *)

(** The machine when [main] is entered: zeroed globals, the EEPROM as it was
    left, the ports at their reset value. *)
Definition power_on (ee : gmap Z Z) (ins : list input) : radio :=
  {| cur_vfo := 0; cur_band := 0; sideband := 0;
     f_lo := [0; 0];
     f_vfo := replicate 8 [0; 0];
     tuning := 0; pulses := 0; runsecs := 0; runsecs_msg := 0;
     eeprom := ee;
     gpioa_odr := 0; gpiob_odr := 0; gpioc_odr := 0;
     pending := ins; log := [] |}.

(** The body of the loop of [main] that loads the two LO frequencies. *)
Definition main_load_lo (t1 : Z) (r : radio) : radio :=
  let r := set_f_lo (upd (f_lo r) t1 (eeprom_load_frequency 8 t1 r)) r in
  let r :=
    if (idx (f_lo r) t1 <? INTERFREQUENCY - 3000)
       || (INTERFREQUENCY + 3000 <? idx (f_lo r) t1)
    then set_f_lo (upd (f_lo r) t1
                     (to_long (INTERFREQUENCY + 1500 * (t1 * 2 - 1)))) r
    else r in
  si5351_set_freq SYNTH_MS_0 (idx (f_lo r) t1) r.

(** "Load values", first part: the band and the VFO used last. *)
Definition main_load_last (r : radio) : radio :=
  let r := set_cur_band (eeprom_read 256 r) r in
  let r := if (cur_band r <? 0) || (7 <? cur_band r)
           then set_cur_band 2 r else r in
  let r := set_cur_vfo (eeprom_read 257 r) r in
  if (cur_vfo r <? 0) || (1 <? cur_vfo r) then set_cur_vfo 0 r else r.

(** "Display data on screen", up to the sideband field. *)
Definition main_screen (r : radio) : radio :=
  let r := set_band_relay (cur_band r) r in
  let r := show_band (cur_band r) 0 r in
  let r := show_vfo (cur_vfo r) (cur_band r) 0 r in
  let r := show_frequency1 (idx2 (f_vfo r) (cur_band r) (cur_vfo r)) 2 r in
  show_sideband 1 0 r.

(** [main] from "Load values" to the first screen: last band and VFO, the
    16 VFO frequencies, the sideband, the two LO frequencies. *)
Definition main_load (r : radio) : radio :=
  let r := main_load_last r in
  let r := load_all_vfos r in
  let r := set_sideband (idx pref_sideband (cur_band r)) r in
  let r := for_loop 2 0 main_load_lo r in
  main_screen r.

(** The first statement of the loop body: [if(tuning) { ... }]. *)
Definition main_tune (r : radio) : radio :=
  if tuning r =? 0 then r
  else
    let f := idx2 (f_vfo r) (cur_band r) (cur_vfo r) in
    let step := to_long (to_long (pulses r * pulses r) * tuning r) in
    let r := set_f_vfo (upd2 (f_vfo r) (cur_band r) (cur_vfo r)
                          (to_long (f + step))) r in
    let r := set_frequency (idx2 (f_vfo r) (cur_band r) (cur_vfo r)) r in
    let r := show_frequency1 (idx2 (f_vfo r) (cur_band r) (cur_vfo r)) 2 r in
    set_tuning 0 r.

(** What a band change does once [cur_band] is updated (cases 0 and 3). *)
Definition main_band_changed (r : radio) : radio :=
  let r := set_frequency (idx2 (f_vfo r) (cur_band r) (cur_vfo r)) r in
  let r := show_frequency1 0 2 r in
  let r := show_frequency1 (idx2 (f_vfo r) (cur_band r) (cur_vfo r)) 2 r in
  let r := show_band (cur_band r) 0 r in
  let r := set_band_relay (cur_band r) r in
  eeprom_write 256 (cur_band r) r.

(** [switch(key)] *)
Definition main_switch (key : Z) : M unit :=
  match key with
  | 0 => lift (fun r =>
           if cur_band r <? MAXBANDS - 1
           then main_band_changed (set_cur_band (to_long (cur_band r + 1)) r)
           else r)
  | 1 => lift (fun r =>
           let r := set_sideband (c_not (sideband r)) r in
           show_sideband (sideband r) 0 r)
  | 2 => lift (fun r =>
           let r := set_cur_vfo (c_not (cur_vfo r)) r in
           let r := eeprom_write 257 (cur_vfo r) r in
           let r := show_vfo (cur_vfo r) (cur_band r) 0 r in
           let r := set_frequency (idx2 (f_vfo r) (cur_band r) (cur_vfo r)) r in
           show_frequency1 (idx2 (f_vfo r) (cur_band r) (cur_vfo r)) 2 r)
  | 3 => lift (fun r =>
           if 0 <? cur_band r
           then main_band_changed (set_cur_band (to_long (cur_band r - 1)) r)
           else r)
  | 4 => lift (fun r =>
           let r := save_all_vfos r in
           let r := show_msg "Saved." LIGHTGREEN r in
           set_runsecs_msg (runsecs r) r)
  | 6 => let* _ := set_lo 0 in
         lift (fun r =>
           let r := show_frequency1 (idx2 (f_vfo r) (cur_band r) (cur_vfo r)) 2 r in
           show_sideband (sideband r) 0 r)
  | 7 => let* _ := set_lo 1 in
         lift (fun r =>
           let r := show_frequency1 (idx2 (f_vfo r) (cur_band r) (cur_vfo r)) 2 r in
           show_sideband (sideband r) 0 r)
  | _ => ret tt
  end.

(** The loop body up to the end of the [switch]. *)
Definition main_step : M unit :=
  lift main_tune >>
  let* key := get_keys in
  main_switch key.

(** ** Notions used in the statements *)

(** A table of [n] rows of [m] entries. *)
Definition rows (n m : nat) (a : list (list Z)) : Prop :=
  length a = n /\ Forall (fun row => length row = m) a.

(** The four bytes [eeprom_store_frequency] derives from [f]. *)
Definition store_bytes (f : Z) : Z * Z * Z * Z :=
  let f := to_long f in
  let hiword := Z.shiftr f 16 in
  let loword := to_long (f - to_long (Z.shiftl hiword 16)) in
  let hmsb := to_uchar (Z.shiftr hiword 8) in
  let hlsb := to_uchar (hiword - Z.shiftl hmsb 8) in
  let lmsb := to_uchar (Z.shiftr loword 8) in
  let llsb := to_uchar (loword - Z.shiftl lmsb 8) in
  (hmsb, hlsb, lmsb, llsb).

(** Its four writes. *)
Definition store4 (a : Z) (bs : Z * Z * Z * Z) (r : radio) : radio :=
  match bs with
  | (hmsb, hlsb, lmsb, llsb) =>
      eeprom_write (a + 3) llsb (eeprom_write (a + 2) lmsb
        (eeprom_write (a + 1) hlsb (eeprom_write a hmsb r)))
  end.

(** What [eeprom_load_frequency] makes of four bytes. *)
Definition load_bytes (hmsb hlsb lmsb llsb : Z) : Z :=
  let hi := to_long (to_long (16777216 * hmsb) + to_long (65536 * hlsb)) in
  let lo := to_ulong (256 * lmsb) in
  to_long (to_ulong (to_ulong (to_ulong hi + lo) + llsb)).

(** The value [load_all_vfos] leaves in slot (b, v): the persisted one if
    [is_freq_ok] accepts it, the factory default otherwise. *)
Definition vfo_checked (r : radio) (b v : Z) : Z :=
  let x := eeprom_load_frequency b v r in
  if is_freq_ok x b =? 0 then idx2 f_vfo0 b v else x.

(** The value the start-up leaves in [f_lo[s]]. *)
Definition lo_checked (r : radio) (s : Z) : Z :=
  let x := eeprom_load_frequency 8 s r in
  if (x <? INTERFREQUENCY - 3000) || (INTERFREQUENCY + 3000 <? x)
  then to_long (INTERFREQUENCY + 1500 * (s * 2 - 1))
  else x.

(** [r'] is [r] after the writes [w] (oldest first) to port B, and nothing
    else. *)
Definition dds_wrote (r : radio) (w : list Z) (r' : radio) : Prop :=
  r' = set_log (rev (map GpiobOdr w) ++ log r)
         (set_gpiob_odr (List.last w (gpiob_odr r)) r).

(** The bits [spi_send_bits] selects with its mask. *)
Fixpoint mask_bits (n : nat) (sbyte x : Z) : list bool :=
  match n with
  | O => []
  | S n' => negb (Z.land sbyte x =? 0) :: mask_bits n' sbyte (Z.shiftr x 1)
  end.

(** The bits [set_frequency_bytes] sends. *)
Fixpoint fword_bits (n : nat) (fword comparebyte shiftbyte : Z) : list bool :=
  match n with
  | O => []
  | S n' =>
      mask_bits 8
        (to_ulong (to_long (Z.shiftr (Z.land fword comparebyte) shiftbyte)))
        (Z.shiftl 1 7)
      ++ fword_bits n' fword (Z.shiftr comparebyte 8) (shiftbyte - 8)
  end.

(** [r'] is [r] after the writes [w] to port B, which clock the bits [bs]
    into the AD9951 and leave the update strobe as it was. *)
Definition dds_sent (r : radio) (w : list Z) (bs : list bool) (r' : radio)
  : Prop :=
  dds_wrote r w r'
  /\ dds_shift_in (gpiob_odr r) w = bs
  /\ Forall (fun v => Z.testbit v DDS_IO_UD
                      = Z.testbit (gpiob_odr r) DDS_IO_UD) w.

(** The update strobe IO_UD is low on a value of the port. *)
Definition strobe_low (v : Z) : Prop := Z.testbit v DDS_IO_UD = false.

(** Rounding of a quotient of naturals to the nearest integer. *)
Definition round_div (a b : Z) : Z := (2 * a + b) / (2 * b).

(** Invariant of the two loops of [load_all_vfos], started in [r0]: the
    slots before (i, j) in row-major order are loaded. *)
Definition vfos_loaded (r0 : radio) (i j : Z) (s : radio) : Prop :=
  exists tbl,
    s = set_f_vfo tbl r0 /\ rows 8 2 tbl
    /\ forall b v, 0 <= b < 8 -> 0 <= v < 2 ->
         b < i \/ (b = i /\ v < j) -> idx2 tbl b v = vfo_checked r0 b v.

(** Invariant of the LO loop of [main], started in [r0]. *)
Definition los_loaded (r0 : radio) (i : Z) (s : radio) : Prop :=
  exists lo l,
    s = set_log l (set_f_lo lo r0) /\ length lo = 2%nat
    /\ forall j, 0 <= j < i -> idx lo j = lo_checked r0 j.

(** The state is well formed: the tables have their declared shape and the
    band and VFO indices are in range. *)
Definition radio_wf (r : radio) : Prop :=
  rows 8 2 (f_vfo r) /\ length (f_lo r) = 2%nat
  /\ 0 <= cur_band r <= 7 /\ 0 <= cur_vfo r <= 1.

(** [r'] has the tables, the band and the VFO of [r], up to the content of
    [f_lo]. *)
Definition keeps_shape (r r' : radio) : Prop :=
  f_vfo r' = f_vfo r /\ length (f_lo r') = length (f_lo r)
  /\ cur_band r' = cur_band r /\ cur_vfo r' = cur_vfo r.

(** [r'] has the radio state of [r]: band, VFO, sideband, the frequency
    tables, the EEPROM content and the relay and DDS ports. *)
Definition keeps_radio (r r' : radio) : Prop :=
  cur_vfo r' = cur_vfo r /\ cur_band r' = cur_band r
  /\ sideband r' = sideband r /\ f_lo r' = f_lo r /\ f_vfo r' = f_vfo r
  /\ eeprom r' = eeprom r /\ gpioa_odr r' = gpioa_odr r
  /\ gpiob_odr r' = gpiob_odr r.

(** The states the program is in at the top of the control loop. *)
Inductive running : radio -> Prop :=
  | running_start ee ins : running (main_load (power_on ee ins))
  | running_step r r' :
      running r -> main_step r = Some (tt, r') -> running r'.

(** ** Saving the VFOs *)

(** Invariant of the two loops of [save_all_vfos], started in [r0]: the
    slots before (i, j) are stored, the tables are as they were and the
    EEPROM outside of the 16 VFO slots is untouched. *)
Definition vfos_saved (r0 : radio) (i j : Z) (s : radio) : Prop :=
  f_vfo s = f_vfo r0 /\ cur_vfo s = cur_vfo r0
  /\ (forall a, 0 <= a < 128 \/ 192 <= a < 65536 ->
        eeprom_read a s = eeprom_read a r0)
  /\ forall b v, 0 <= b < 8 -> 0 <= v < 2 ->
       b < i \/ (b = i /\ v < j) ->
       eeprom_load_frequency b v s = to_long (idx2 (f_vfo r0) b v).

(** ** Band relays *)

(** The band the relay pins A10..A12 select on a value of port A. *)
Definition relay_band (g : Z) : Z := Z.land (Z.shiftr g 10) 7.

(** Port A after the loop of [set_band_relay]. *)
Definition relay_pins (b g : Z) : Z :=
  let pin t1 g :=
    if Z.land (Z.shiftl 1 t1) b =? 0
    then odr_clr (10 + t1) g else odr_set (10 + t1) g in
  pin 2 (pin 1 (pin 0 g)).

(** ** The persisted selection *)

(** The band and the VFO a restart would select: bytes 256 and 257 of the
    EEPROM as [main] checks them. *)
Definition last_band (r : radio) : Z :=
  let b := eeprom_read 256 r in if (b <? 0) || (7 <? b) then 2 else b.
Definition last_vfo (r : radio) : Z :=
  let v := eeprom_read 257 r in if (v <? 0) || (1 <? v) then 0 else v.

(** The relays and the EEPROM follow the selection, and the sideband flag
    is an index of [f_lo]. *)
Definition tracks (r : radio) : Prop :=
  relay_band (gpioa_odr r) = cur_band r
  /\ last_band r = cur_band r /\ last_vfo r = cur_vfo r
  /\ (sideband r = 0 \/ sideband r = 1).

(** ** ST7735 serial link *)

(** The pins of the LCD on port A. *)
Definition CLK : Z := 0.
Definition DATA : Z := 1.
Definition DC_AO : Z := 2.

Definition ST7735_CASET : Z := 0x2A.
Definition ST7735_RASET : Z := 0x2B.
Definition ST7735_RAMWR : Z := 0x2C.

(** The loop [for(t1 = 7; t1 >= 0; t1--)] of [lcd_write_command] and
    [lcd_write_data], [n] turns left; [LCD_GPIO] is port A. *)
Fixpoint lcd_write_bits (n : nat) (value t1 : Z) (r : radio) : radio :=
  match n with
  | O => r
  | S n' =>
      let r := relay_odr (odr_clr CLK) r in
      let r := if Z.land value (Z.shiftl 1 t1) =? 0
               then relay_odr (odr_clr DATA) r
               else relay_odr (odr_set DATA) r in
      let r := relay_odr (odr_set CLK) r in
      lcd_write_bits n' value (t1 - 1) r
  end.

Definition lcd_write_command (cmd : Z) (r : radio) : radio :=
  lcd_write_bits 8 cmd 7 (relay_odr (odr_clr DC_AO) r).

Definition lcd_write_data (dvalue : Z) (r : radio) : radio :=
  lcd_write_bits 8 dvalue 7 (relay_odr (odr_set DC_AO) r).

Definition lcd_setwindow (x0 y0 x1 y1 : Z) (r : radio) : radio :=
  let r := lcd_write_command ST7735_CASET r in
  let r := lcd_write_data 0x00 r in
  let r := lcd_write_data x0 r in
  let r := lcd_write_data 0x00 r in
  let r := lcd_write_data x1 r in
  let r := lcd_write_command ST7735_RASET r in
  let r := lcd_write_data 0x00 r in
  let r := lcd_write_data y0 r in
  let r := lcd_write_data 0x00 r in
  lcd_write_data y1 r.

Definition METERY : Z := 86.

(** [draw_meter_bar].  The loop bound is [((x1 - x0) << 2) + 4]; for
    [x1 < x0] the shift of a negative value is undefined in C, GCC shifts
    the two's complement pattern and the loop body is then not entered
    when the bound is not positive. *)
Definition draw_meter_bar (x0 x1 fcol : Z) (r : radio) : radio :=
  let r := lcd_setwindow (to_long (x0 + 2)) METERY (to_long (x1 + 2)) 94 r in
  let r := lcd_write_command ST7735_RAMWR r in
  let n := to_long (to_long (Z.shiftl (to_long (x1 - x0)) 2) + 4) in
  for_loop (Z.to_nat n) 0
    (fun _ r => lcd_write_data fcol (lcd_write_data (Z.shiftr fcol 8) r)) r.

(** What the ST7735 takes from the pins: on every rising edge of CLK it
    samples the levels of DC (command or data) and DATA. *)
Fixpoint lcd_shift_in (prev : Z) (odrs : list Z) : list (bool * bool) :=
  match odrs with
  | [] => []
  | v :: rest =>
      (if negb (Z.testbit prev CLK) && Z.testbit v CLK
       then [(Z.testbit v DC_AO, Z.testbit v DATA)] else [])
        ++ lcd_shift_in v rest
  end.

(** [n] samples with DC at [dc] and the bits [t1], [t1 - 1], ... of
    [value] on DATA. *)
Fixpoint lcd_bits (n : nat) (dc : bool) (value t1 : Z) : list (bool * bool) :=
  match n with
  | O => []
  | S n' => (dc, Z.testbit value t1) :: lcd_bits n' dc value (t1 - 1)
  end.

(** The eight samples of one byte, most significant bit first. *)
Definition lcd_byte_bits (dc : bool) (value : Z) : list (bool * bool) :=
  lcd_bits 8 dc value 7.

(** The samples of a sequence of commands ([false]) and data ([true]). *)
Definition lcd_frame (l : list (bool * Z)) : list (bool * bool) :=
  flat_map (fun b => lcd_byte_bits (fst b) (snd b)) l.

(** [r'] is [r] after the writes [w] (oldest first) to port A, and nothing
    else. *)
Definition lcd_wrote (r : radio) (w : list Z) (r' : radio) : Prop :=
  r' = set_log (rev (map GpioaOdr w) ++ log r)
         (set_gpioa_odr (List.last w (gpioa_odr r)) r).

(** [v] differs from [g] on the pins CLK, DATA and DC at most. *)
Definition lcd_pins_only (g v : Z) : Prop :=
  forall q, 3 <= q < 32 -> Z.testbit v q = Z.testbit g q.

(** [r'] is [r] after the writes [w] to port A, which clock the samples
    [bs] into the ST7735, leave CLK high and touch no other pin. *)
Definition lcd_sent (r : radio) (w : list Z) (bs : list (bool * bool))
  (r' : radio) : Prop :=
  lcd_wrote r w r'
  /\ lcd_shift_in (gpioa_odr r) w = bs
  /\ Forall (lcd_pins_only (gpioa_odr r)) w.

(** ** Si5351 *)

Definition FXTAL : Z := 25000000.
Definition PLLRATIO : Z := 32.
Definition SYNTH_PLL_A : Z := 26.

(** [long] to [double] (exact). *)
Definition long_to_double (z : Z) : spec_float :=
  binary_normalize dprec demax z 0 false.

(** [p1] and [p2] of [si5351_start] and [si5351_set_freq], in [unsigned
    long].  The quotient [128 * b / c] is an integer division; as an
    integer below 2^32 it is exact in [double], so that [floor] and the
    conversion back leave it as it is. *)
Definition si5351_p1 (a b c : Z) : Z :=
  to_ulong (to_ulong (to_ulong (128 * a) + to_ulong (128 * b) / c) - 512).
Definition si5351_p2 (b c : Z) : Z :=
  to_ulong (to_ulong (128 * b) - to_ulong (c * (to_ulong (128 * b) / c))).

(** [fdiv], [a] and [b] of [si5351_set_freq]. *)
Definition si5351_fdiv (freq : Z) : spec_float :=
  SFdiv dprec demax (ulong_to_double (to_ulong (FXTAL * PLLRATIO)))
    (long_to_double freq).
Definition si5351_a (freq : Z) : Z := double_to_ulong (si5351_fdiv freq).
Definition si5351_b (freq : Z) : Z :=
  let rm := SFsub dprec demax (si5351_fdiv freq)
              (ulong_to_double (si5351_a freq)) in
  double_to_ulong (SFmul dprec demax rm (ulong_to_double 0xFFFFF)).

(** The eight [i2c_write_byte1] calls of [si5351_set_freq] once [a] and
    [b] are known: register address and data, both [uint8_t]. *)
Definition si5351_regs (synth a b : Z) : list (Z * Z) :=
  let c := 0xFFFFF in
  let p1 := to_long (si5351_p1 a b c) in
  let p2 := to_long (si5351_p2 b c) in
  let p3 := to_long c in
  [ (to_uchar (synth + 0), to_uchar (Z.shiftr (Z.land p3 0xFF00) 8));
    (to_uchar (synth + 1), to_uchar (Z.land p3 0xFF));
    (to_uchar (synth + 2), to_uchar (Z.land (Z.shiftr p1 16) 0x03));
    (to_uchar (synth + 3), to_uchar (Z.shiftr (Z.land p1 0xFF00) 8));
    (to_uchar (synth + 4), to_uchar (Z.land p1 0xFF));
    (to_uchar (synth + 5),
     to_uchar (Z.lor (Z.land p3 0xF0) (Z.land (Z.shiftr p2 16) 0x0F)));
    (to_uchar (synth + 6), to_uchar (Z.shiftr (Z.land p2 0x0000FF00) 8));
    (to_uchar (synth + 7), to_uchar (Z.land p2 0x000000FF)) ].

(** The register traffic of [si5351_set_freq]. *)
Definition si5351_set_freq_i2c (synth freq : Z) : list (Z * Z) :=
  si5351_regs synth (si5351_a freq) (si5351_b freq).

(** The sixteen [i2c_write_byte1] calls of [si5351_start]. *)
Definition si5351_start_i2c : list (Z * Z) :=
  let a := PLLRATIO in
  let b := 0 in
  let c := 0xFFFFF in
  let p1 := si5351_p1 a b c in
  let p2 := si5351_p2 b c in
  [ (15, 0); (149, 0); (183, 0xD2); (3, 0x00); (16, 0x0E); (17, 0x0E);
    (18, 0x0E); (177, Z.shiftl 1 5);
    (to_uchar SYNTH_PLL_A, 0xFF);
    (to_uchar (SYNTH_PLL_A + 1), 0xFF);
    (to_uchar (SYNTH_PLL_A + 2), to_uchar (Z.shiftr (Z.land p1 0x00030000) 16));
    (to_uchar (SYNTH_PLL_A + 3), to_uchar (Z.shiftr (Z.land p1 0x0000FF00) 8));
    (to_uchar (SYNTH_PLL_A + 4), to_uchar (Z.land p1 0x000000FF));
    (to_uchar (SYNTH_PLL_A + 5),
     to_uchar (Z.lor 0xF0 (Z.shiftr (Z.land p2 0x000F0000) 16)));
    (to_uchar (SYNTH_PLL_A + 6), to_uchar (Z.shiftr (Z.land p2 0x0000FF00) 8));
    (to_uchar (SYNTH_PLL_A + 7), to_uchar (Z.land p2 0x000000FF)) ].

(** The parameters P1, P2, P3 the Si5351 reads from the eight registers
    of a PLL or multisynth (AN619): P3[15:0], P1[17:0], then P3[19:16]
    and P2[19:0]. *)
Definition si5351_params (d : list Z) : Z * Z * Z :=
  let p1 := (idx d 2 mod 4) * 65536 + idx d 3 * 256 + idx d 4 in
  let p2 := (idx d 5 mod 16) * 65536 + idx d 6 * 256 + idx d 7 in
  let p3 := (idx d 5 / 16) * 65536 + idx d 0 * 256 + idx d 1 in
  (p1, p2, p3).

(** The check of one frequency: the divider is 79 or 80 plus a fraction
    below one, and the output frequency [f_vco / (a + b / c)] exceeds the
    requested one by less than 1 Hz. *)
Definition si5351_close (freq : Z) : bool :=
  let c := 0xFFFFF in
  let a := si5351_a freq in
  let b := si5351_b freq in
  (79 <=? a) && (a <=? 80) && (0 <=? b) && (b <? c)
  && (freq * (a * c + b) <=? FXTAL * PLLRATIO * c)
  && (FXTAL * PLLRATIO * c <? (freq + 1) * (a * c + b)).

(** The integers from [lo], [n] of them. *)
Definition Zrange (lo : Z) (n : nat) : list Z :=
  map (fun i => lo + Z.of_nat i) (seq 0 n).

(** ** Supply voltage and PA temperature *)

(** The ADC channels. *)
Definition VDD : Z := 2.
Definition TMP : Z := 4.

(** [double] to [int]: the fraction is discarded.  A value outside the
    range of the type is undefined in C; the ARM conversion saturates, and
    so does the model. *)
Definition double_to_long (x : spec_float) : Z :=
  match x with
  | S754_finite s m e =>
      let a := if 0 <=? e then Z.pos m * 2 ^ e else Z.pos m / 2 ^ (- e) in
      if s then Z.max (- a) (- 2 ^ 31) else Z.min a (2 ^ 31 - 1)
  | S754_infinity s => if s then - 2 ^ 31 else 2 ^ 31 - 1
  | _ => 0
  end.

(** The literals [0.088623046875] (363 / 4096, exact in binary64), [3.3]
    and [17.62] (rounded to binary64 as the compiler does: to nearest). *)
Definition vdd_scale : spec_float := binary_normalize dprec demax 363 (-12) false.
Definition d_3_3 : spec_float :=
  SFdiv dprec demax (long_to_double 33) (long_to_double 10).
Definition d_17_62 : spec_float :=
  SFdiv dprec demax (long_to_double 1762) (long_to_double 100).

(** [get_vdd] after the conversion: [(int) ((double) adc * 0.088623046875)]. *)
Definition vdd_of_adc (adc : Z) : Z :=
  double_to_long (SFmul dprec demax (long_to_double adc) vdd_scale).

Definition get_vdd : M Z :=
  let* adc := get_adc VDD in ret (vdd_of_adc adc).

(** [get_pa_temp] after the conversion. *)
Definition pa_temp_of_adc (adc : Z) : Z :=
  let ux := SFdiv dprec demax (SFmul dprec demax d_3_3 (long_to_double adc))
              (long_to_double 4096) in
  let rx := SFdiv dprec demax (long_to_double 1000)
              (SFsub dprec demax (SFdiv dprec demax d_3_3 ux)
                 (long_to_double 1)) in
  let temp := SFdiv dprec demax (SFsub dprec demax rx (long_to_double 1630))
                d_17_62 in
  double_to_long temp.

Definition get_pa_temp : M Z :=
  let* adc := get_adc TMP in ret (pa_temp_of_adc adc).

(** The list is in ascending order. *)
Fixpoint ascending (prev : Z) (l : list Z) : bool :=
  match l with
  | [] => true
  | x :: l' => (prev <=? x) && ascending x l'
  end.

(** ** String functions *)

(** A [char] buffer: the bytes from the pointer on.  A write or a read
    outside of it is undefined in C and has no result here. *)
Definition buf_set (buf : list Z) (i x : Z) : option (list Z) :=
  if (0 <=? i) && (i <? Z.of_nat (length buf))
  then Some (<[Z.to_nat i := to_uchar x]> buf) else None.

Definition buf_get (buf : list Z) (i : Z) : option Z :=
  if 0 <=? i then buf !! Z.to_nat i else None.

(** [for(i = 0; i < buflen; i++) *(buf + i) = 0;] *)
Fixpoint int2asc_fill (n : nat) (i : Z) (buf : list Z) : option (list Z) :=
  match n with
  | O => Some buf
  | S n' => buf ← buf_set buf i 0; int2asc_fill n' (i + 1) buf
  end.

(** [while(dd)]: the digits, and the decimal point after the digit of
    weight 10^dec. *)
Fixpoint int2asc_digits (fuel : nat) (n dd c xp dec : Z) (buf : list Z)
  : option (Z * list Z) :=
  match fuel with
  | O => None
  | S fuel' =>
      if dd =? 0 then Some (xp, buf)
      else
        let i := to_long (Z.quot n dd) in
        let n := to_long (n - to_long (i * dd)) in
        buf ← buf_set buf (9 - c + xp) (i + 48);
        let dd := Z.quot dd 10 in
        if (c =? dec) && negb (dec =? 0)
        then buf ← buf_set buf (9 - c + (xp + 1)) 46;
             int2asc_digits fuel' n dd (c - 1) (xp + 1) dec buf
        else int2asc_digits fuel' n dd (c - 1) xp dec buf
  end.

(** [while( *(buf + i) == 48) *(buf + i++) = 32;] *)
Fixpoint int2asc_zeros (fuel : nat) (i : Z) (buf : list Z)
  : option (Z * list Z) :=
  match fuel with
  | O => None
  | S fuel' =>
      x ← buf_get buf i;
      if x =? 48
      then buf ← buf_set buf i 32; int2asc_zeros fuel' (i + 1) buf
      else Some (i, buf)
  end.

(** [while( *(buf + i)) *(buf + c++) = *(buf + i++);] *)
Fixpoint int2asc_shift (fuel : nat) (i c : Z) (buf : list Z)
  : option (Z * list Z) :=
  match fuel with
  | O => None
  | S fuel' =>
      x ← buf_get buf i;
      if x =? 0 then Some (c, buf)
      else buf ← buf_set buf c x; int2asc_shift fuel' (i + 1) (c + 1) buf
  end.

(** [int2asc]: the length of the string and the buffer.  [n = num * -1]
    overflows for the least [long]. *)
Definition int2asc (num dec : Z) (buf : list Z) (buflen : Z)
  : option (Z * list Z) :=
  if num =? 0 then
    buf ← buf_set buf 0 48; buf ← buf_set buf 1 0; Some (1, buf)
  else if num =? - 2 ^ 31 then None
  else
    let neg := num <? 0 in
    let n := if neg then - num else num in
    buf ← int2asc_fill (Z.to_nat buflen) 0 buf;
    xb ← int2asc_digits 11 n 1000000000 9 0 dec buf;
    ib ← int2asc_zeros (S (length buf)) 0 (snd xb);
    ib ← (if neg
          then buf ← buf_set (snd ib) (fst ib - 1) 45; Some (fst ib - 1, buf)
          else Some ib);
    cb ← int2asc_shift (S (length buf)) (fst ib) 0 (snd ib);
    buf ← buf_set (snd cb) (fst cb) 0;
    Some (fst cb, buf).

(** [strlen]: [while( *(s + t1++));] then [t1 - 1]. *)
Fixpoint strlen_loop (fuel : nat) (t1 : Z) (s : list Z) : option Z :=
  match fuel with
  | O => None
  | S fuel' =>
      x ← buf_get s t1;
      if x =? 0 then Some (t1 + 1) else strlen_loop fuel' (t1 + 1) s
  end.

Definition strlen (s : list Z) : option Z :=
  t1 ← strlen_loop (S (length s)) 0 s; Some (t1 - 1).

(** What [lcd_putnumber] returns when [malloc] succeeds: the buffer is a
    fresh block of 16 bytes of any content. *)
Definition lcd_putnumber_slen (num dec : Z) (s : list Z) : option Z :=
  cb ← int2asc num dec s 16; strlen (snd cb).

(** The digits from weight 10^c down, with the decimal point. *)
Fixpoint digits_str (c : nat) (n dec : Z) : list Z :=
  let d := n / 10 ^ Z.of_nat c in
  let pt := if (Z.of_nat c =? dec) && negb (dec =? 0) then [46] else [] in
  match c with
  | O => (d + 48) :: pt
  | S c' => (d + 48) :: pt ++ digits_str c' (n mod 10 ^ Z.of_nat c) dec
  end.

(** The number of leading characters '0'. *)
Fixpoint leading (l : list Z) : nat :=
  match l with
  | x :: l' => if x =? 48 then S (leading l') else O
  | [] => O
  end.

(** The value of a string of decimal digits. *)
Definition dec_value (s : list Z) : Z :=
  fold_left (fun acc ch => 10 * acc + (ch - 48)) s 0.

(** ** Layout of the EEPROM *)

(** An output respects the layout of the 24C65: a byte written goes to the
    frequency slots (128..199), to the last band (256) or to the last VFO
    (257). *)
Definition layout_ok (e : event) : Prop :=
  match e with
  | EepromWrite a v =>
      (128 <= a <= 199 \/ a = 256 \/ a = 257) /\ 0 <= v <= 255
  | _ => True
  end.

Definition log_ok (r : radio) : Prop := Forall layout_ok (log r).

(** * Properties *)

(** ** Facts on the C integer conversions and tables *)

Section CIntFacts.

Lemma to_long_id z : - 2 ^ 31 <= z < 2 ^ 31 -> to_long z = z.
Proof. unfold to_long. intros H. rewrite Z.mod_small; lia. Qed.

Lemma to_long_range z : - 2 ^ 31 <= to_long z < 2 ^ 31.
Proof. unfold to_long. pose proof (Z.mod_pos_bound (z + 2 ^ 31) (2 ^ 32)). lia. Qed.

Lemma to_long_ulong z : to_long (to_ulong z) = to_long z.
Proof.
  unfold to_long, to_ulong. f_equal.
  rewrite Zplus_mod_idemp_l. reflexivity.
Qed.

Lemma to_ulong_id z : 0 <= z < 2 ^ 32 -> to_ulong z = z.
Proof. unfold to_ulong. intros H. apply Z.mod_small. lia. Qed.

Lemma to_uchar_range z : 0 <= to_uchar z < 256.
Proof. unfold to_uchar. apply Z.mod_pos_bound. lia. Qed.

Lemma to_uchar_id z : 0 <= z < 256 -> to_uchar z = z.
Proof. unfold to_uchar. intros H. apply Z.mod_small. lia. Qed.

Lemma idx_upd_eq (a : list Z) i x :
  0 <= i < Z.of_nat (length a) -> idx (upd a i x) i = x.
Proof.
  intros H. unfold idx, upd.
  destruct (Z.ltb_spec i 0); [lia|].
  rewrite list_lookup_insert_eq by lia. reflexivity.
Qed.

Lemma idx_upd_ne (a : list Z) i j x : i <> j -> idx (upd a i x) j = idx a j.
Proof.
  intros H. unfold idx, upd.
  destruct (Z.ltb_spec j 0); [reflexivity|].
  destruct (Z.ltb_spec i 0); [reflexivity|].
  rewrite list_lookup_insert_ne by lia. reflexivity.
Qed.

Lemma length_upd (a : list Z) i x : length (upd a i x) = length a.
Proof. unfold upd. destruct (i <? 0); [reflexivity | apply length_insert]. Qed.

Lemma rows_upd2 n m a i j x : rows n m a -> rows n m (upd2 a i j x).
Proof.
  intros [Hn Hm]. unfold upd2. destruct (i <? 0); [split; assumption|].
  split; [rewrite length_alter; assumption|].
  apply Forall_lookup. intros k row Hk.
  destruct (decide (Z.to_nat i = k)) as [<-|Hne].
  - rewrite list_lookup_alter_eq in Hk.
    destruct (a !! Z.to_nat i) as [row0|] eqn:E; [|discriminate].
    injection Hk as <-. rewrite length_upd.
    eapply (proj1 (Forall_lookup _ _) Hm); eassumption.
  - rewrite list_lookup_alter_ne in Hk by assumption.
    eapply (proj1 (Forall_lookup _ _) Hm); eassumption.
Qed.

Lemma idx2_upd2_eq n m a i j x :
  rows n m a -> 0 <= i < Z.of_nat n -> 0 <= j < Z.of_nat m ->
  idx2 (upd2 a i j x) i j = x.
Proof.
  intros [Hn Hm] Hi Hj. unfold idx2, upd2.
  destruct (Z.ltb_spec i 0); [lia|].
  rewrite list_lookup_alter_eq.
  destruct (lookup_lt_is_Some_2 a (Z.to_nat i)) as [row Hrow]; [lia|].
  rewrite Hrow. cbn. apply idx_upd_eq.
  pose proof (proj1 (Forall_lookup _ _) Hm _ _ Hrow) as Hlen.
  cbn in Hlen. lia.
Qed.

Lemma idx2_upd2_ne a i j i' j' x :
  i <> i' \/ j <> j' -> idx2 (upd2 a i j x) i' j' = idx2 a i' j'.
Proof.
  intros H. unfold idx2, upd2.
  destruct (Z.ltb_spec i' 0); [reflexivity|].
  destruct (Z.ltb_spec i 0); [reflexivity|].
  destruct (decide (i = i')) as [->|Hne].
  - rewrite list_lookup_alter_eq.
    destruct (a !! Z.to_nat i') as [row|]; cbn; [|reflexivity].
    apply idx_upd_ne. destruct H; congruence.
  - rewrite list_lookup_alter_ne by lia. reflexivity.
Qed.

End CIntFacts.

(** ** The frequency store *)

Section FrequencyStore.

Lemma eeprom_read_write_eq a v r :
  eeprom_read a (eeprom_write a v r) = to_uchar v.
Proof.
  unfold eeprom_read, eeprom_write. cbn.
  rewrite lookup_insert_eq. cbn.
  unfold to_uchar. apply Z.mod_mod. lia.
Qed.

Lemma eeprom_read_write_ne a b v r :
  to_u16 a <> to_u16 b ->
  eeprom_read b (eeprom_write a v r) = eeprom_read b r.
Proof.
  intros H. unfold eeprom_read, eeprom_write. cbn.
  rewrite lookup_insert_ne by assumption. reflexivity.
Qed.

Lemma load_store_bytes f :
  match store_bytes f with
  | (hmsb, hlsb, lmsb, llsb) => load_bytes hmsb hlsb lmsb llsb = to_long f
  end.
Proof.
  unfold store_bytes, load_bytes.
  pose proof (to_long_range f) as Hf. set (g := to_long f) in *. clearbody g.
  rewrite !Z.shiftr_div_pow2, !Z.shiftl_mul_pow2 by lia.
  unfold to_long, to_ulong, to_uchar.
  change (2 ^ 31) with 2147483648 in *. change (2 ^ 32) with 4294967296.
  change (2 ^ 16) with 65536. change (2 ^ 8) with 256.
  Z.div_mod_to_equations. lia.
Qed.

Lemma store_bytes_range f :
  match store_bytes f with
  | (hmsb, hlsb, lmsb, llsb) =>
      to_uchar hmsb = hmsb /\ to_uchar hlsb = hlsb
      /\ to_uchar lmsb = lmsb /\ to_uchar llsb = llsb
  end.
Proof.
  unfold store_bytes; cbv zeta.
  split; [|split; [|split]]; unfold to_uchar; apply Z.mod_mod; lia.
Qed.

Lemma slot_address band vfo :
  0 <= band <= 8 -> 0 <= vfo <= 1 ->
  128 <= to_long (vfo * 4 + band * 8 + 128) <= 196.
Proof. intros Hb Hv. rewrite to_long_id; lia. Qed.

Ltac u16_ne :=
  unfold to_u16; rewrite !Z.mod_small by lia; lia.

Lemma eeprom_read_back a b3 b2 b1 b0 r :
  0 <= a <= 65532 ->
  let r' := eeprom_write (a + 3) b0 (eeprom_write (a + 2) b1
              (eeprom_write (a + 1) b2 (eeprom_write a b3 r))) in
  eeprom_read a r' = to_uchar b3
  /\ eeprom_read (a + 1) r' = to_uchar b2
  /\ eeprom_read (a + 2) r' = to_uchar b1
  /\ eeprom_read (a + 3) r' = to_uchar b0.
Proof.
  intros Ha r'. subst r'. split; [|split; [|split]].
  - rewrite !eeprom_read_write_ne by u16_ne. apply eeprom_read_write_eq.
  - rewrite !eeprom_read_write_ne by u16_ne. apply eeprom_read_write_eq.
  - rewrite !eeprom_read_write_ne by u16_ne. apply eeprom_read_write_eq.
  - apply eeprom_read_write_eq.
Qed.

Lemma eeprom_store_frequency_store4 band vfo f r :
  eeprom_store_frequency band vfo f r
  = store4 (to_long (vfo * 4 + band * 8 + 128)) (store_bytes f) r.
Proof. unfold eeprom_store_frequency, store4, store_bytes. reflexivity. Qed.

Lemma eeprom_load_frequency_load_bytes band vfo r :
  eeprom_load_frequency band vfo r
  = let a := to_long (vfo * 4 + band * 8 + 128) in
    load_bytes (eeprom_read a r) (eeprom_read (a + 1) r)
      (eeprom_read (a + 2) r) (eeprom_read (a + 3) r).
Proof. unfold eeprom_load_frequency, load_bytes. reflexivity. Qed.

(** Reading a slot back gives the stored value as a [long]. *)
Lemma eeprom_load_store band vfo f r :
  0 <= band <= 8 -> 0 <= vfo <= 1 ->
  eeprom_load_frequency band vfo (eeprom_store_frequency band vfo f r)
  = to_long f.
Proof.
  intros Hb Hv.
  pose proof (slot_address band vfo Hb Hv) as Ha.
  rewrite eeprom_store_frequency_store4, eeprom_load_frequency_load_bytes.
  generalize dependent (to_long (vfo * 4 + band * 8 + 128)). intros a Ha.
  pose proof (load_store_bytes f) as Hrt.
  pose proof (store_bytes_range f) as Hrg.
  destruct (store_bytes f) as [[[b3 b2] b1] b0].
  destruct Hrg as (H3 & H2 & H1 & H0).
  destruct (eeprom_read_back a b3 b2 b1 b0 r) as (E3 & E2 & E1 & E0); [lia|].
  cbv zeta. unfold store4.
  rewrite E3, E2, E1, E0, H3, H2, H1, H0. exact Hrt.
Qed.

End FrequencyStore.

(** C2 (as amended).  [eeprom_store_frequency] followed by
    [eeprom_load_frequency] on the same band and VFO returns the stored
    frequency as the 32-bit [long] the two functions exchange: exactly [f]
    for [f] below 2^31, and [f - 2^32] (same bit pattern) from 2^31 on. *)
Theorem eeprom_store_load_frequency band vfo f r :
  0 <= band <= 7 -> 0 <= vfo <= 1 -> 0 <= f < 2 ^ 32 ->
  eeprom_load_frequency band vfo (eeprom_store_frequency band vfo f r)
  = if f <? 2 ^ 31 then f else f - 2 ^ 32.
Proof.
  intros Hb Hv Hf. rewrite eeprom_load_store by lia.
  destruct (Z.ltb_spec f (2 ^ 31)).
  - apply to_long_id. lia.
  - unfold to_long.
    replace (f + 2 ^ 31) with ((f - 2 ^ 31) + 1 * 2 ^ 32) by lia.
    rewrite Z.mod_add by lia. rewrite Z.mod_small; lia.
Qed.

Lemma eeprom_store_load_frequency_witness :
  eeprom_load_frequency 3 1
    (eeprom_store_frequency 3 1 14280000 (power_on ∅ []))
  = 14280000.
Proof.
  apply (eeprom_store_load_frequency 3 1 14280000 (power_on ∅ [])); lia.
Defined.

(** C2 (as stated) fails on the upper half of the range: 2^31 does not fit
    the [long] parameter and comes back as -2^31. *)
Lemma eeprom_store_load_frequency_counterexample :
  0 <= 2147483648 < 2 ^ 32
  /\ eeprom_load_frequency 0 0
       (eeprom_store_frequency 0 0 2147483648 (power_on ∅ []))
     <> 2147483648.
Proof.
  split; [lia|]. rewrite eeprom_load_store by lia.
  vm_compute. discriminate.
Qed.

(** ** Counted loops *)

Section Loops.

(** Invariant rule for [for_loop]. *)
Lemma for_loop_ind (P : Z -> radio -> Prop) n t body r :
  P t r ->
  (forall i s, t <= i < t + Z.of_nat n -> P i s -> P (i + 1) (body i s)) ->
  P (t + Z.of_nat n) (for_loop n t body r).
Proof.
  revert t r. induction n as [|n IH]; intros t r H0 Hstep.
  - cbn. replace (t + Z.of_nat 0) with t by lia. exact H0.
  - cbn [for_loop].
    replace (t + Z.of_nat (S n)) with ((t + 1) + Z.of_nat n) by lia.
    apply IH.
    + apply Hstep; [lia | exact H0].
    + intros i s Hi. apply Hstep. lia.
Qed.

End Loops.

(** ** Loading the VFOs and the LO frequencies at start-up *)

Section StartUp.

Lemma radio_eta r :
  r = mkRadio (cur_vfo r) (cur_band r) (sideband r) (f_lo r) (f_vfo r)
        (tuning r) (pulses r) (runsecs r) (runsecs_msg r) (eeprom r)
        (gpioa_odr r) (gpiob_odr r) (gpioc_odr r) (pending r) (log r).
Proof. destruct r. reflexivity. Qed.

Lemma set_f_vfo_id r : set_f_vfo (f_vfo r) r = r.
Proof. destruct r. reflexivity. Qed.

Lemma load_frequency_set_f_vfo b v tbl r :
  eeprom_load_frequency b v (set_f_vfo tbl r) = eeprom_load_frequency b v r.
Proof. unfold eeprom_load_frequency, eeprom_read. reflexivity. Qed.

Lemma vfo_checked_set_f_vfo tbl r b v :
  vfo_checked (set_f_vfo tbl r) b v = vfo_checked r b v.
Proof. unfold vfo_checked. rewrite load_frequency_set_f_vfo. reflexivity. Qed.

(** One slot: only [f_vfo] changes, and only at (t0, t1). *)
Lemma load_vfo_spec t0 t1 r :
  rows 8 2 (f_vfo r) -> 0 <= t0 < 8 -> 0 <= t1 < 2 ->
  exists tbl,
    load_vfo t0 t1 r = set_f_vfo tbl r
    /\ rows 8 2 tbl
    /\ idx2 tbl t0 t1 = vfo_checked r t0 t1
    /\ forall b v, b <> t0 \/ v <> t1 -> idx2 tbl b v = idx2 (f_vfo r) b v.
Proof.
  intros Hrows H0 H1. unfold load_vfo, vfo_checked. cbv zeta.
  set (x := eeprom_load_frequency t0 t1 r).
  cbn [f_vfo set_f_vfo].
  rewrite (idx2_upd2_eq 8 2) by (assumption || lia).
  destruct (is_freq_ok x t0 =? 0).
  - exists (upd2 (upd2 (f_vfo r) t0 t1 x) t0 t1 (idx2 f_vfo0 t0 t1)).
    split; [reflexivity|]. split; [do 2 apply rows_upd2; assumption|].
    split.
    + apply (idx2_upd2_eq 8 2); [apply rows_upd2; assumption | lia | lia].
    + intros b v Hne. rewrite !idx2_upd2_ne by lia. reflexivity.
  - exists (upd2 (f_vfo r) t0 t1 x).
    split; [reflexivity|]. split; [apply rows_upd2; assumption|].
    split.
    + apply (idx2_upd2_eq 8 2); [assumption | lia | lia].
    + intros b v Hne. rewrite idx2_upd2_ne by lia. reflexivity.
Qed.

Lemma vfos_loaded_step r0 i j s :
  0 <= i < 8 -> 0 <= j < 2 ->
  vfos_loaded r0 i j s -> vfos_loaded r0 i (j + 1) (load_vfo i j s).
Proof.
  intros Hi Hj (tbl & -> & Hrows & Hdone).
  destruct (load_vfo_spec i j (set_f_vfo tbl r0)) as (tbl' & E & Hrows' & Hij & Hrest);
    [exact Hrows | lia | lia |].
  exists tbl'. split; [rewrite E; reflexivity|]. split; [exact Hrows'|].
  intros b v Hb Hv Hlt.
  destruct (decide (b = i /\ v = j)) as [[-> ->]|Hne].
  - rewrite Hij. apply vfo_checked_set_f_vfo.
  - rewrite Hrest by lia. cbn [f_vfo set_f_vfo]. apply Hdone; [lia | lia | lia].
Qed.

Lemma load_all_vfos_loaded r :
  rows 8 2 (f_vfo r) -> vfos_loaded r 8 0 (load_all_vfos r).
Proof.
  intros Hrows. unfold load_all_vfos.
  apply (for_loop_ind (fun i s => vfos_loaded r i 0 s) 8 0).
  - exists (f_vfo r). split; [symmetry; apply set_f_vfo_id|].
    split; [exact Hrows|]. intros b v Hb Hv Hlt. lia.
  - intros i s Hi Hinv.
    assert (Hrow : vfos_loaded r i 2 (for_loop 2 0 (load_vfo i) s)).
    { apply (for_loop_ind (fun j s => vfos_loaded r i j s) 2 0).
      - exact Hinv.
      - intros j u Hj Hu. apply vfos_loaded_step; [lia | lia | exact Hu]. }
    destruct Hrow as (tbl & E & Hrows' & Hdone).
    exists tbl. split; [exact E|]. split; [exact Hrows'|].
    intros b v Hb Hv Hlt. apply Hdone; lia.
Qed.

(** [load_all_vfos] changes [f_vfo] only and leaves the checked value in
    each of the 16 slots. *)
Lemma load_all_vfos_spec r :
  rows 8 2 (f_vfo r) ->
  exists tbl,
    load_all_vfos r = set_f_vfo tbl r
    /\ rows 8 2 tbl
    /\ forall b v, 0 <= b < 8 -> 0 <= v < 2 ->
         idx2 tbl b v = vfo_checked r b v.
Proof.
  intros Hrows.
  destruct (load_all_vfos_loaded r Hrows) as (tbl & E & Hrows' & Hdone).
  exists tbl. split; [exact E|]. split; [exact Hrows'|].
  intros b v Hb Hv. apply Hdone; lia.
Qed.

(** The factory defaults lie inside their bands. *)
Lemma f_vfo0_in_band b v :
  0 <= b < 8 -> 0 <= v < 2 ->
  idx band_f0 b <= idx2 f_vfo0 b v <= idx band_f1 b.
Proof.
  intros Hb Hv.
  assert (Hb' : b = 0 \/ b = 1 \/ b = 2 \/ b = 3 \/ b = 4 \/ b = 5 \/ b = 6 \/ b = 7) by lia.
  assert (Hv' : v = 0 \/ v = 1) by lia.
  destruct Hb' as [->|[->|[->|[->|[->|[->|[->| ->]]]]]]];
    destruct Hv' as [->| ->]; vm_compute; split; discriminate.
Qed.

Lemma vfo_checked_in_band r b v :
  0 <= b < 8 -> 0 <= v < 2 ->
  idx band_f0 b <= vfo_checked r b v <= idx band_f1 b.
Proof.
  intros Hb Hv. unfold vfo_checked. cbv zeta.
  set (x := eeprom_load_frequency b v r).
  unfold is_freq_ok.
  destruct (Z.leb_spec (idx band_f0 b) x); destruct (Z.leb_spec x (idx band_f1 b));
    cbn; try (apply f_vfo0_in_band; assumption).
  lia.
Qed.

Lemma load_frequency_frame b v r r' :
  eeprom r' = eeprom r ->
  eeprom_load_frequency b v r' = eeprom_load_frequency b v r.
Proof.
  intros E. unfold eeprom_load_frequency, eeprom_read. rewrite E. reflexivity.
Qed.

(** One LO frequency: [f_lo[t1]] gets the checked value and the Si5351 is
    programmed with it. *)
Lemma main_load_lo_spec t1 r :
  length (f_lo r) = 2%nat -> 0 <= t1 < 2 ->
  exists lo,
    main_load_lo t1 r
    = emit (Si5351SetFreq SYNTH_MS_0 (lo_checked r t1)) (set_f_lo lo r)
    /\ length lo = 2%nat
    /\ idx lo t1 = lo_checked r t1
    /\ forall j, j <> t1 -> idx lo j = idx (f_lo r) j.
Proof.
  intros Hlen H1. unfold main_load_lo, lo_checked. cbv zeta.
  set (x := eeprom_load_frequency 8 t1 r).
  cbn [f_lo set_f_lo].
  rewrite idx_upd_eq by lia.
  destruct ((x <? INTERFREQUENCY - 3000) || (INTERFREQUENCY + 3000 <? x)).
  - set (d := to_long (INTERFREQUENCY + 1500 * (t1 * 2 - 1))).
    exists (upd (upd (f_lo r) t1 x) t1 d).
    unfold si5351_set_freq. cbn [f_lo set_f_lo].
    rewrite idx_upd_eq by (rewrite length_upd; lia).
    split; [reflexivity|]. split; [rewrite !length_upd; assumption|].
    split; [reflexivity|].
    intros j Hj. rewrite !idx_upd_ne by lia. reflexivity.
  - exists (upd (f_lo r) t1 x).
    unfold si5351_set_freq. cbn [f_lo set_f_lo].
    rewrite idx_upd_eq by lia.
    split; [reflexivity|]. split; [rewrite length_upd; assumption|].
    split; [reflexivity|].
    intros j Hj. rewrite idx_upd_ne by lia. reflexivity.
Qed.

Lemma lo_checked_frame r r' s :
  eeprom r' = eeprom r -> lo_checked r' s = lo_checked r s.
Proof.
  intros E. unfold lo_checked. rewrite (load_frequency_frame 8 s r r' E).
  reflexivity.
Qed.

Lemma main_load_los_loaded r :
  length (f_lo r) = 2%nat -> los_loaded r 2 (for_loop 2 0 main_load_lo r).
Proof.
  intros Hlen.
  apply (for_loop_ind (fun i s => los_loaded r i s) 2 0).
  - exists (f_lo r), (log r). split; [destruct r; reflexivity|].
    split; [exact Hlen|]. intros j Hj. lia.
  - intros i s Hi (lo & l & -> & Hlo & Hdone).
    destruct (main_load_lo_spec i (set_log l (set_f_lo lo r)))
      as (lo' & E & Hlen' & Hi' & Hrest); [exact Hlo | lia |].
    exists lo'. eexists. split; [rewrite E; reflexivity|].
    split; [exact Hlen'|].
    intros j Hj. destruct (decide (j = i)) as [->|Hne].
    + rewrite Hi'. apply lo_checked_frame. reflexivity.
    + rewrite Hrest by assumption. cbn [f_lo set_log set_f_lo].
      apply Hdone. lia.
Qed.

(** [set_band_relay] touches port A and the outputs only. *)
Lemma set_band_relay_frame b r :
  exists g l, set_band_relay b r = set_log l (set_gpioa_odr g r).
Proof.
  unfold set_band_relay. cbn [for_loop]. cbv zeta.
  unfold show_sideband, si5351_set_freq, relay_odr, emit.
  destruct (Z.land (Z.shiftl 1 0) b =? 0);
    destruct (Z.land (Z.shiftl 1 (0 + 1)) b =? 0);
    destruct (Z.land (Z.shiftl 1 (0 + 1 + 1)) b =? 0);
    cbn [log gpioa_odr f_lo set_log set_gpioa_odr];
    eexists; eexists; reflexivity.
Qed.

End StartUp.

(** Projections of updated records. *)
Ltac radio_simpl :=
  cbn [cur_vfo cur_band sideband f_lo f_vfo tuning pulses runsecs runsecs_msg
       eeprom gpioa_odr gpiob_odr gpioc_odr pending log
       set_cur_vfo set_cur_band set_sideband set_f_lo set_f_vfo set_tuning
       set_pulses set_runsecs set_runsecs_msg set_eeprom set_gpioa_odr
       set_gpiob_odr set_gpioc_odr set_pending set_log emit].

(** A machine is determined by its fields. *)
Lemma radio_ext r a1 a2 a3 a4 a5 a6 a7 a8 a9 a10 a11 a12 a13 a14 a15 :
  cur_vfo r = a1 -> cur_band r = a2 -> sideband r = a3 -> f_lo r = a4 ->
  f_vfo r = a5 -> tuning r = a6 -> pulses r = a7 -> runsecs r = a8 ->
  runsecs_msg r = a9 -> eeprom r = a10 -> gpioa_odr r = a11 ->
  gpiob_odr r = a12 -> gpioc_odr r = a13 -> pending r = a14 -> log r = a15 ->
  r = mkRadio a1 a2 a3 a4 a5 a6 a7 a8 a9 a10 a11 a12 a13 a14 a15.
Proof. destruct r. cbn. intros. subst. reflexivity. Qed.

Section MainLoad.

Lemma main_load_last_spec r :
  main_load_last r
  = set_cur_vfo (if (eeprom_read 257 r <? 0) || (1 <? eeprom_read 257 r)
                 then 0 else eeprom_read 257 r)
      (set_cur_band (if (eeprom_read 256 r <? 0) || (7 <? eeprom_read 256 r)
                     then 2 else eeprom_read 256 r) r).
Proof.
  unfold main_load_last. cbv zeta. cbn [cur_band set_cur_band].
  destruct ((eeprom_read 256 r <? 0) || (7 <? eeprom_read 256 r));
    cbn [cur_vfo set_cur_vfo];
    unfold eeprom_read; cbn [eeprom set_cur_band];
    match goal with |- context [if ?c then _ else _] => destruct c end;
    reflexivity.
Qed.

Lemma main_screen_frame r :
  exists g l, main_screen r = set_log l (set_gpioa_odr g r).
Proof.
  unfold main_screen. cbv zeta.
  destruct (set_band_relay_frame (cur_band r) r) as (g & l & E).
  rewrite E. exists g. eexists.
  unfold show_sideband, show_frequency1, show_vfo, show_band, emit.
  cbn [log set_log set_gpioa_odr]. reflexivity.
Qed.

(** The start-up as a whole: what it leaves in every global. *)
Lemma main_load_spec r :
  rows 8 2 (f_vfo r) -> length (f_lo r) = 2%nat ->
  let band := if (eeprom_read 256 r <? 0) || (7 <? eeprom_read 256 r)
              then 2 else eeprom_read 256 r in
  let vfo := if (eeprom_read 257 r <? 0) || (1 <? eeprom_read 257 r)
             then 0 else eeprom_read 257 r in
  exists lo tbl g l,
    main_load r
    = mkRadio vfo band (idx pref_sideband band) lo tbl (tuning r) (pulses r)
        (runsecs r) (runsecs_msg r) (eeprom r) g (gpiob_odr r) (gpioc_odr r)
        (pending r) l
    /\ (forall b v, 0 <= b < 8 -> 0 <= v < 2 -> idx2 tbl b v = vfo_checked r b v)
    /\ (forall s, 0 <= s < 2 -> idx lo s = lo_checked r s)
    /\ rows 8 2 tbl /\ length lo = 2%nat.
Proof.
  intros Hrows Hlen band vfo. unfold main_load. cbv zeta.
  rewrite main_load_last_spec. fold band. fold vfo.
  clearbody band vfo.
  destruct (load_all_vfos_spec (set_cur_vfo vfo (set_cur_band band r)) Hrows)
    as (tbl & E5 & Hrows5 & H5).
  rewrite E5. clear E5.
  match goal with |- context [for_loop 2 0 main_load_lo ?x] =>
    destruct (main_load_los_loaded x) as (lo & l & E7 & Hlen7 & H7);
      [exact Hlen | rewrite E7; clear E7]
  end.
  match goal with |- context [main_screen ?x] =>
    destruct (main_screen_frame x) as (g & l' & E8); rewrite E8; clear E8
  end.
  exists lo, tbl, g, l'.
  split; [|split; [|split; [|split; assumption]]].
  - apply radio_ext; radio_simpl; reflexivity.
  - intros b v Hb Hv. rewrite H5 by assumption.
    unfold vfo_checked.
    rewrite (load_frequency_frame b v r) by reflexivity. reflexivity.
  - intros s Hs. rewrite H7 by assumption.
    apply lo_checked_frame. reflexivity.
Qed.

End MainLoad.

(** ** The AD9951 link *)

Section Dds.

Lemma testbit_pin p q : 0 <= p -> Z.testbit (Z.shiftl 1 p) q = (p =? q).
Proof.
  intros Hp. rewrite Z.shiftl_1_l. apply Z.pow2_bits_eqb. exact Hp.
Qed.

Lemma odr_set_testbit p v q :
  0 <= p ->
  Z.testbit (odr_set p v) q = (p =? q) || Z.testbit v q.
Proof.
  intros Hp. unfold odr_set. rewrite Z.lor_spec, testbit_pin by assumption.
  apply orb_comm.
Qed.

Lemma odr_clr_testbit p v q :
  0 <= p -> 0 <= q < 32 ->
  Z.testbit (odr_clr p v) q = negb (p =? q) && Z.testbit v q.
Proof.
  intros Hp Hq. unfold odr_clr, to_ulong.
  rewrite Z.land_spec, Z.mod_pow2_bits_low, Z.lnot_spec, testbit_pin by lia.
  apply andb_comm.
Qed.

Lemma last_cons (v : Z) w d : List.last (v :: w) d = List.last w v.
Proof.
  revert v d. induction w as [|a w IH]; intros v d; [reflexivity|].
  change (List.last (a :: w) d = List.last (a :: w) v).
  rewrite !IH. reflexivity.
Qed.

Lemma dds_shift_in_app prev w1 w2 :
  dds_shift_in prev (w1 ++ w2)
  = dds_shift_in prev w1 ++ dds_shift_in (List.last w1 prev) w2.
Proof.
  revert prev. induction w1 as [|v w1 IH]; intros prev; [reflexivity|].
  cbn [dds_shift_in app]. rewrite IH, <- app_assoc, last_cons. reflexivity.
Qed.

Lemma dds_wrote_nil r : dds_wrote r [] r.
Proof. unfold dds_wrote. destruct r. reflexivity. Qed.

Lemma dds_wrote_odr f r : dds_wrote r [f (gpiob_odr r)] (dds_odr f r).
Proof. unfold dds_wrote, dds_odr. reflexivity. Qed.

Lemma last_app_last (w1 w2 : list Z) d :
  List.last (w1 ++ w2) d = List.last w2 (List.last w1 d).
Proof.
  revert d. induction w1 as [|v w1 IH]; intros d; [reflexivity|].
  change ((v :: w1) ++ w2) with (v :: (w1 ++ w2)).
  rewrite !last_cons. apply IH.
Qed.

Lemma dds_wrote_trans r w1 r1 w2 r2 :
  dds_wrote r w1 r1 -> dds_wrote r1 w2 r2 -> dds_wrote r (w1 ++ w2) r2.
Proof.
  unfold dds_wrote. intros -> ->. apply radio_ext; radio_simpl; try reflexivity.
  - symmetry. apply last_app_last.
  - rewrite map_app, rev_app_distr, app_assoc. reflexivity.
Qed.

(** The port after the writes. *)
Lemma dds_wrote_odr_last r w r' :
  dds_wrote r w r' -> gpiob_odr r' = List.last w (gpiob_odr r).
Proof. intros ->. reflexivity. Qed.

Lemma last_strobe w d (b : bool) :
  Z.testbit d DDS_IO_UD = b ->
  Forall (fun v => Z.testbit v DDS_IO_UD = b) w ->
  Z.testbit (List.last w d) DDS_IO_UD = b.
Proof.
  revert d. induction w as [|v w IH]; intros d Hd Hs; [exact Hd|].
  rewrite last_cons. clear Hd.
  apply Forall_cons_1 in Hs. destruct Hs as [Hv Hrest].
  apply IH; [exact Hv | exact Hrest].
Qed.

Lemma dds_sent_strobe r w bs r' :
  dds_sent r w bs r' ->
  Z.testbit (gpiob_odr r') DDS_IO_UD = Z.testbit (gpiob_odr r) DDS_IO_UD.
Proof.
  intros (Hw & _ & Hs). rewrite (dds_wrote_odr_last _ _ _ Hw).
  apply last_strobe; [reflexivity | exact Hs].
Qed.

Lemma dds_sent_nil r : dds_sent r [] [] r.
Proof. split; [apply dds_wrote_nil|]. split; [reflexivity | constructor]. Qed.

Lemma dds_sent_trans r w1 b1 r1 w2 b2 r2 :
  dds_sent r w1 b1 r1 -> dds_sent r1 w2 b2 r2 ->
  dds_sent r (w1 ++ w2) (b1 ++ b2) r2.
Proof.
  intros H1 H2. pose proof (dds_sent_strobe _ _ _ _ H1) as Hs.
  destruct H1 as (Hw1 & Hb1 & Hs1). destruct H2 as (Hw2 & Hb2 & Hs2).
  split; [eapply dds_wrote_trans; eassumption|]. split.
  - rewrite dds_shift_in_app, Hb1.
    rewrite <- (dds_wrote_odr_last _ _ _ Hw1), Hb2. reflexivity.
  - apply Forall_app. split; [exact Hs1|].
    rewrite <- Hs. exact Hs2.
Qed.

(** One bit of [spi_send_byte]: clock low, data, clock high. *)
Lemma spi_send_bit_sent (bit : bool) r :
  let v1 := odr_clr DDS_SCLK (gpiob_odr r) in
  let v2 := if bit then odr_set DDS_SDIO v1 else odr_clr DDS_SDIO v1 in
  let v3 := odr_set DDS_SCLK v2 in
  dds_sent r [v1; v2; v3] [bit]
    (dds_odr (odr_set DDS_SCLK)
       (dds_odr (if bit then odr_set DDS_SDIO else odr_clr DDS_SDIO)
          (dds_odr (odr_clr DDS_SCLK) r))).
Proof.
  intros v1 v2 v3. split; [|split].
  - unfold dds_wrote, dds_odr. apply radio_ext; radio_simpl; try reflexivity.
    + subst v3 v2 v1. destruct bit; reflexivity.
    + subst v3 v2 v1. destruct bit; reflexivity.
  - subst v3 v2 v1. unfold dds_shift_in, DDS_SCLK, DDS_SDIO.
    destruct bit;
      rewrite ?odr_set_testbit, ?odr_clr_testbit by lia;
      rewrite ?odr_set_testbit, ?odr_clr_testbit by lia;
      rewrite ?odr_set_testbit, ?odr_clr_testbit by lia;
      cbn; rewrite ?andb_false_r; reflexivity.
  - subst v3 v2 v1. unfold DDS_SCLK, DDS_SDIO, DDS_IO_UD.
    repeat constructor; destruct bit;
      rewrite ?odr_set_testbit, ?odr_clr_testbit by lia;
      rewrite ?odr_set_testbit, ?odr_clr_testbit by lia;
      rewrite ?odr_set_testbit, ?odr_clr_testbit by lia;
      reflexivity.
Qed.

Lemma spi_send_bits_sent n sbyte x r :
  exists w, dds_sent r w (mask_bits n sbyte x) (spi_send_bits n sbyte x r).
Proof.
  revert x r. induction n as [|n IH]; intros x r.
  - exists []. apply dds_sent_nil.
  - cbn [spi_send_bits mask_bits]. cbv zeta.
    pose proof (spi_send_bit_sent (negb (Z.land sbyte x =? 0)) r) as H1.
    cbv zeta in H1.
    destruct (Z.land sbyte x =? 0); cbn [negb] in H1;
      match type of H1 with dds_sent _ ?w _ ?r1 =>
        destruct (IH (Z.shiftr x 1) r1) as (w' & H2);
        exists (w ++ w');
        exact (dds_sent_trans _ _ _ _ _ _ _ H1 H2)
      end.
Qed.

(** [spi_send_byte] clocks out the eight bits selected by the masks
    0x80, 0x40, ..., 0x01, in this order. *)
Lemma spi_send_byte_sent sbyte r :
  exists w,
    dds_sent r w (mask_bits 8 (to_ulong sbyte) (Z.shiftl 1 7))
      (spi_send_byte sbyte r).
Proof. apply spi_send_bits_sent. Qed.

Lemma set_frequency_bytes_sent n fword comparebyte shiftbyte r :
  exists w,
    dds_sent r w (fword_bits n fword comparebyte shiftbyte)
      (set_frequency_bytes n fword comparebyte shiftbyte r).
Proof.
  revert comparebyte shiftbyte r.
  induction n as [|n IH]; intros comparebyte shiftbyte r.
  - exists []. apply dds_sent_nil.
  - cbn [set_frequency_bytes fword_bits]. cbv zeta.
    destruct (spi_send_byte_sent
                (to_long (Z.shiftr (Z.land fword comparebyte) shiftbyte)) r)
      as (w1 & H1).
    match type of H1 with dds_sent _ _ _ ?r1 =>
      destruct (IH (Z.shiftr comparebyte 8) (shiftbyte - 8) r1) as (w2 & H2)
    end.
    exists (w1 ++ w2). exact (dds_sent_trans _ _ _ _ _ _ _ H1 H2).
Qed.

(** [set_frequency] touches port B and the outputs only. *)
Lemma set_frequency_wrote frequency r :
  exists w, dds_wrote r w (set_frequency frequency r).
Proof.
  unfold set_frequency. cbv zeta.
  pose proof (dds_wrote_odr (odr_clr DDS_IO_UD) r) as H0.
  match type of H0 with dds_wrote _ _ ?r0 =>
    destruct (spi_send_byte_sent 4 r0) as (w1 & H1 & _);
    match type of H1 with dds_wrote _ _ ?r1 =>
      destruct (set_frequency_bytes_sent 4 (dds_fword frequency)
                  4278190080 24 r1) as (w2 & H2 & _);
      match type of H2 with dds_wrote _ _ ?r2 =>
        pose proof (dds_wrote_odr (odr_set DDS_IO_UD) r2) as H3
      end
    end
  end.
  eexists.
  exact (dds_wrote_trans _ _ _ _ _
           (dds_wrote_trans _ _ _ _ _ (dds_wrote_trans _ _ _ _ _ H0 H1) H2) H3).
Qed.

End Dds.

Section SetFrequency.

(** The transfer of [set_frequency]: strobe low, the instruction byte and
    the four bytes of the tuning word, strobe high. *)
Lemma set_frequency_sent frequency r :
  let bs := mask_bits 8 (to_ulong 4) (Z.shiftl 1 7)
            ++ fword_bits 4 (dds_fword frequency) 4278190080 24 in
  exists w v,
    dds_wrote r (w ++ [v]) (set_frequency frequency r)
    /\ Forall strobe_low w
    /\ Z.testbit v DDS_IO_UD = true
    /\ dds_shift_in (gpiob_odr r) w = bs
    /\ dds_shift_in (gpiob_odr r) (w ++ [v]) = bs.
Proof.
  intros bs. unfold set_frequency. cbv zeta.
  set (g := gpiob_odr r).
  set (v0 := odr_clr DDS_IO_UD g).
  pose proof (dds_wrote_odr (odr_clr DDS_IO_UD) r) as H0.
  fold g in H0. fold v0 in H0.
  set (r0 := dds_odr (odr_clr DDS_IO_UD) r) in *.
  assert (Hg0 : gpiob_odr r0 = v0) by reflexivity.
  destruct (spi_send_byte_sent 4 r0) as (w1 & H1).
  set (r1 := spi_send_byte 4 r0) in *.
  destruct (set_frequency_bytes_sent 4 (dds_fword frequency) 4278190080 24 r1)
    as (w2 & H2).
  set (r2 := set_frequency_bytes 4 (dds_fword frequency) 4278190080 24 r1) in *.
  pose proof (dds_sent_trans _ _ _ _ _ _ _ H1 H2) as H12.
  fold bs in H12. destruct H12 as (Hw & Hb & Hs).
  rewrite Hg0 in Hb, Hs.
  pose proof (dds_wrote_trans _ _ _ _ _ H0 Hw) as Hw02.
  pose proof (dds_wrote_odr (odr_set DDS_IO_UD) r2) as H3.
  exists ([v0] ++ w1 ++ w2), (odr_set DDS_IO_UD (gpiob_odr r2)).
  assert (Hv0 : Z.testbit v0 DDS_IO_UD = false).
  { subst v0. unfold DDS_IO_UD. rewrite odr_clr_testbit by lia. reflexivity. }
  assert (Hc0 : Z.testbit v0 DDS_SCLK = Z.testbit g DDS_SCLK).
  { subst v0. unfold DDS_IO_UD, DDS_SCLK. rewrite odr_clr_testbit by lia.
    reflexivity. }
  assert (Hin : dds_shift_in g ([v0] ++ w1 ++ w2) = bs).
  { cbn [app dds_shift_in]. rewrite Hc0, Hb.
    destruct (Z.testbit g DDS_SCLK); reflexivity. }
  split; [exact (dds_wrote_trans _ _ _ _ _ Hw02 H3)|].
  split.
  { constructor; [exact Hv0|].
    eapply Forall_impl; [exact Hs|]. intros u Hu. unfold strobe_low.
    rewrite Hu. exact Hv0. }
  split.
  { unfold DDS_IO_UD. rewrite odr_set_testbit by lia. reflexivity. }
  split; [exact Hin|].
  rewrite dds_shift_in_app, Hin.
  pose proof (dds_wrote_odr_last _ _ _ Hw02) as Hl. fold g in Hl.
  rewrite <- Hl.
  cbn [dds_shift_in]. unfold DDS_SCLK, DDS_IO_UD.
  rewrite odr_set_testbit by lia. cbn [Z.eqb orb].
  destruct (Z.testbit (gpiob_odr r2) 14); cbn [negb andb];
    apply app_nil_r.
Qed.

End SetFrequency.

(** C7.  [set_frequency] at 7,120,000 Hz computes the tuning word
    183,824,600, which is (7,120,000 + 10,000,000) * 2^32 / 400,000,000
    rounded to the nearest integer, and writes port B so that the AD9951
    clocks in exactly the instruction byte 0x04 and the bytes 0x0A, 0xF4,
    0xF0, 0xD8 of that word, most significant first; IO_UD is low on every
    write of the transfer and is raised by the last write, which clocks in
    nothing. *)
Theorem set_frequency_7120000 r :
  dds_fword 7120000 = 183824600
  /\ round_div ((7120000 + INTERFREQUENCY) * 2 ^ 32) 400000000 = 183824600
  /\ 183824600 = 0x0A * 2 ^ 24 + 0xF4 * 2 ^ 16 + 0xF0 * 2 ^ 8 + 0xD8
  /\ exists w v,
       dds_wrote r (w ++ [v]) (set_frequency 7120000 r)
       /\ trace (set_frequency 7120000 r) = trace r ++ map GpiobOdr (w ++ [v])
       /\ Forall strobe_low w
       /\ Z.testbit v DDS_IO_UD = true
       /\ dds_bytes (dds_shift_in (gpiob_odr r) w) = [0x04; 0x0A; 0xF4; 0xF0; 0xD8]
       /\ dds_shift_in (gpiob_odr r) (w ++ [v]) = dds_shift_in (gpiob_odr r) w.
Proof.
  split; [vm_compute; reflexivity|].
  split; [vm_compute; reflexivity|].
  split; [vm_compute; reflexivity|].
  destruct (set_frequency_sent 7120000 r) as (w & v & Hw & Hlow & Hv & Hb & Hbv).
  exists w, v.
  split; [exact Hw|].
  split.
  { rewrite Hw. unfold trace. radio_simpl.
    rewrite rev_app_distr, rev_involutive. reflexivity. }
  split; [exact Hlow|].
  split; [exact Hv|].
  split.
  { rewrite Hb. vm_compute. reflexivity. }
  rewrite Hb, Hbv. reflexivity.
Qed.

(** ** The AD9951 link for every frequency *)

Section DdsBytes.

(** The eight mask tests of [spi_send_byte] read a byte back. *)
Lemma mask_bits_byte b :
  0 <= b < 256 -> bits_value (mask_bits 8 b (Z.shiftl 1 7)) = b.
Proof.
  intros Hb.
  assert (H : forallb (fun n => bits_value (mask_bits 8 (Z.of_nat n) (Z.shiftl 1 7))
                                =? Z.of_nat n) (seq 0 256) = true)
    by (vm_compute; reflexivity).
  rewrite forallb_forall in H.
  specialize (H (Z.to_nat b)). rewrite Z2Nat.id in H by lia.
  apply Z.eqb_eq, H, in_seq. lia.
Qed.

(** The masks select bits 0 to 7 only. *)
Lemma mask_bits_low n sbyte x :
  0 <= x < 256 -> mask_bits n sbyte x = mask_bits n (sbyte mod 256) x.
Proof.
  revert x. induction n as [|n IH]; intros x Hx; [reflexivity|].
  cbn [mask_bits]. f_equal.
  - f_equal. f_equal.
    change 256 with (2 ^ 8). rewrite <- (Z.land_ones sbyte 8) by lia.
    rewrite <- Z.land_assoc. f_equal.
    change (Z.ones 8) with 255.
    symmetry. rewrite Z.land_comm. change 255 with (Z.ones 8).
    rewrite Z.land_ones by lia. apply Z.mod_small. change (2 ^ 8) with 256. lia.
  - apply IH. rewrite Z.shiftr_div_pow2 by lia. change (2 ^ 1) with 2.
    split; [apply Z.div_pos; lia | apply Z.div_lt_upper_bound; lia].
Qed.

Lemma mask_bits_length n sbyte x : length (mask_bits n sbyte x) = n.
Proof.
  revert x. induction n as [|n IH]; intros x; [reflexivity|].
  cbn [mask_bits length]. rewrite IH. reflexivity.
Qed.

(** What [spi_send_byte] clocks out is its argument modulo 256, most
    significant bit first. *)
Lemma spi_send_byte_value sbyte :
  bits_value (mask_bits 8 (to_ulong sbyte) (Z.shiftl 1 7)) = sbyte mod 256.
Proof.
  rewrite mask_bits_low by (vm_compute; split; [discriminate | reflexivity]).
  rewrite mask_bits_byte by (apply Z.mod_pos_bound; lia).
  unfold to_ulong. change (2 ^ 32) with (256 * 2 ^ 24).
  rewrite Z.rem_mul_r by lia.
  rewrite (Z.mul_comm 256), Z.mod_add by lia.
  apply Z.mod_mod. lia.
Qed.

(** The byte [set_frequency] extracts with the mask [0xFF << s] and the
    shift [s]. *)
Lemma fword_byte fword s :
  0 <= fword < 2 ^ 32 -> 0 <= s <= 24 ->
  to_long (Z.shiftr (Z.land fword (Z.shiftl 255 s)) s) mod 256
  = (fword / 2 ^ s) mod 256.
Proof.
  intros Hf Hs.
  rewrite Z.shiftr_land, Z.shiftr_shiftl_l by lia.
  rewrite Z.sub_diag, Z.shiftl_0_r.
  change 255 with (Z.ones 8). rewrite Z.land_ones by lia.
  rewrite Z.shiftr_div_pow2 by lia.
  rewrite to_long_id; [apply Z.mod_mod; lia|].
  pose proof (Z.mod_pos_bound (fword / 2 ^ s) (2 ^ 8)). lia.
Qed.

Lemma dds_fword_range frequency : 0 <= dds_fword frequency < 2 ^ 32.
Proof.
  unfold dds_fword, double_to_ulong.
  destruct (SFmul _ _ _ _) as [s|[|]| |[|] m e]; try lia.
  destruct (0 <=? e).
  - pose proof (Z.pow_nonneg 2 e). split; [nia | lia].
  - assert (0 <= Z.pos m / 2 ^ (- e)) by (apply Z_div_nonneg_nonneg; lia).
    lia.
Qed.

(** X15.  For every frequency and every state of port B, [set_frequency]
    sends 0x04 and the four bytes of the tuning word, most significant
    first, with IO_UD low on every write but the last, which raises it
    and clocks no further bit. *)
Lemma set_frequency_sends frequency r :
  let fword := dds_fword frequency in
  exists w v,
    dds_wrote r (w ++ [v]) (set_frequency frequency r)
    /\ Forall strobe_low w
    /\ Z.testbit v DDS_IO_UD = true
    /\ dds_shift_in (gpiob_odr r) (w ++ [v]) = dds_shift_in (gpiob_odr r) w
    /\ dds_bytes (dds_shift_in (gpiob_odr r) w)
       = [4; fword / 2 ^ 24; (fword / 2 ^ 16) mod 256; (fword / 2 ^ 8) mod 256;
          fword mod 256].
Proof.
  intros fword.
  destruct (set_frequency_sent frequency r) as (w & v & Hw & Hlow & Hv & Hb & Hbv).
  exists w, v. split; [exact Hw|]. split; [exact Hlow|]. split; [exact Hv|].
  split; [rewrite Hb, Hbv; reflexivity|].
  rewrite Hb. fold fword. pose proof (dds_fword_range frequency) as Hf.
  fold fword in Hf. clearbody fword.
  cbn [fword_bits].
  change (Z.shiftr (Z.shiftr (Z.shiftr 4278190080 8) 8) 8) with (Z.shiftl 255 0).
  change (Z.shiftr (Z.shiftr 4278190080 8) 8) with (Z.shiftl 255 8).
  change (Z.shiftr 4278190080 8) with (Z.shiftl 255 16).
  change 4278190080 with (Z.shiftl 255 24).
  change (24 - 8 - 8 - 8) with 0. change (24 - 8 - 8) with 8.
  change (24 - 8) with 16.
  rewrite app_nil_r.
  pose proof (spi_send_byte_value 4) as E4.
  pose proof (spi_send_byte_value
                (to_long (Z.shiftr (Z.land fword (Z.shiftl 255 24)) 24))) as E3.
  pose proof (spi_send_byte_value
                (to_long (Z.shiftr (Z.land fword (Z.shiftl 255 16)) 16))) as E2.
  pose proof (spi_send_byte_value
                (to_long (Z.shiftr (Z.land fword (Z.shiftl 255 8)) 8))) as E1.
  pose proof (spi_send_byte_value
                (to_long (Z.shiftr (Z.land fword (Z.shiftl 255 0)) 0))) as E0.
  rewrite fword_byte in E3, E2, E1, E0 by lia.
  change (4 mod 256) with 4 in E4.
  rewrite (Z.mod_small (fword / 2 ^ 24)) in E3
    by (split; [apply Z.div_pos; lia | apply Z.div_lt_upper_bound; lia]).
  change (2 ^ 0) with 1 in E0. rewrite Z.div_1_r in E0.
  revert E4 E3 E2 E1 E0.
  generalize (mask_bits_length 8 (to_ulong 4) (Z.shiftl 1 7)).
  generalize (mask_bits_length 8
    (to_ulong (to_long (Z.shiftr (Z.land fword (Z.shiftl 255 24)) 24)))
    (Z.shiftl 1 7)).
  generalize (mask_bits_length 8
    (to_ulong (to_long (Z.shiftr (Z.land fword (Z.shiftl 255 16)) 16)))
    (Z.shiftl 1 7)).
  generalize (mask_bits_length 8
    (to_ulong (to_long (Z.shiftr (Z.land fword (Z.shiftl 255 8)) 8)))
    (Z.shiftl 1 7)).
  generalize (mask_bits_length 8
    (to_ulong (to_long (Z.shiftr (Z.land fword (Z.shiftl 255 0)) 0)))
    (Z.shiftl 1 7)).
  generalize (mask_bits 8 (to_ulong 4) (Z.shiftl 1 7)) as l4.
  generalize (mask_bits 8
    (to_ulong (to_long (Z.shiftr (Z.land fword (Z.shiftl 255 24)) 24)))
    (Z.shiftl 1 7)) as l3.
  generalize (mask_bits 8
    (to_ulong (to_long (Z.shiftr (Z.land fword (Z.shiftl 255 16)) 16)))
    (Z.shiftl 1 7)) as l2.
  generalize (mask_bits 8
    (to_ulong (to_long (Z.shiftr (Z.land fword (Z.shiftl 255 8)) 8)))
    (Z.shiftl 1 7)) as l1.
  generalize (mask_bits 8
    (to_ulong (to_long (Z.shiftr (Z.land fword (Z.shiftl 255 0)) 0)))
    (Z.shiftl 1 7)) as l0.
  intros l0 l1 l2 l3 l4 L0 L1 L2 L3 L4 E4 E3 E2 E1 E0.
  unfold dds_bytes. rewrite !length_app, L4, L3, L2, L1, L0.
  repeat (destruct l4 as [|? l4]; [discriminate L4|]); destruct l4; [|discriminate L4].
  repeat (destruct l3 as [|? l3]; [discriminate L3|]); destruct l3; [|discriminate L3].
  repeat (destruct l2 as [|? l2]; [discriminate L2|]); destruct l2; [|discriminate L2].
  repeat (destruct l1 as [|? l1]; [discriminate L1|]); destruct l1; [|discriminate L1].
  repeat (destruct l0 as [|? l0]; [discriminate L0|]); destruct l0; [|discriminate L0].
  cbn [app bits_bytes take drop Nat.add].
  rewrite E4, E3, E2, E1, E0. reflexivity.
Qed.

End DdsBytes.

(** ** Start-up: main results *)

Lemma power_on_rows ee ins : rows 8 2 (f_vfo (power_on ee ins)).
Proof. split; [reflexivity|]. cbn. repeat constructor. Qed.

Lemma power_on_f_lo ee ins : length (f_lo (power_on ee ins)) = 2%nat.
Proof. reflexivity. Qed.

(** C5.  After [load_all_vfos] every one of the 16 slots lies inside its
    band: it holds the persisted frequency if [band_f0[b] <= f <= band_f1[b]]
    and the factory default [f_vfo0[b][v]] otherwise, and every factory
    default lies inside its band. *)
Theorem load_all_vfos_in_band r b v :
  rows 8 2 (f_vfo r) -> 0 <= b <= 7 -> 0 <= v <= 1 ->
  let persisted := eeprom_load_frequency b v r in
  let loaded := idx2 (f_vfo (load_all_vfos r)) b v in
  idx band_f0 b <= loaded <= idx band_f1 b
  /\ loaded = (if (idx band_f0 b <=? persisted) && (persisted <=? idx band_f1 b)
               then persisted else idx2 f_vfo0 b v)
  /\ idx band_f0 b <= idx2 f_vfo0 b v <= idx band_f1 b.
Proof.
  intros Hrows Hb Hv persisted loaded.
  destruct (load_all_vfos_spec r Hrows) as (tbl & E & _ & H).
  assert (Hl : loaded = vfo_checked r b v).
  { subst loaded. rewrite E. cbn [f_vfo set_f_vfo]. apply H; lia. }
  split; [rewrite Hl; apply vfo_checked_in_band; lia|].
  split; [|apply f_vfo0_in_band; lia].
  rewrite Hl. unfold vfo_checked, is_freq_ok. fold persisted.
  destruct ((idx band_f0 b <=? persisted) && (persisted <=? idx band_f1 b));
    reflexivity.
Qed.

(** The scenario of the specification: slot (3, 0) holds 999 Hz. *)
Lemma load_all_vfos_in_band_witness :
  let r := power_on {[152 := 0; 153 := 0; 154 := 3; 155 := 231]} [] in
  let persisted := eeprom_load_frequency 3 0 r in
  let loaded := idx2 (f_vfo (load_all_vfos r)) 3 0 in
  idx band_f0 3 <= loaded <= idx band_f1 3
  /\ loaded = (if (idx band_f0 3 <=? persisted) && (persisted <=? idx band_f1 3)
               then persisted else idx2 f_vfo0 3 0)
  /\ idx band_f0 3 <= idx2 f_vfo0 3 0 <= idx band_f1 3.
Proof.
  intros r. apply (load_all_vfos_in_band r 3 0).
  - apply power_on_rows.
  - lia.
  - lia.
Defined.

(** The same after the whole start-up, from power-on with any EEPROM
    content. *)
Lemma main_load_in_band ee ins b v :
  0 <= b <= 7 -> 0 <= v <= 1 ->
  idx band_f0 b <= idx2 (f_vfo (main_load (power_on ee ins))) b v
                <= idx band_f1 b.
Proof.
  intros Hb Hv.
  destruct (main_load_spec (power_on ee ins) (power_on_rows ee ins)
              (power_on_f_lo ee ins)) as (lo & tbl & g & l & E & Hvfo & _ & _ & _).
  rewrite E. cbn [f_vfo]. rewrite Hvfo by lia.
  apply vfo_checked_in_band; lia.
Qed.

(** C6.  After the start-up both LO frequencies lie within 3000 Hz of
    10 MHz: [f_lo[s]] holds the persisted value of slot (8, s) if that lies
    in [10 MHz - 3000, 10 MHz + 3000], and 10 MHz + 1500 * (2 s - 1)
    otherwise. *)
Theorem main_load_f_lo r s :
  rows 8 2 (f_vfo r) -> length (f_lo r) = 2%nat -> 0 <= s <= 1 ->
  let persisted := eeprom_load_frequency 8 s r in
  let loaded := idx (f_lo (main_load r)) s in
  Z.abs (loaded - 10000000) <= 3000
  /\ loaded = (if (10000000 - 3000 <=? persisted) && (persisted <=? 10000000 + 3000)
               then persisted else 10000000 + 1500 * (2 * s - 1)).
Proof.
  intros Hrows Hlen Hs persisted loaded.
  destruct (main_load_spec r Hrows Hlen) as (lo & tbl & g & l & E & _ & Hlo & _ & _).
  assert (Hl : loaded = lo_checked r s).
  { subst loaded. rewrite E. cbn [f_lo]. apply Hlo. lia. }
  rewrite Hl. unfold lo_checked, INTERFREQUENCY. fold persisted.
  rewrite to_long_id by lia.
  destruct (Z.ltb_spec persisted (10000000 - 3000));
    destruct (Z.ltb_spec (10000000 + 3000) persisted);
    destruct (Z.leb_spec (10000000 - 3000) persisted);
    destruct (Z.leb_spec persisted (10000000 + 3000));
    cbn [orb andb]; try lia; (split; [lia|]); f_equal; lia.
Qed.

Lemma main_load_f_lo_witness :
  let r := power_on ∅ [] in
  let persisted := eeprom_load_frequency 8 1 r in
  let loaded := idx (f_lo (main_load r)) 1 in
  Z.abs (loaded - 10000000) <= 3000
  /\ loaded = (if (10000000 - 3000 <=? persisted) && (persisted <=? 10000000 + 3000)
               then persisted else 10000000 + 1500 * (2 * 1 - 1)).
Proof.
  intros r. apply (main_load_f_lo r 1).
  - apply power_on_rows.
  - reflexivity.
  - lia.
Defined.

(** C9.  The start-up keeps a persisted band index in [0, 7] and a
    persisted VFO id in [0, 1], and replaces any other band index by 2 and
    any other VFO id by 0. *)
Theorem main_load_last_used r :
  rows 8 2 (f_vfo r) -> length (f_lo r) = 2%nat ->
  let band := eeprom_read 256 r in
  let vfo := eeprom_read 257 r in
  cur_band (main_load r) = (if (0 <=? band) && (band <=? 7) then band else 2)
  /\ cur_vfo (main_load r) = (if (0 <=? vfo) && (vfo <=? 1) then vfo else 0).
Proof.
  intros Hrows Hlen band vfo.
  destruct (main_load_spec r Hrows Hlen) as (lo & tbl & g & l & E & _ & _ & _ & _).
  rewrite E. cbn [cur_band cur_vfo]. fold band. fold vfo. split.
  - destruct (Z.ltb_spec band 0); destruct (Z.ltb_spec 7 band);
      destruct (Z.leb_spec 0 band); destruct (Z.leb_spec band 7);
      cbn [orb andb]; lia.
  - destruct (Z.ltb_spec vfo 0); destruct (Z.ltb_spec 1 vfo);
      destruct (Z.leb_spec 0 vfo); destruct (Z.leb_spec vfo 1);
      cbn [orb andb]; lia.
Qed.

(** A persisted band 9 and VFO 5. *)
Lemma main_load_last_used_witness :
  let r := power_on {[256 := 9; 257 := 5]} [] in
  let band := eeprom_read 256 r in
  let vfo := eeprom_read 257 r in
  cur_band (main_load r) = (if (0 <=? band) && (band <=? 7) then band else 2)
  /\ cur_vfo (main_load r) = (if (0 <=? vfo) && (vfo <=? 1) then vfo else 0).
Proof.
  intros r. apply (main_load_last_used r).
  - apply power_on_rows.
  - reflexivity.
Defined.

Example main_load_band_9 :
  let r := main_load (power_on {[256 := 9; 257 := 5]} []) in
  cur_band r = 2 /\ cur_vfo r = 0.
Proof. vm_compute. split; reflexivity. Qed.

Example main_load_band_5 :
  let r := main_load (power_on {[256 := 5; 257 := 1]} []) in
  cur_band r = 5 /\ cur_vfo r = 1.
Proof. vm_compute. split; reflexivity. Qed.

Example main_load_vfo_999 :
  let r := main_load (power_on {[152 := 0; 153 := 0; 154 := 3; 155 := 231]} []) in
  eeprom_load_frequency 3 0 r = 999 /\ idx2 (f_vfo r) 3 0 = 14200000.
Proof. vm_compute. split; reflexivity. Qed.

(** ** The control loop *)

Section ControlLoop.

Lemma dds_wrote_frame r w r' :
  dds_wrote r w r' ->
  exists g l, r' = set_log l (set_gpiob_odr g r).
Proof. intros ->. eexists. eexists. reflexivity. Qed.

(** The tuning step: the active slot moves by [pulses * pulses * tuning],
    the DDS is reprogrammed, [tuning] is cleared; nothing else changes
    but port B and the outputs. *)
Lemma main_tune_spec r :
  tuning r <> 0 ->
  let f := idx2 (f_vfo r) (cur_band r) (cur_vfo r) in
  let step := to_long (to_long (pulses r * pulses r) * tuning r) in
  exists g l,
    main_tune r
    = set_tuning 0 (set_log l (set_gpiob_odr g
        (set_f_vfo (upd2 (f_vfo r) (cur_band r) (cur_vfo r) (to_long (f + step)))
           r))).
Proof.
  intros Ht f step. unfold main_tune.
  destruct (Z.eqb_spec (tuning r) 0) as [E|_]; [contradiction|].
  cbv zeta. fold f. fold step.
  set (r1 := set_f_vfo _ r).
  destruct (set_frequency_wrote (idx2 (f_vfo r1) (cur_band r1) (cur_vfo r1)) r1)
    as (w & Hw).
  destruct (dds_wrote_frame _ _ _ Hw) as (g & l & E).
  rewrite E. exists g. eexists.
  unfold show_frequency1. apply radio_ext; radio_simpl; reflexivity.
Qed.

(** A band change leaves the globals alone except [cur_band] (already
    updated): it writes ports A and B and the EEPROM cell 256, and ends
    with the LO set to the preferred sideband of the band, the sideband
    field redrawn and the band stored. *)
Lemma main_band_changed_spec r :
  let p := idx pref_sideband (cur_band r) in
  exists ga gb l,
    main_band_changed r
    = mkRadio (cur_vfo r) (cur_band r) (sideband r) (f_lo r) (f_vfo r)
        (tuning r) (pulses r) (runsecs r) (runsecs_msg r)
        (<[256 := to_uchar (cur_band r)]> (eeprom r)) ga gb (gpioc_odr r)
        (pending r)
        (EepromWrite 256 (to_uchar (cur_band r))
           :: ShowSideband p 0
           :: Si5351SetFreq SYNTH_MS_0 (idx (f_lo r) p) :: l).
Proof.
  intros p. unfold main_band_changed. cbv zeta.
  destruct (set_frequency_wrote (idx2 (f_vfo r) (cur_band r) (cur_vfo r)) r)
    as (w & Hw).
  destruct (dds_wrote_frame _ _ _ Hw) as (gb & l & E).
  rewrite E. clear E Hw.
  unfold set_band_relay. cbn [for_loop]. cbv zeta.
  unfold show_band, show_frequency1, show_sideband, si5351_set_freq,
    eeprom_write, relay_odr.
  radio_simpl. fold p.
  destruct (Z.land (Z.shiftl 1 0) (cur_band r) =? 0);
    destruct (Z.land (Z.shiftl 1 (0 + 1)) (cur_band r) =? 0);
    destruct (Z.land (Z.shiftl 1 (0 + 1 + 1)) (cur_band r) =? 0);
    radio_simpl;
    eexists; exists gb; eexists;
    (apply radio_ext; radio_simpl; reflexivity).
Qed.

End ControlLoop.

(** ** The control loop: main results *)

(** C3 (as amended).  The tuning step of the control loop clears the
    direction flag [tuning] and leaves the pulse count [pulses] as it is; the
    pulse count is cleared by the timer interrupt. *)
Theorem main_tune_clears_tuning r :
  tuning r <> 0 ->
  tuning (main_tune r) = 0
  /\ pulses (main_tune r) = pulses r
  /\ pulses (TIM2_IRQHandler (main_tune r)) = 0.
Proof.
  intros Ht. destruct (main_tune_spec r Ht) as (g & l & E).
  rewrite E. repeat split.
Qed.

(** The state after start-up with an empty EEPROM, one encoder pulse
    clockwise. *)
Lemma main_tune_clears_tuning_witness :
  let r := EXTI0_IRQHandler 3 (main_load (power_on ∅ [])) in
  tuning (main_tune r) = 0
  /\ pulses (main_tune r) = pulses r
  /\ pulses (TIM2_IRQHandler (main_tune r)) = 0.
Proof.
  intros r. apply (main_tune_clears_tuning r).
  vm_compute. discriminate.
Defined.

(** C3 (as stated) fails: after one pulse the step is taken with
    [tuning = 1] and [pulses = 1], and [pulses] is still 1 afterwards. *)
Lemma main_tune_keeps_pulses_counterexample :
  let r := EXTI0_IRQHandler 3 (main_load (power_on ∅ [])) in
  tuning r = 1 /\ pulses r = 1
  /\ ~ (tuning (main_tune r) = 0 /\ pulses (main_tune r) = 0).
Proof.
  vm_compute. split; [reflexivity|]. split; [reflexivity|].
  intros [_ H]. discriminate H.
Qed.

(** C4.  The tuning step adds [d * p^2] to the frequency of the active VFO
    ([d] the direction, [p] the pulse count), whatever the band limits;
    the side conditions say that the state is well formed and that the
    32-bit arithmetic does not overflow. *)
Theorem main_tune_step r d p :
  radio_wf r ->
  tuning r = d -> d = 1 \/ d = -1 -> pulses r = p ->
  let f := idx2 (f_vfo r) (cur_band r) (cur_vfo r) in
  p * p < 2 ^ 31 -> - 2 ^ 31 <= f + d * p ^ 2 < 2 ^ 31 ->
  idx2 (f_vfo (main_tune r)) (cur_band r) (cur_vfo r) = f + d * p ^ 2
  /\ cur_band (main_tune r) = cur_band r
  /\ cur_vfo (main_tune r) = cur_vfo r.
Proof.
  intros (Hrows & _ & Hb & Hv) Ht Hd Hp f Hpp Hf.
  assert (Hne : tuning r <> 0) by lia.
  destruct (main_tune_spec r Hne) as (g & l & E).
  rewrite E. radio_simpl. split; [|split; reflexivity].
  rewrite (idx2_upd2_eq 8 2) by (assumption || lia).
  fold f. rewrite Ht, Hp.
  assert (Hpp' : 0 <= p * p) by nia.
  rewrite (to_long_id (p * p)) by lia.
  rewrite (to_long_id (p * p * d)) by (destruct Hd; subst d; lia).
  replace (f + p * p * d) with (f + d * p ^ 2) by (rewrite Z.pow_2_r; lia).
  apply to_long_id. exact Hf.
Qed.

(** Five pulses upwards from 7,120,000 Hz. *)
Lemma main_tune_step_witness :
  let r := set_pulses 5 (set_tuning 1 (main_load (power_on ∅ []))) in
  let f := idx2 (f_vfo r) (cur_band r) (cur_vfo r) in
  idx2 (f_vfo (main_tune r)) (cur_band r) (cur_vfo r) = f + 1 * 5 ^ 2
  /\ cur_band (main_tune r) = cur_band r
  /\ cur_vfo (main_tune r) = cur_vfo r.
Proof.
  intros r f. apply (main_tune_step r 1 5).
  - split; [split; [reflexivity | vm_compute; repeat constructor]|].
    vm_compute. repeat split; discriminate.
  - reflexivity.
  - left. reflexivity.
  - reflexivity.
  - reflexivity.
  - vm_compute. split; [discriminate | reflexivity].
Defined.

Example main_tune_1_pulse :
  let r := set_pulses 1 (set_tuning (-1) (main_load (power_on ∅ []))) in
  idx2 (f_vfo r) 2 0 = 7120000 /\ idx2 (f_vfo (main_tune r)) 2 0 = 7119999.
Proof. vm_compute. split; reflexivity. Qed.

Example main_tune_5_pulses :
  let r := set_pulses 5 (set_tuning 1 (main_load (power_on ∅ []))) in
  idx2 (f_vfo r) 2 0 = 7120000 /\ idx2 (f_vfo (main_tune r)) 2 0 = 7120025.
Proof. vm_compute. split; reflexivity. Qed.

(** Tuning leaves the band: no clamping. *)
Example main_tune_out_of_band :
  let r0 := main_load (power_on ∅ []) in
  let r := set_pulses 300 (set_tuning 1 r0) in
  idx2 (f_vfo (main_tune r)) 2 0 = 7210000 /\ idx band_f1 2 = 7200000.
Proof. vm_compute. split; reflexivity. Qed.

(** C8.  At band 0 the band-down key (3), and at band 7 the band-up key
    (0), leave the machine exactly as it is: no global, no port, no EEPROM
    cell and no output changes. *)
Theorem main_switch_band_edge key r :
  (key = 3 /\ cur_band r = 0) \/ (key = 0 /\ cur_band r = 7) ->
  main_switch key r = Some (tt, r).
Proof.
  intros [[-> E]|[-> E]]; unfold main_switch, lift; rewrite E; reflexivity.
Qed.

Lemma main_switch_band_edge_witness :
  let r0 := set_cur_band 0 (main_load (power_on ∅ [])) in
  let r7 := set_cur_band 7 (main_load (power_on ∅ [])) in
  main_switch 3 r0 = Some (tt, r0) /\ main_switch 0 r7 = Some (tt, r7).
Proof.
  intros r0 r7. split.
  - apply (main_switch_band_edge 3 r0). left. split; reflexivity.
  - apply (main_switch_band_edge 0 r7). right. split; reflexivity.
Defined.

(** C10.  A band change (key 0 below band 7, key 3 above band 0) programs
    the LO with [f_lo[pref_sideband[cur_band]]] of the new band and redraws
    the sideband field with that preferred sideband, but leaves [sideband]
    (and [f_lo]) as they were.  After start-up on band 2 (LSB) the key 0
    leads to band 3 with [sideband] still 0 although the LO of sideband 1
    is programmed; the sideband key then brings the flag to 1. *)
Theorem main_switch_band_change_sideband key r :
  0 <= cur_band r <= 7 ->
  (key = 0 /\ cur_band r < 7) \/ (key = 3 /\ 0 < cur_band r) ->
  let band := if key =? 0 then cur_band r + 1 else cur_band r - 1 in
  let p := idx pref_sideband band in
  (exists r' l,
     main_switch key r = Some (tt, r')
     /\ cur_band r' = band
     /\ sideband r' = sideband r
     /\ f_lo r' = f_lo r
     /\ log r' = EepromWrite 256 band :: ShowSideband p 0
                   :: Si5351SetFreq SYNTH_MS_0 (idx (f_lo r) p) :: l)
  /\ (exists r0 r1 r2,
        r0 = main_load (power_on ∅ [])
        /\ main_switch 0 r0 = Some (tt, r1)
        /\ sideband r1 = 0
        /\ idx pref_sideband (cur_band r1) = 1
        /\ main_switch 1 r1 = Some (tt, r2)
        /\ sideband r2 = idx pref_sideband (cur_band r2)).
Proof.
  intros Hb Hkey band p. split.
  - assert (Hlong : to_long band = band) by (apply to_long_id; subst band;
      destruct Hkey as [[-> _]|[-> _]]; cbn; lia).
    assert (Hbyte : to_uchar band = band) by (apply to_uchar_id; subst band;
      destruct Hkey as [[-> ?]|[-> ?]]; cbn; lia).
    assert (Hsw : main_switch key r
                  = Some (tt, main_band_changed (set_cur_band band r))).
    { subst band. destruct Hkey as [[-> Hlt]|[-> Hlt]];
        unfold main_switch, lift, MAXBANDS; cbn [Z.eqb] in *.
      - destruct (Z.ltb_spec (cur_band r) (8 - 1)); [|lia].
        rewrite Hlong. reflexivity.
      - destruct (Z.ltb_spec 0 (cur_band r)); [|lia].
        rewrite Hlong. reflexivity. }
    destruct (main_band_changed_spec (set_cur_band band r)) as (ga & gb & l & E).
    cbn [cur_band set_cur_band cur_vfo sideband f_lo f_vfo tuning pulses runsecs
         runsecs_msg eeprom gpioc_odr pending] in E.
    rewrite Hbyte in E. fold p in E.
    eexists. exists l. split; [rewrite Hsw, E; reflexivity|].
    cbn [cur_band sideband f_lo log]. repeat split.
  - eexists. eexists. eexists. split; [reflexivity|].
    split; [vm_compute; reflexivity|].
    split; [vm_compute; reflexivity|].
    split; [vm_compute; reflexivity|].
    split; [vm_compute; reflexivity|].
    vm_compute. reflexivity.
Qed.

Lemma main_switch_band_change_sideband_witness :
  let r := main_load (power_on ∅ []) in
  let band := if 3 =? 0 then cur_band r + 1 else cur_band r - 1 in
  let p := idx pref_sideband band in
  (exists r' l,
     main_switch 3 r = Some (tt, r')
     /\ cur_band r' = band
     /\ sideband r' = sideband r
     /\ f_lo r' = f_lo r
     /\ log r' = EepromWrite 256 band :: ShowSideband p 0
                   :: Si5351SetFreq SYNTH_MS_0 (idx (f_lo r) p) :: l)
  /\ (exists r0 r1 r2,
        r0 = main_load (power_on ∅ [])
        /\ main_switch 0 r0 = Some (tt, r1)
        /\ sideband r1 = 0
        /\ idx pref_sideband (cur_band r1) = 1
        /\ main_switch 1 r1 = Some (tt, r2)
        /\ sideband r2 = idx pref_sideband (cur_band r2)).
Proof.
  intros r. apply (main_switch_band_change_sideband 3 r).
  - vm_compute. split; discriminate.
  - right. split; [reflexivity|]. vm_compute. reflexivity.
Defined.

(** ** The keypad decoder *)

Section Keypad.

(** The matching loop stops at the first band that contains the average. *)
Lemma get_keys_match_here n t1 adcval0 secs0 r :
  idx key_value t1 - 100 < adcval0 < idx key_value t1 + 100 ->
  exists r',
    get_keys_match (S n) t1 adcval0 secs0 r
    = (if to_long (runsecs r - secs0) <? 2 then t1 else t1 + 6, r')
    /\ runsecs_msg r' = runsecs r.
Proof.
  intros [Hlo Hhi]. cbn [get_keys_match].
  destruct (Z.ltb_spec (idx key_value t1 - 100) adcval0); [|lia].
  destruct (Z.ltb_spec adcval0 (idx key_value t1 + 100)); [|lia].
  cbn [andb]. cbv zeta. radio_simpl.
  destruct (to_long (runsecs r - secs0) <? 2); eexists; split; reflexivity.
Qed.

Lemma get_keys_match_skip n t1 adcval0 secs0 r :
  adcval0 <= idx key_value t1 - 100 \/ idx key_value t1 + 100 <= adcval0 ->
  get_keys_match (S n) t1 adcval0 secs0 r
  = get_keys_match n (t1 + 1) adcval0 secs0 r.
Proof.
  intros H. cbn [get_keys_match].
  destruct (Z.ltb_spec (idx key_value t1 - 100) adcval0);
    destruct (Z.ltb_spec adcval0 (idx key_value t1 + 100));
    cbn [andb]; try reflexivity; lia.
Qed.

(** An average outside all six bands gives "no key". *)
Lemma get_keys_match_none adcval0 secs0 r :
  Forall (fun k => adcval0 <= k - 100 \/ k + 100 <= adcval0) key_value ->
  get_keys_match 6 0 adcval0 secs0 r = (-1, r).
Proof.
  intros H. unfold key_value in H.
  repeat (apply Forall_cons_1 in H; destruct H as [? H]).
  rewrite get_keys_match_skip by assumption.
  rewrite get_keys_match_skip by assumption.
  rewrite get_keys_match_skip by assumption.
  rewrite get_keys_match_skip by assumption.
  rewrite get_keys_match_skip by assumption.
  rewrite get_keys_match_skip by assumption.
  reflexivity.
Qed.

(** [get_keys] once the key is seen pressed: the average of the samples
    is decoded. *)
Lemma get_keys_pressed r a0 r1 s r2 :
  get_adc 1 r = Some (a0, r1) -> a0 <= 4000 ->
  get_keys_sample (S (length (pending r))) (runsecs r1) 0 0 r1 = Some (s, r2) ->
  snd s <> 0 ->
  get_keys r
  = Some (get_keys_match 6 0 (to_long (Z.quot (fst s) (snd s))) (runsecs r1) r2).
Proof.
  intros Hadc Ha Hs Hcnt. unfold get_keys, bind, gets.
  rewrite Hadc. destruct (Z.ltb_spec 4000 a0); [lia|].
  rewrite Hs. destruct (Z.eqb_spec (snd s) 0); [contradiction|].
  reflexivity.
Qed.

Lemma get_keys_decodes_eq r a0 r1 s r2 v d :
  get_adc 1 r = Some (a0, r1) -> a0 <= 4000 ->
  get_keys_sample (S (length (pending r))) (runsecs r1) 0 0 r1 = Some (s, r2) ->
  snd s <> 0 ->
  v = to_long (Z.quot (fst s) (snd s)) ->
  d = to_long (runsecs r2 - runsecs r1) ->
  (270 < v < 470 ->
   exists r3, get_keys r = Some (if d <? 2 then 0 else 6, r3))
  /\ (v = 1800 ->
      exists r3, get_keys r = Some (if d <? 2 then 4 else 10, r3))
  /\ (Forall (fun k => v <= k - 100 \/ k + 100 <= v) key_value ->
      get_keys r = Some (-1, r2)).
Proof.
  intros Hadc Ha Hs Hcnt Ev Ed.
  rewrite (get_keys_pressed r a0 r1 s r2 Hadc Ha Hs Hcnt), <- Ev.
  clear Hadc Ha Hs Hcnt Ev. subst d.
  generalize (runsecs r1) as secs0. intro secs0.
  split; [|split].
  - intros Hv.
    destruct (get_keys_match_here 5 0 v secs0 r2) as (r3 & E & _).
    { change (idx key_value 0) with 370. lia. }
    exists r3. rewrite E. reflexivity.
  - intros Hv.
    rewrite get_keys_match_skip by (change (idx key_value 0) with 370; lia).
    rewrite get_keys_match_skip by (change (idx key_value (0 + 1)) with 735; lia).
    rewrite get_keys_match_skip
      by (change (idx key_value (0 + 1 + 1)) with 1320; lia).
    rewrite get_keys_match_skip
      by (change (idx key_value (0 + 1 + 1 + 1)) with 2462; lia).
    destruct (get_keys_match_here 1 (0 + 1 + 1 + 1 + 1) v secs0 r2)
      as (r3 & E & _).
    { change (idx key_value (0 + 1 + 1 + 1 + 1)) with 1863. lia. }
    exists r3. rewrite E. reflexivity.
  - intros Hv. rewrite get_keys_match_none by assumption. reflexivity.
Qed.

End Keypad.

(** C1 (as amended).  Let the key be seen pressed, [v] be the average of
    the samples taken while it was held and [d] the ticks of the time base
    elapsed meanwhile.  If 270 < v < 470 the decoder returns 0 when d < 2
    and 6 otherwise; if v = 1800, inside the band of the fifth key (1863),
    it returns 4 when d < 2 and 10 otherwise; if v lies in none of the six
    bands, it returns -1. *)
Theorem get_keys_decodes r a0 r1 s r2 :
  get_adc 1 r = Some (a0, r1) -> a0 <= 4000 ->
  get_keys_sample (S (length (pending r))) (runsecs r1) 0 0 r1 = Some (s, r2) ->
  snd s <> 0 ->
  let v := to_long (Z.quot (fst s) (snd s)) in
  let d := to_long (runsecs r2 - runsecs r1) in
  (270 < v < 470 ->
   exists r3, get_keys r = Some (if d <? 2 then 0 else 6, r3))
  /\ (v = 1800 ->
      exists r3, get_keys r = Some (if d <? 2 then 4 else 10, r3))
  /\ (Forall (fun k => v <= k - 100 \/ k + 100 <= v) key_value ->
      get_keys r = Some (-1, r2)).
Proof.
  intros Hadc Ha Hs Hcnt v d.
  exact (get_keys_decodes_eq r a0 r1 s r2 v d Hadc Ha Hs Hcnt eq_refl eq_refl).
Qed.

(** A short press of the first key: the samples 371, 369 and 370 are
    averaged to 370. *)
Lemma get_keys_decodes_witness :
  let r := set_pending [Adc 372; Adc 371; Adc 371; Adc 368; Adc 369;
                        Adc 370; Adc 370; Adc 4095]
             (main_load (power_on ∅ [])) in
  exists r3, get_keys r = Some (0, r3).
Proof.
  intros r.
  edestruct (get_keys_decodes r 372) as (H & _ & _).
  - vm_compute. reflexivity.
  - lia.
  - vm_compute. reflexivity.
  - vm_compute. discriminate.
  - apply H. vm_compute. split; reflexivity.
Defined.

Example get_keys_long_press :
  let r := set_pending [Adc 372; Adc 371; Adc 371; Tim2; Tim2; Adc 368;
                        Adc 369; Adc 4095]
             (main_load (power_on ∅ [])) in
  fst <$> get_keys r = Some 6.
Proof. vm_compute. reflexivity. Qed.

Example get_keys_released :
  let r := set_pending [Adc 4095; Adc 370] (main_load (power_on ∅ [])) in
  fst <$> get_keys r = Some (-1)
  /\ (pending ∘ snd) <$> get_keys r = Some [Adc 370].
Proof. vm_compute. split; reflexivity. Qed.

Example get_keys_no_band :
  let r := set_pending [Adc 1000; Adc 1000; Adc 1000; Adc 4095]
             (main_load (power_on ∅ [])) in
  fst <$> get_keys r = Some (-1).
Proof. vm_compute. reflexivity. Qed.

(** C1 (as stated) fails twice.  A press averaging 1800 is decoded as key 4,
    not as "no key"; and an average of 270, exactly 100 counts below 370, is
    not decoded as key 0 but as "no key". *)
Lemma get_keys_counterexample :
  let base := main_load (power_on ∅ []) in
  let r1800 := set_pending [Adc 1800; Adc 1800; Adc 1800; Adc 4095] base in
  let r270 := set_pending [Adc 270; Adc 270; Adc 270; Adc 4095] base in
  fst <$> get_keys_sample 3 0 0 0 (set_pending [Adc 1800; Adc 1800; Adc 4095] base)
    = Some (1800, 1)
  /\ fst <$> get_keys r1800 = Some 4
  /\ fst <$> get_keys r1800 <> Some (-1)
  /\ fst <$> get_keys_sample 3 0 0 0 (set_pending [Adc 270; Adc 270; Adc 4095] base)
      = Some (270, 1)
  /\ fst <$> get_keys r270 = Some (-1)
  /\ fst <$> get_keys r270 <> Some 0.
Proof.
  vm_compute. split; [reflexivity|]. split; [reflexivity|].
  split; [discriminate|]. split; [reflexivity|]. split; [reflexivity|].
  discriminate.
Qed.

(** ** Adequacy of the model *)

Section Adequacy.

(** [dds_scale] is the binary64 number nearest to 10.73741824: it is the
    correctly rounded quotient 1073741824 / 100000000, and it lies within
    half a unit in the last place (2^-50) of the decimal literal. *)
Lemma dds_scale_literal :
  dds_scale
  = SFdiv dprec demax (ulong_to_double 1073741824) (ulong_to_double 100000000)
  /\ 2 * Z.abs (6044629098073146 * 10 ^ 8 - 1073741824 * 2 ^ 49) <= 10 ^ 8.
Proof. split; [vm_compute; reflexivity | vm_compute; discriminate]. Qed.

(** Every conversion awaited takes at least one input. *)
Lemma await_adc_pending ins r v r' :
  await_adc ins r = Some (v, r') ->
  (length (pending r') < length ins)%nat.
Proof.
  revert r. induction ins as [|i ins IH]; intros r H; [discriminate|].
  destruct i as [dr|idr|]; cbn [await_adc] in H.
  - injection H as _ <-. cbn. lia.
  - apply IH in H. cbn. lia.
  - apply IH in H. cbn. lia.
Qed.

(** The sampling loop of [get_keys] never stops for lack of fuel: any fuel
    above the number of pending inputs gives the same result. *)
Lemma get_keys_sample_fuel fuel1 fuel2 secs0 adcval1 adcvalcnt r :
  (length (pending r) < fuel1)%nat -> (length (pending r) < fuel2)%nat ->
  get_keys_sample fuel1 secs0 adcval1 adcvalcnt r
  = get_keys_sample fuel2 secs0 adcval1 adcvalcnt r.
Proof.
  revert fuel2 adcval1 adcvalcnt r.
  induction fuel1 as [|fuel1 IH]; intros fuel2 adcval1 adcvalcnt r H1 H2;
    [lia|].
  destruct fuel2 as [|fuel2]; [lia|].
  cbn [get_keys_sample]. unfold bind, get_adc.
  destruct (await_adc (pending r) r) as [[held r1]|] eqn:E1; [|reflexivity].
  destruct (held <=? 4000); [|reflexivity].
  destruct (await_adc (pending r1) r1) as [[a r2]|] eqn:E2; [|reflexivity].
  unfold gets, lift.
  apply await_adc_pending in E1. apply await_adc_pending in E2.
  apply IH; cbn [pending emit set_log]; lia.
Qed.

End Adequacy.

(** ** Well-formedness is an invariant *)

Section Invariant.

Lemma keeps_shape_refl r : keeps_shape r r.
Proof. repeat split. Qed.

Lemma keeps_shape_trans r1 r2 r3 :
  keeps_shape r1 r2 -> keeps_shape r2 r3 -> keeps_shape r1 r3.
Proof.
  intros (A1 & B1 & C1 & D1) (A2 & B2 & C2 & D2).
  repeat split; congruence.
Qed.

Lemma keeps_shape_wf r r' : keeps_shape r r' -> radio_wf r -> radio_wf r'.
Proof.
  intros (A & B & C & D) (W1 & W2 & W3 & W4).
  unfold radio_wf. rewrite A, B, C, D.
  split; [exact W1|]. split; [exact W2|]. split; [exact W3 | exact W4].
Qed.

(** The operations that leave the tables, the band and the VFO alone. *)
Ltac shape_post :=
  let H := fresh in
  intros H; eapply keeps_shape_trans; [exact H | repeat split].

Lemma emit_shape e r0 r : keeps_shape r0 r -> keeps_shape r0 (emit e r).
Proof. shape_post. Qed.
Lemma set_tuning_shape x r0 r : keeps_shape r0 r -> keeps_shape r0 (set_tuning x r).
Proof. shape_post. Qed.
Lemma set_sideband_shape x r0 r :
  keeps_shape r0 r -> keeps_shape r0 (set_sideband x r).
Proof. shape_post. Qed.
Lemma set_runsecs_msg_shape x r0 r :
  keeps_shape r0 r -> keeps_shape r0 (set_runsecs_msg x r).
Proof. shape_post. Qed.
Lemma set_pending_shape x r0 r :
  keeps_shape r0 r -> keeps_shape r0 (set_pending x r).
Proof. shape_post. Qed.
Lemma eeprom_write_shape a v r0 r :
  keeps_shape r0 r -> keeps_shape r0 (eeprom_write a v r).
Proof. shape_post. Qed.
Lemma show_frequency1_shape f c r0 r :
  keeps_shape r0 r -> keeps_shape r0 (show_frequency1 f c r).
Proof. shape_post. Qed.
Lemma show_sideband_shape s i r0 r :
  keeps_shape r0 r -> keeps_shape r0 (show_sideband s i r).
Proof. shape_post. Qed.
Lemma show_vfo_shape v b i r0 r :
  keeps_shape r0 r -> keeps_shape r0 (show_vfo v b i r).
Proof. shape_post. Qed.
Lemma show_msg_shape m c r0 r :
  keeps_shape r0 r -> keeps_shape r0 (show_msg m c r).
Proof. shape_post. Qed.
Lemma si5351_set_freq_shape s f r0 r :
  keeps_shape r0 r -> keeps_shape r0 (si5351_set_freq s f r).
Proof. shape_post. Qed.
Lemma TIM2_IRQHandler_shape r0 r :
  keeps_shape r0 r -> keeps_shape r0 (TIM2_IRQHandler r).
Proof. shape_post. Qed.

Lemma EXTI0_IRQHandler_shape idr r0 r :
  keeps_shape r0 r -> keeps_shape r0 (EXTI0_IRQHandler idr r).
Proof.
  intros H. eapply keeps_shape_trans; [exact H|].
  unfold EXTI0_IRQHandler. cbv zeta.
  destruct (Z.land (Z.land (to_u16 idr) 3) 1 =? 0);
    [|destruct (Z.land (Z.land (to_u16 idr) 3) 2 =? 0)];
    repeat split.
Qed.

Lemma set_f_lo_shape t1 x r0 r :
  keeps_shape r0 r -> keeps_shape r0 (set_f_lo (upd (f_lo r) t1 x) r).
Proof.
  intros H. eapply keeps_shape_trans; [exact H|].
  split; [reflexivity|]. split; [|split; reflexivity].
  cbn [f_lo set_f_lo]. apply length_upd.
Qed.

Lemma set_frequency_shape frequency r0 r :
  keeps_shape r0 r -> keeps_shape r0 (set_frequency frequency r).
Proof.
  intros H. eapply keeps_shape_trans; [exact H|].
  destruct (set_frequency_wrote frequency r) as (w & ->). repeat split.
Qed.

Lemma eeprom_store_frequency_shape band vfo f r0 r :
  keeps_shape r0 r -> keeps_shape r0 (eeprom_store_frequency band vfo f r).
Proof.
  intros H. eapply keeps_shape_trans; [exact H|].
  rewrite eeprom_store_frequency_store4.
  destruct (store_bytes f) as [[[b3 b2] b1] b0]. repeat split.
Qed.

Lemma set_band_relay_shape b r0 r :
  keeps_shape r0 r -> keeps_shape r0 (set_band_relay b r).
Proof.
  intros H. eapply keeps_shape_trans; [exact H|].
  destruct (set_band_relay_frame b r) as (g & l & ->). repeat split.
Qed.

Lemma save_all_vfos_shape r0 r :
  keeps_shape r0 r -> keeps_shape r0 (save_all_vfos r).
Proof.
  intros H. unfold save_all_vfos. cbv zeta.
  apply eeprom_write_shape.
  apply (for_loop_ind (fun _ s => keeps_shape r0 s) 8 0); [exact H|].
  intros i s _ Hs.
  apply (for_loop_ind (fun _ u => keeps_shape r0 u) 2 0); [exact Hs|].
  intros j u _ Hu. apply eeprom_store_frequency_shape. exact Hu.
Qed.

Create HintDb shape.

#[local] Hint Resolve keeps_shape_refl emit_shape set_tuning_shape
  set_sideband_shape set_runsecs_msg_shape set_pending_shape
  eeprom_write_shape show_frequency1_shape show_sideband_shape show_vfo_shape
  show_msg_shape si5351_set_freq_shape TIM2_IRQHandler_shape
  EXTI0_IRQHandler_shape set_f_lo_shape set_frequency_shape
  eeprom_store_frequency_shape set_band_relay_shape save_all_vfos_shape
  : shape.

(** The code that waits for the hardware. *)
Lemma await_adc_shape ins r0 r v r' :
  keeps_shape r0 r -> await_adc ins r = Some (v, r') -> keeps_shape r0 r'.
Proof.
  revert r. induction ins as [|i ins IH]; intros r H0 H; [discriminate|].
  destruct i as [dr|idr|]; cbn [await_adc] in H.
  - injection H as _ <-. auto with shape.
  - apply (IH _ (EXTI0_IRQHandler_shape idr r0 r H0) H).
  - apply (IH _ (TIM2_IRQHandler_shape r0 r H0) H).
Qed.

Lemma get_keys_sample_shape fuel secs0 adcval1 adcvalcnt r0 r s r' :
  keeps_shape r0 r ->
  get_keys_sample fuel secs0 adcval1 adcvalcnt r = Some (s, r') ->
  keeps_shape r0 r'.
Proof.
  revert adcval1 adcvalcnt r.
  induction fuel as [|fuel IH]; intros adcval1 adcvalcnt r H0 H; [discriminate|].
  cbn [get_keys_sample] in H. unfold bind, get_adc in H.
  destruct (await_adc (pending r) r) as [[held r1]|] eqn:E1; [|discriminate].
  apply (await_adc_shape _ r0) in E1; [|exact H0].
  destruct (held <=? 4000).
  - destruct (await_adc (pending r1) r1) as [[a r2]|] eqn:E2; [|discriminate].
    apply (await_adc_shape _ r0) in E2; [|exact E1].
    unfold gets, lift in H.
    apply (IH _ _ _ (emit_shape _ r0 r2 E2) H).
  - injection H as _ <-. exact E1.
Qed.

Lemma get_keys_match_shape n t1 adcval0 secs0 r0 r :
  keeps_shape r0 r ->
  keeps_shape r0 (snd (get_keys_match n t1 adcval0 secs0 r)).
Proof.
  intros H0. revert t1. induction n as [|n IH]; intros t1; [exact H0|].
  cbn [get_keys_match].
  destruct ((idx key_value t1 - 100 <? adcval0)
            && (adcval0 <? idx key_value t1 + 100)); [|apply IH].
  cbv zeta.
  match goal with |- context [if ?c then _ else _] => destruct c end;
    cbn [snd]; auto 6 with shape.
Qed.

Lemma get_keys_shape r0 r key r' :
  keeps_shape r0 r -> get_keys r = Some (key, r') -> keeps_shape r0 r'.
Proof.
  unfold get_keys, bind, gets, get_adc. intros H0 H.
  destruct (await_adc (pending r) r) as [[a0 r1]|] eqn:E1; [|discriminate].
  apply (await_adc_shape _ r0) in E1; [|exact H0].
  destruct (4000 <? a0).
  - injection H as _ <-. exact E1.
  - destruct (get_keys_sample _ _ 0 0 r1) as [[s r2]|] eqn:E2; [|discriminate].
    apply (get_keys_sample_shape _ _ _ _ r0) in E2; [|exact E1].
    destruct (snd s =? 0); [discriminate|].
    cbv beta zeta in H.
    match type of H with Some (get_keys_match ?n ?t ?a ?c ?x) = _ =>
      pose proof (get_keys_match_shape n t a c r0 x E2) as Hm;
      destruct (get_keys_match n t a c x) as [k x']
    end.
    injection H as _ <-. exact Hm.
Qed.

Lemma set_lo_release_shape fuel r0 r u r' :
  keeps_shape r0 r -> set_lo_release fuel r = Some (u, r') ->
  keeps_shape r0 r'.
Proof.
  revert r. induction fuel as [|fuel IH]; intros r H0 H; [discriminate|].
  cbn [set_lo_release] in H. unfold bind in H.
  destruct (get_keys r) as [[key r1]|] eqn:E1; [|discriminate].
  apply (get_keys_shape r0) in E1; [|exact H0].
  destruct (key =? -1).
  - injection H as _ <-. exact E1.
  - exact (IH _ E1 H).
Qed.

Lemma set_lo_tune_shape fuel key f_lo_tmp r0 r kf r' :
  keeps_shape r0 r -> set_lo_tune fuel key f_lo_tmp r = Some (kf, r') ->
  keeps_shape r0 r'.
Proof.
  revert key f_lo_tmp r.
  induction fuel as [|fuel IH]; intros key f_lo_tmp r H0 H; [discriminate|].
  cbn [set_lo_tune] in H.
  destruct ((key =? 6) || (key =? 7)).
  - injection H as _ <-. exact H0.
  - unfold bind, gets, lift, ret in H. cbv beta zeta in H.
    destruct (tuning r =? 0);
      match type of H with
      | match get_keys ?x with _ => _ end = _ =>
          assert (E0 : keeps_shape r0 x) by auto 6 with shape;
          destruct (get_keys x) as [[key' r1]|] eqn:E1; [|discriminate];
          apply (get_keys_shape r0) in E1; [|exact E0]
      end;
      exact (IH _ _ _ E1 H).
Qed.

Lemma set_lo_shape sb r0 r key r' :
  keeps_shape r0 r -> set_lo sb r = Some (key, r') -> keeps_shape r0 r'.
Proof.
  unfold set_lo, bind, gets, lift, ret. intros H0 H.
  match type of H with
  | match set_lo_release ?f ?x with _ => _ end = _ =>
      assert (E0 : keeps_shape r0 x) by auto 6 with shape;
      destruct (set_lo_release f x) as [[u r1]|] eqn:E1; [|discriminate];
      apply (set_lo_release_shape _ r0) in E1; [|exact E0]
  end.
  destruct (get_keys r1) as [[k r2]|] eqn:E2; [|discriminate].
  apply (get_keys_shape r0) in E2; [|exact E1].
  destruct (set_lo_tune _ k _ r2) as [[kf r3]|] eqn:E3; [|discriminate].
  apply (set_lo_tune_shape _ _ _ r0) in E3; [|exact E2].
  cbv zeta in H.
  destruct (fst kf =? 6); [|destruct (fst kf =? 7)];
    injection H as _ <-; auto 8 with shape.
Qed.

(** The start-up establishes well-formedness. *)
Lemma main_load_wf ee ins : radio_wf (main_load (power_on ee ins)).
Proof.
  destruct (main_load_spec (power_on ee ins) (power_on_rows ee ins)
              (power_on_f_lo ee ins))
    as (lo & tbl & g & l & E & _ & _ & Hrows & Hlen).
  rewrite E. unfold radio_wf. cbn [f_vfo f_lo cur_band cur_vfo].
  assert (Hrd : forall a, 0 <= eeprom_read a (power_on ee ins) < 256)
    by (intros a; apply to_uchar_range).
  pose proof (Hrd 256) as H256. pose proof (Hrd 257) as H257.
  split; [exact Hrows|]. split; [exact Hlen|]. split.
  - destruct (Z.ltb_spec (eeprom_read 256 (power_on ee ins)) 0);
      destruct (Z.ltb_spec 7 (eeprom_read 256 (power_on ee ins)));
      cbn [orb]; lia.
  - destruct (Z.ltb_spec (eeprom_read 257 (power_on ee ins)) 0);
      destruct (Z.ltb_spec 1 (eeprom_read 257 (power_on ee ins)));
      cbn [orb]; lia.
Qed.

(** The tuning step keeps it. *)
Lemma main_tune_wf r : radio_wf r -> radio_wf (main_tune r).
Proof.
  intros (W1 & W2 & W3 & W4).
  destruct (Z.eq_dec (tuning r) 0) as [E|Hne].
  - unfold main_tune. rewrite E. cbn [Z.eqb].
    split; [exact W1|]. split; [exact W2|]. split; [exact W3 | exact W4].
  - destruct (main_tune_spec r Hne) as (g & l & ->).
    unfold radio_wf. radio_simpl.
    split; [apply rows_upd2; exact W1|].
    split; [exact W2|]. split; [exact W3 | exact W4].
Qed.

Lemma main_band_changed_wf r : radio_wf r -> radio_wf (main_band_changed r).
Proof.
  intros W. destruct (main_band_changed_spec r) as (ga & gb & l & ->).
  exact W.
Qed.

(** The keys the [switch] knows. *)
Lemma main_switch_cases key :
  key = 0 \/ key = 1 \/ key = 2 \/ key = 3 \/ key = 4 \/ key = 6 \/ key = 7
  \/ main_switch key = ret tt.
Proof.
  destruct key as [|p|p]; [tauto | | do 7 right; reflexivity].
  destruct p as [[[|p|]|[|p|]|]|[[|p|]|[|p|]|]|];
    first [ do 7 right; reflexivity | tauto ].
Qed.

(** The key dispatch keeps it, whatever the key. *)
Lemma main_switch_wf key r r' :
  radio_wf r -> main_switch key r = Some (tt, r') -> radio_wf r'.
Proof.
  intros W H. pose proof W as (W1 & W2 & W3 & W4).
  assert (Hlift : forall f, lift f r = Some (tt, r') -> r' = f r).
  { intros f Hf. unfold lift in Hf. congruence. }
  assert (Hlo : forall sb,
             (let* _ := set_lo sb in
              lift (fun r =>
                let r := show_frequency1
                           (idx2 (f_vfo r) (cur_band r) (cur_vfo r)) 2 r in
                show_sideband (sideband r) 0 r)) r = Some (tt, r') ->
             radio_wf r').
  { intros sb Hsb. unfold bind, lift in Hsb.
    destruct (set_lo sb r) as [[k r1]|] eqn:E1; [|discriminate].
    apply (set_lo_shape sb r) in E1; [|apply keeps_shape_refl].
    injection Hsb as <-.
    eapply keeps_shape_wf; [|exact W]. auto with shape. }
  destruct (main_switch_cases key)
    as [->|[->|[->|[->|[->|[->|[->|E]]]]]]].
  - (* 0: band up *)
    apply Hlift in H. subst r'. unfold MAXBANDS.
    destruct (Z.ltb_spec (cur_band r) (8 - 1)); [|exact W].
    apply main_band_changed_wf. unfold radio_wf. radio_simpl.
    rewrite to_long_id by lia.
    split; [exact W1|]. split; [exact W2|]. split; [lia | exact W4].
  - (* 1: sideband *)
    apply Hlift in H. subst r'.
    eapply keeps_shape_wf; [|exact W]. auto with shape.
  - (* 2: VFO *)
    apply Hlift in H. subst r'.
    apply (keeps_shape_wf (set_cur_vfo (c_not (cur_vfo r)) r)).
    + auto 6 with shape.
    + unfold radio_wf, c_not, c_bool. radio_simpl.
      split; [exact W1|]. split; [exact W2|]. split; [exact W3|].
      destruct (cur_vfo r =? 0); lia.
  - (* 3: band down *)
    apply Hlift in H. subst r'.
    destruct (Z.ltb_spec 0 (cur_band r)); [|exact W].
    apply main_band_changed_wf. unfold radio_wf. radio_simpl.
    rewrite to_long_id by lia.
    split; [exact W1|]. split; [exact W2|]. split; [lia | exact W4].
  - (* 4: save *)
    apply Hlift in H. subst r'.
    eapply keeps_shape_wf; [|exact W]. auto with shape.
  - (* 6 *) exact (Hlo 0 H).
  - (* 7 *) exact (Hlo 1 H).
  - rewrite E in H. unfold ret in H. injection H as <-. exact W.
Qed.

(** One turn of the control loop, up to the end of the [switch], keeps it. *)
Lemma main_step_wf r r' :
  radio_wf r -> main_step r = Some (tt, r') -> radio_wf r'.
Proof.
  intros W H. unfold main_step, bind, lift in H.
  destruct (get_keys (main_tune r)) as [[key r1]|] eqn:E1; [|discriminate].
  apply (get_keys_shape (main_tune r)) in E1; [|apply keeps_shape_refl].
  apply (main_switch_wf key r1 r'); [|exact H].
  eapply keeps_shape_wf; [exact E1|]. apply main_tune_wf. exact W.
Qed.


End Invariant.

(** ** Reading a key leaves the radio state alone *)

Section KeyRead.

Lemma keeps_radio_refl r : keeps_radio r r.
Proof. repeat split. Qed.

Lemma keeps_radio_trans r1 r2 r3 :
  keeps_radio r1 r2 -> keeps_radio r2 r3 -> keeps_radio r1 r3.
Proof.
  intros (A1 & B1 & C1 & D1 & E1 & F1 & G1 & H1)
         (A2 & B2 & C2 & D2 & E2 & F2 & G2 & H2).
  repeat split; congruence.
Qed.

Lemma emit_radio e r0 r : keeps_radio r0 r -> keeps_radio r0 (emit e r).
Proof. intros H. eapply keeps_radio_trans; [exact H | repeat split]. Qed.

Lemma set_runsecs_msg_radio x r0 r :
  keeps_radio r0 r -> keeps_radio r0 (set_runsecs_msg x r).
Proof. intros H. eapply keeps_radio_trans; [exact H | repeat split]. Qed.

Lemma TIM2_IRQHandler_radio r0 r :
  keeps_radio r0 r -> keeps_radio r0 (TIM2_IRQHandler r).
Proof. intros H. eapply keeps_radio_trans; [exact H | repeat split]. Qed.

Lemma EXTI0_IRQHandler_radio idr r0 r :
  keeps_radio r0 r -> keeps_radio r0 (EXTI0_IRQHandler idr r).
Proof.
  intros H. eapply keeps_radio_trans; [exact H|].
  unfold EXTI0_IRQHandler. cbv zeta.
  destruct (Z.land (Z.land (to_u16 idr) 3) 1 =? 0);
    [|destruct (Z.land (Z.land (to_u16 idr) 3) 2 =? 0)];
    repeat split.
Qed.

Lemma await_adc_radio ins r0 r v r' :
  keeps_radio r0 r -> await_adc ins r = Some (v, r') -> keeps_radio r0 r'.
Proof.
  revert r. induction ins as [|i ins IH]; intros r H0 H; [discriminate|].
  destruct i as [dr|idr|]; cbn [await_adc] in H.
  - injection H as _ <-. eapply keeps_radio_trans; [exact H0 | repeat split].
  - apply (IH _ (EXTI0_IRQHandler_radio idr r0 r H0) H).
  - apply (IH _ (TIM2_IRQHandler_radio r0 r H0) H).
Qed.

Lemma get_keys_sample_radio fuel secs0 adcval1 adcvalcnt r0 r s r' :
  keeps_radio r0 r ->
  get_keys_sample fuel secs0 adcval1 adcvalcnt r = Some (s, r') ->
  keeps_radio r0 r'.
Proof.
  revert adcval1 adcvalcnt r.
  induction fuel as [|fuel IH]; intros adcval1 adcvalcnt r H0 H; [discriminate|].
  cbn [get_keys_sample] in H. unfold bind, get_adc in H.
  destruct (await_adc (pending r) r) as [[held r1]|] eqn:E1; [|discriminate].
  apply (await_adc_radio _ r0) in E1; [|exact H0].
  destruct (held <=? 4000).
  - destruct (await_adc (pending r1) r1) as [[a r2]|] eqn:E2; [|discriminate].
    apply (await_adc_radio _ r0) in E2; [|exact E1].
    unfold gets, lift in H.
    apply (IH _ _ _ (emit_radio _ r0 r2 E2) H).
  - injection H as _ <-. exact E1.
Qed.

Lemma get_keys_match_radio n t1 adcval0 secs0 r0 r :
  keeps_radio r0 r ->
  keeps_radio r0 (snd (get_keys_match n t1 adcval0 secs0 r)).
Proof.
  intros H0. revert t1. induction n as [|n IH]; intros t1; [exact H0|].
  cbn [get_keys_match].
  destruct ((idx key_value t1 - 100 <? adcval0)
            && (adcval0 <? idx key_value t1 + 100)); [|apply IH].
  cbv zeta.
  match goal with |- context [if ?c then _ else _] => destruct c end;
    cbn [snd]; apply emit_radio, set_runsecs_msg_radio, emit_radio, H0.
Qed.

(** [get_keys] changes the time marker of the message line, the counters
    of the interrupts it lets through, the inputs and the outputs, and
    nothing of the radio state. *)
Lemma get_keys_radio r key r' :
  get_keys r = Some (key, r') -> keeps_radio r r'.
Proof.
  unfold get_keys, bind, gets, get_adc. intros H.
  destruct (await_adc (pending r) r) as [[a0 r1]|] eqn:E1; [|discriminate].
  apply (await_adc_radio _ r) in E1; [|apply keeps_radio_refl].
  destruct (4000 <? a0).
  - injection H as _ <-. exact E1.
  - destruct (get_keys_sample _ _ 0 0 r1) as [[s r2]|] eqn:E2; [|discriminate].
    apply (get_keys_sample_radio _ _ _ _ r) in E2; [|exact E1].
    destruct (snd s =? 0); [discriminate|].
    cbv beta zeta in H.
    match type of H with Some (get_keys_match ?n ?t ?a ?c ?x) = _ =>
      pose proof (get_keys_match_radio n t a c r x E2) as Hm;
      destruct (get_keys_match n t a c x) as [k x']
    end.
    injection H as _ <-. exact Hm.
Qed.


End KeyRead.

(** * Further properties *)

(** ** Saving and reloading the VFOs *)

Section SaveLoad.

Lemma eeprom_read_store4 c a bs r :
  0 <= a <= 65532 -> 0 <= c < 65536 -> c < a \/ a + 3 < c ->
  eeprom_read c (store4 a bs r) = eeprom_read c r.
Proof.
  intros Ha Hc Hne. destruct bs as [[[b3 b2] b1] b0]. unfold store4.
  assert (U : forall z, 0 <= z < 65536 -> to_u16 z = z).
  { intros z Hz. unfold to_u16. apply Z.mod_small. lia. }
  rewrite !eeprom_read_write_ne; [reflexivity| | | |];
    rewrite !U by lia; lia.
Qed.

Lemma eeprom_load_frequency_ext band vfo r r' :
  (forall k, 0 <= k <= 3 ->
     eeprom_read (to_long (vfo * 4 + band * 8 + 128) + k) r'
     = eeprom_read (to_long (vfo * 4 + band * 8 + 128) + k) r) ->
  eeprom_load_frequency band vfo r' = eeprom_load_frequency band vfo r.
Proof.
  intros H. rewrite !eeprom_load_frequency_load_bytes. cbv zeta.
  pose proof (H 0 ltac:(lia)) as H0. rewrite Z.add_0_r in H0.
  rewrite H0, (H 1), (H 2), (H 3) by lia. reflexivity.
Qed.

Lemma eeprom_load_store_other band vfo band' vfo' f r :
  0 <= band <= 8 -> 0 <= vfo <= 1 -> 0 <= band' <= 8 -> 0 <= vfo' <= 1 ->
  band <> band' \/ vfo <> vfo' ->
  eeprom_load_frequency band vfo (eeprom_store_frequency band' vfo' f r)
  = eeprom_load_frequency band vfo r.
Proof.
  intros Hb Hv Hb' Hv' Hne. apply eeprom_load_frequency_ext. intros k Hk.
  rewrite eeprom_store_frequency_store4.
  rewrite !to_long_id by lia.
  apply eeprom_read_store4; lia.
Qed.

Lemma eeprom_store_frequency_fields band vfo f r :
  f_vfo (eeprom_store_frequency band vfo f r) = f_vfo r
  /\ cur_vfo (eeprom_store_frequency band vfo f r) = cur_vfo r.
Proof.
  rewrite eeprom_store_frequency_store4.
  destruct (store_bytes f) as [[[b3 b2] b1] b0]. split; reflexivity.
Qed.

Lemma vfos_saved_step r0 i j s :
  0 <= i < 8 -> 0 <= j < 2 ->
  vfos_saved r0 i j s ->
  vfos_saved r0 i (j + 1)
    (eeprom_store_frequency i j (idx2 (f_vfo s) i j) s).
Proof.
  intros Hi Hj (Hf & Hc & Hout & Hdone).
  destruct (eeprom_store_frequency_fields i j (idx2 (f_vfo s) i j) s) as [E1 E2].
  split; [congruence|]. split; [congruence|]. split.
  - intros a Ha. rewrite eeprom_store_frequency_store4.
    rewrite to_long_id by lia.
    rewrite eeprom_read_store4 by lia. apply Hout. exact Ha.
  - intros b v Hb Hv Hlt.
    destruct (decide (b = i /\ v = j)) as [[-> ->]|Hne].
    + rewrite eeprom_load_store by lia. rewrite Hf. reflexivity.
    + rewrite eeprom_load_store_other by lia. apply Hdone; lia.
Qed.

Lemma save_all_vfos_saved r :
  exists s,
    save_all_vfos r = eeprom_write 257 (cur_vfo r) s /\ vfos_saved r 8 0 s.
Proof.
  unfold save_all_vfos. cbv zeta.
  set (s := for_loop _ _ _ _).
  assert (H : vfos_saved r 8 0 s).
  { subst s.
    apply (for_loop_ind (fun i s => vfos_saved r i 0 s) 8 0).
    - split; [reflexivity|]. split; [reflexivity|]. split; [reflexivity|].
      intros b v Hb Hv Hlt. lia.
    - intros i u Hi Hinv.
      assert (Hrow : vfos_saved r i 2
                (for_loop 2 0 (fun t1 r0 =>
                   eeprom_store_frequency i t1 (idx2 (f_vfo r0) i t1) r0) u)).
      { apply (for_loop_ind (fun j s => vfos_saved r i j s) 2 0).
        - exact Hinv.
        - intros j w Hj Hw. apply vfos_saved_step; [lia | lia | exact Hw]. }
      destruct Hrow as (Hf & Hc & Hout & Hdone).
      split; [exact Hf|]. split; [exact Hc|]. split; [exact Hout|].
      intros b v Hb Hv Hlt. apply Hdone; lia. }
  exists s. split; [|exact H].
  destruct H as (_ & Hc & _). rewrite Hc. reflexivity.
Qed.

Lemma eeprom_load_frequency_write band vfo a x r :
  0 <= band <= 8 -> 0 <= vfo <= 1 -> 200 <= a < 65536 ->
  eeprom_load_frequency band vfo (eeprom_write a x r)
  = eeprom_load_frequency band vfo r.
Proof.
  intros Hb Hv Ha. apply eeprom_load_frequency_ext. intros k Hk.
  rewrite to_long_id by lia.
  apply eeprom_read_write_ne. unfold to_u16.
  rewrite !Z.mod_small by lia. lia.
Qed.

End SaveLoad.

(** X2.  [save_all_vfos] writes the 16 VFO slots (bytes 128..191) and the
    last VFO (byte 257) and nothing else: every other byte of the EEPROM,
    in particular the two LO slots (192..199) and the last band (256),
    reads as before, and byte 257 reads as the current VFO. *)
Theorem save_all_vfos_frame r a :
  0 <= a < 128 \/ 192 <= a < 65536 ->
  eeprom_read a (save_all_vfos r)
  = if a =? 257 then to_uchar (cur_vfo r) else eeprom_read a r.
Proof.
  intros Ha.
  destruct (save_all_vfos_saved r) as (s & -> & _ & _ & Hout & _).
  destruct (Z.eqb_spec a 257) as [->|Hne].
  - apply eeprom_read_write_eq.
  - rewrite eeprom_read_write_ne; [apply Hout; exact Ha|].
    unfold to_u16. rewrite !Z.mod_small by lia. lia.
Qed.

(** The last band and a byte of the LO slot of the upper sideband. *)
Lemma save_all_vfos_frame_witness :
  let r := main_load (power_on {[256 := 5; 196 := 0; 197 := 152]} []) in
  eeprom_read 256 (save_all_vfos r) = 5
  /\ eeprom_read 197 (save_all_vfos r) = 152.
Proof.
  cbv zeta. split.
  - rewrite save_all_vfos_frame; [reflexivity | lia].
  - rewrite save_all_vfos_frame; [reflexivity | lia].
Defined.

(** ** The LO calibration dialogue *)

Section SetLo.

Lemma set_tuning_radio x r0 r :
  keeps_radio r0 r -> keeps_radio r0 (set_tuning x r).
Proof. intros H. eapply keeps_radio_trans; [exact H | repeat split]. Qed.

Lemma set_lo_release_radio fuel r0 r u r' :
  keeps_radio r0 r -> set_lo_release fuel r = Some (u, r') ->
  keeps_radio r0 r'.
Proof.
  revert r. induction fuel as [|fuel IH]; intros r H0 H; [discriminate|].
  cbn [set_lo_release] in H. unfold bind in H.
  destruct (get_keys r) as [[key r1]|] eqn:E1; [|discriminate].
  apply get_keys_radio in E1.
  pose proof (keeps_radio_trans _ _ _ H0 E1) as H1.
  destruct (key =? -1).
  - injection H as _ <-. exact H1.
  - exact (IH _ H1 H).
Qed.

(** The tuning loop of [set_lo] ends on key 6 or 7 only. *)
Lemma set_lo_tune_radio fuel key f_lo_tmp r0 r kf r' :
  keeps_radio r0 r -> set_lo_tune fuel key f_lo_tmp r = Some (kf, r') ->
  keeps_radio r0 r' /\ (fst kf = 6 \/ fst kf = 7).
Proof.
  revert key f_lo_tmp r.
  induction fuel as [|fuel IH]; intros key f_lo_tmp r H0 H; [discriminate|].
  cbn [set_lo_tune] in H.
  destruct ((key =? 6) || (key =? 7)) eqn:Ek.
  - injection H as <- <-. split; [exact H0|]. cbn [fst]. lia.
  - unfold bind, gets, lift, ret in H. cbv beta zeta in H.
    destruct (tuning r =? 0);
      match type of H with
      | match get_keys ?x with _ => _ end = _ =>
          assert (E0 : keeps_radio r0 x)
            by (unfold si5351_set_freq, show_frequency1;
                repeat first [ apply set_tuning_radio | apply emit_radio ];
                exact H0);
          destruct (get_keys x) as [[key' r1]|] eqn:E1; [|discriminate];
          apply get_keys_radio in E1;
          pose proof (keeps_radio_trans _ _ _ E0 E1) as H1
      end;
      exact (IH _ _ _ H1 H).
Qed.

(** [set_lo]: up to its last [switch] the radio state is untouched; then
    key 6 reprograms the PLL with the old value, key 7 takes and stores
    the new one. *)
Lemma set_lo_spec sb r key r' :
  set_lo sb r = Some (key, r') ->
  exists r1 f,
    keeps_radio r r1
    /\ ((key = 6
         /\ r' = set_runsecs_msg (runsecs r1)
                   (show_msg "Aborted." LIGHTRED
                      (si5351_set_freq SYNTH_MS_0 (idx (f_lo r1) sb) r1)))
        \/ (key = 7
            /\ r' = set_runsecs_msg (runsecs r1)
                      (show_msg "Stored." LIGHTGREEN
                         (eeprom_store_frequency 8 sb
                            (idx (upd (f_lo r1) sb f) sb)
                            (set_f_lo (upd (f_lo r1) sb f) r1))))).
Proof.
  unfold set_lo, bind, gets, lift, ret. intros H.
  match type of H with
  | match set_lo_release ?f ?x with _ => _ end = _ =>
      assert (E0 : keeps_radio r x)
        by (unfold show_sideband, show_frequency1;
            repeat apply emit_radio; apply keeps_radio_refl);
      destruct (set_lo_release f x) as [[u r1]|] eqn:E1; [|discriminate];
      apply (set_lo_release_radio _ r) in E1; [|exact E0]
  end.
  destruct (get_keys r1) as [[k r2]|] eqn:E2; [|discriminate].
  apply get_keys_radio in E2.
  pose proof (keeps_radio_trans _ _ _ E1 E2) as H2.
  destruct (set_lo_tune _ k _ r2) as [[kf r3]|] eqn:E3; [|discriminate].
  apply (set_lo_tune_radio _ _ _ r) in E3; [|exact H2].
  destruct E3 as [H3 Hk]. cbv zeta in H.
  exists r3, (snd kf). split; [exact H3|].
  destruct Hk as [Hk|Hk]; rewrite Hk in H; cbn [Z.eqb Pos.eqb] in H;
    injection H as <- <-.
  - left. split; reflexivity.
  - right. split; reflexivity.
Qed.

End SetLo.

(** [eeprom_store_frequency] changes the EEPROM and the outputs only. *)
Lemma eeprom_store_frequency_frame band vfo f r :
  exists e l, eeprom_store_frequency band vfo f r = set_log l (set_eeprom e r).
Proof.
  rewrite eeprom_store_frequency_store4.
  destruct (store_bytes f) as [[[b3 b2] b1] b0].
  unfold store4, eeprom_write. cbv zeta. radio_simpl.
  eexists _, _. reflexivity.
Qed.

(** The message line does not reach the EEPROM. *)
Lemma eeprom_show_msg a m c x :
  eeprom (set_runsecs_msg a (show_msg m c x)) = eeprom x.
Proof. reflexivity. Qed.

(** X3.  The LO calibration dialogue [set_lo] ends on key 6 or 7 only and
    never touches band, VFO, sideband flag, the VFO table or the DDS port.
    On key 6 (abort) the LO table and the EEPROM are as before and the PLL
    is programmed back to the old value; on key 7 (store) the tuned value
    is in [f_lo[sb]] and in its EEPROM slot (read back as the 32-bit long),
    and the entry and the slot of the other sideband are unchanged. *)
Theorem set_lo_outcome sb r key r' :
  length (f_lo r) = 2%nat -> 0 <= sb <= 1 ->
  set_lo sb r = Some (key, r') ->
  cur_band r' = cur_band r /\ cur_vfo r' = cur_vfo r
  /\ sideband r' = sideband r /\ f_vfo r' = f_vfo r
  /\ gpiob_odr r' = gpiob_odr r
  /\ ((key = 6 /\ f_lo r' = f_lo r /\ eeprom r' = eeprom r
       /\ exists l, log r' = ShowMsg "Aborted." LIGHTRED
                              :: Si5351SetFreq SYNTH_MS_0 (idx (f_lo r) sb)
                              :: l)
      \/ (key = 7
          /\ eeprom_load_frequency 8 sb r' = to_long (idx (f_lo r') sb)
          /\ idx (f_lo r') (1 - sb) = idx (f_lo r) (1 - sb)
          /\ eeprom_load_frequency 8 (1 - sb) r'
             = eeprom_load_frequency 8 (1 - sb) r)).
Proof.
  intros Hlen Hsb H.
  destruct (set_lo_spec sb r key r' H)
    as (r1 & f & (K1 & K2 & K3 & K4 & K5 & K6 & K7 & K8) & [[-> ->]|[-> ->]]).
  - unfold show_msg, si5351_set_freq. radio_simpl.
    split; [exact K2|]. split; [exact K1|]. split; [exact K3|].
    split; [exact K5|]. split; [exact K8|]. left.
    split; [reflexivity|]. split; [exact K4|]. split; [exact K6|].
    exists (log r1). rewrite K4. reflexivity.
  - set (r2 := set_f_lo (upd (f_lo r1) sb f) r1).
    destruct (eeprom_store_frequency_frame 8 sb (idx (upd (f_lo r1) sb f) sb) r2)
      as (e & l & E).
    pose proof (eeprom_show_msg (runsecs r1) "Stored." LIGHTGREEN
                  (eeprom_store_frequency 8 sb
                     (idx (upd (f_lo r1) sb f) sb) r2)) as Hee.
    rewrite !(load_frequency_frame _ _ _ _ Hee).
    rewrite eeprom_load_store by lia.
    rewrite eeprom_load_store_other by lia.
    rewrite E. unfold show_msg, r2. radio_simpl.
    split; [exact K2|]. split; [exact K1|]. split; [exact K3|].
    split; [exact K5|]. split; [exact K8|]. right.
    split; [reflexivity|]. split; [reflexivity|]. split.
    + rewrite idx_upd_ne by lia. rewrite K4. reflexivity.
    + apply load_frequency_frame. exact K6.
Qed.

(** Keys released, one encoder pulse up, then a long press of the second
    key (code 7): the LO of the upper sideband goes from 10001500 to
    10001501 and is stored. *)
Lemma set_lo_outcome_witness :
  let r := set_pending [Adc 4095; Exti0 3; Adc 4095; Adc 735; Adc 735;
                        Adc 735; Tim2; Tim2; Adc 4095]
             (main_load (power_on ∅ [])) in
  exists r', set_lo 1 r = Some (7, r')
             /\ idx (f_lo r) 1 = 10001500
             /\ eeprom_load_frequency 8 1 r' = 10001501.
Proof.
  cbv zeta. eexists. split; [vm_compute; reflexivity|].
  split; [vm_compute; reflexivity|].
  match goal with |- eeprom_load_frequency 8 1 ?x = _ =>
    set (r' := x)
  end.
  destruct (set_lo_outcome 1
              (set_pending [Adc 4095; Exti0 3; Adc 4095; Adc 735; Adc 735;
                            Adc 735; Tim2; Tim2; Adc 4095]
                 (main_load (power_on ∅ []))) 7 r')
    as (_ & _ & _ & _ & _ & [(Hk & _)|(_ & Hl & _)]).
  - vm_compute. reflexivity.
  - lia.
  - vm_compute. reflexivity.
  - discriminate Hk.
  - rewrite Hl. vm_compute. reflexivity.
Defined.

(** ** The band relays *)

Section Relay.

Lemma mask_test t b :
  0 <= t -> (Z.land (Z.shiftl 1 t) b =? 0) = negb (Z.testbit b t).
Proof.
  intros Ht. destruct (Z.testbit b t) eqn:E; cbn [negb].
  - apply Z.eqb_neq. intros H0.
    assert (Hb : Z.testbit (Z.land (Z.shiftl 1 t) b) t = true).
    { rewrite Z.land_spec, testbit_pin, Z.eqb_refl, E by lia. reflexivity. }
    rewrite H0, Z.bits_0 in Hb. discriminate.
  - apply Z.eqb_eq. apply Z.bits_inj'. intros n Hn.
    rewrite Z.land_spec, testbit_pin, Z.bits_0 by lia.
    destruct (Z.eqb_spec t n) as [->|]; [rewrite E|]; reflexivity.
Qed.

Lemma relay_pin_testbit t b g q :
  0 <= t -> 0 <= q < 32 ->
  Z.testbit (if Z.land (Z.shiftl 1 t) b =? 0
             then odr_clr (10 + t) g else odr_set (10 + t) g) q
  = if 10 + t =? q then Z.testbit b t else Z.testbit g q.
Proof.
  intros Ht Hq. rewrite mask_test by lia.
  destruct (Z.testbit b t); cbn [negb].
  - rewrite odr_set_testbit by lia.
    destruct (10 + t =? q); reflexivity.
  - rewrite odr_clr_testbit by lia.
    destruct (10 + t =? q); reflexivity.
Qed.

Lemma relay_pins_testbit b g q :
  0 <= q < 32 ->
  Z.testbit (relay_pins b g) q
  = if (10 <=? q) && (q <=? 12) then Z.testbit b (q - 10)
    else Z.testbit g q.
Proof.
  intros Hq. unfold relay_pins. cbv zeta.
  rewrite !relay_pin_testbit by lia.
  destruct (Z.eqb_spec (10 + 2) q) as [<-|H2]; [reflexivity|].
  destruct (Z.eqb_spec (10 + 1) q) as [<-|H1]; [reflexivity|].
  destruct (Z.eqb_spec (10 + 0) q) as [<-|H0]; [reflexivity|].
  destruct (Z.leb_spec 10 q); destruct (Z.leb_spec q 12); cbn [andb];
    try reflexivity.
  lia.
Qed.

Lemma relay_band_pins b g :
  0 <= b <= 7 -> relay_band (relay_pins b g) = b.
Proof.
  intros Hb. unfold relay_band. apply Z.bits_inj'. intros n Hn.
  rewrite Z.land_spec, Z.shiftr_spec by lia.
  destruct (Z.ltb_spec n 3) as [H3|H3].
  - rewrite relay_pins_testbit by lia.
    replace ((10 <=? n + 10) && (n + 10 <=? 12)) with true
      by (symmetry; apply andb_true_intro; split; apply Z.leb_le; lia).
    replace (n + 10 - 10) with n by lia.
    assert (H7 : Z.testbit 7 n = true).
    { assert (n = 0 \/ n = 1 \/ n = 2) as [->|[->| ->]] by lia; reflexivity. }
    rewrite H7. apply andb_true_r.
  - assert (H7 : Z.testbit 7 n = false).
    { apply (Z.bits_above_log2 7 n); [lia|]. change (Z.log2 7) with 2. lia. }
    rewrite H7, andb_false_r. symmetry.
    destruct (Z.eq_dec b 0) as [->|Hb0]; [apply Z.bits_0|].
    apply Z.bits_above_log2; [lia|].
    assert (Z.log2 b < 3) by (apply Z.log2_lt_pow2; lia). lia.
Qed.

Lemma set_band_relay_gpioa b r :
  gpioa_odr (set_band_relay b r) = relay_pins b (gpioa_odr r).
Proof.
  unfold set_band_relay, relay_pins. cbv zeta. cbn [for_loop].
  unfold si5351_set_freq, show_sideband. radio_simpl.
  change (0 + 1) with 1. change (1 + 1) with 2.
  destruct (Z.land (Z.shiftl 1 0) b =? 0);
    destruct (Z.land (Z.shiftl 1 1) b =? 0);
    destruct (Z.land (Z.shiftl 1 2) b =? 0);
    unfold relay_odr; radio_simpl; reflexivity.
Qed.

End Relay.



(** ** What the control loop maintains *)

Section Tracks.

Lemma tracks_fields r r' :
  gpioa_odr r' = gpioa_odr r -> cur_band r' = cur_band r ->
  cur_vfo r' = cur_vfo r -> sideband r' = sideband r ->
  eeprom_read 256 r' = eeprom_read 256 r ->
  eeprom_read 257 r' = eeprom_read 257 r ->
  tracks r -> tracks r'.
Proof.
  unfold tracks, last_band, last_vfo. cbv zeta.
  intros -> -> -> -> -> ->. tauto.
Qed.

Lemma tracks_keeps_radio r r' : keeps_radio r r' -> tracks r -> tracks r'.
Proof.
  intros (K1 & K2 & K3 & K4 & K5 & K6 & K7 & K8).
  apply tracks_fields; try assumption; unfold eeprom_read; rewrite K6;
    reflexivity.
Qed.

Lemma keeps_radio_wf r r' : keeps_radio r r' -> radio_wf r -> radio_wf r'.
Proof.
  intros (K1 & K2 & K3 & K4 & K5 & K6 & K7 & K8). unfold radio_wf.
  rewrite K1, K2, K4, K5. tauto.
Qed.

Lemma set_frequency_frame frequency r :
  exists g l, set_frequency frequency r = set_log l (set_gpiob_odr g r).
Proof.
  destruct (set_frequency_wrote frequency r) as (w & Hw).
  exact (dds_wrote_frame _ _ _ Hw).
Qed.

Lemma main_band_changed_gpioa r :
  gpioa_odr (main_band_changed r) = relay_pins (cur_band r) (gpioa_odr r).
Proof.
  unfold main_band_changed. cbv zeta.
  destruct (set_frequency_frame (idx2 (f_vfo r) (cur_band r) (cur_vfo r)) r)
    as (gb & l & ->).
  unfold show_band, show_frequency1, eeprom_write. radio_simpl.
  rewrite set_band_relay_gpioa. reflexivity.
Qed.

Lemma eeprom_read_insert a b v r x :
  0 <= a < 65536 -> 0 <= b < 65536 -> eeprom x = <[a := v]> (eeprom r) ->
  eeprom_read b x = if a =? b then to_uchar v else eeprom_read b r.
Proof.
  intros Ha Hb E. unfold eeprom_read, to_u16. rewrite E.
  rewrite Z.mod_small by lia.
  destruct (Z.eqb_spec a b) as [->|Hne].
  - rewrite lookup_insert_eq. reflexivity.
  - rewrite lookup_insert_ne by exact Hne. reflexivity.
Qed.

Lemma main_band_changed_tracks r :
  0 <= cur_band r <= 7 -> last_vfo r = cur_vfo r ->
  sideband r = 0 \/ sideband r = 1 ->
  tracks (main_band_changed r).
Proof.
  intros Hb T3 T4.
  pose proof (main_band_changed_gpioa r) as Hg.
  destruct (main_band_changed_spec r) as (ga & gb & l & E).
  set (x := main_band_changed r) in *.
  assert (Ee : eeprom x = <[256 := to_uchar (cur_band r)]> (eeprom r))
    by (rewrite E; reflexivity).
  assert (Eb : cur_band x = cur_band r) by (rewrite E; reflexivity).
  assert (Ev : cur_vfo x = cur_vfo r) by (rewrite E; reflexivity).
  assert (Es : sideband x = sideband r) by (rewrite E; reflexivity).
  clearbody x. clear E.
  unfold tracks, last_band, last_vfo in *. cbv zeta in *.
  rewrite (eeprom_read_insert 256 256 _ r x), (eeprom_read_insert 256 257 _ r x)
    by first [lia | exact Ee].
  cbn [Z.eqb Pos.eqb]. rewrite Hg, Eb, Ev, Es.
  rewrite !(to_uchar_id (cur_band r)) by lia.
  split; [apply relay_band_pins; exact Hb|]. split.
  - destruct (Z.ltb_spec (cur_band r) 0); destruct (Z.ltb_spec 7 (cur_band r));
      cbn [orb]; lia.
  - split; [exact T3 | exact T4].
Qed.

Lemma save_all_vfos_eeprom_only r :
  exists e l, save_all_vfos r = set_log l (set_eeprom e r).
Proof.
  unfold save_all_vfos. cbv zeta.
  assert (H : exists e l,
             for_loop 8 0 (fun t0 =>
               for_loop 2 0 (fun t1 r0 =>
                 eeprom_store_frequency t0 t1 (idx2 (f_vfo r0) t0 t1) r0)) r
             = set_log l (set_eeprom e r)).
  { apply (for_loop_ind (fun _ s => exists e l, s = set_log l (set_eeprom e r))
             8 0).
    - exists (eeprom r), (log r). apply radio_ext; reflexivity.
    - intros i s _ Hs.
      apply (for_loop_ind
               (fun _ s => exists e l, s = set_log l (set_eeprom e r)) 2 0);
        [exact Hs|].
      intros j u _ (e & l & ->).
      destruct (eeprom_store_frequency_frame i j
                  (idx2 (f_vfo (set_log l (set_eeprom e r))) i j)
                  (set_log l (set_eeprom e r))) as (e' & l' & ->).
      exists e', l'. reflexivity. }
  destruct H as (e & l & ->). unfold eeprom_write. cbv zeta. radio_simpl.
  eexists _, _. reflexivity.
Qed.

Lemma main_load_tracks ee ins : tracks (main_load (power_on ee ins)).
Proof.
  set (r0 := power_on ee ins).
  destruct (main_load_spec r0 (power_on_rows ee ins) (power_on_f_lo ee ins))
    as (lo & tbl & g & l & E & _).
  pose proof (main_load_wf ee ins) as (_ & _ & Wb & _). fold r0 in Wb.
  assert (Hg : exists x, gpioa_odr (main_load r0)
                         = relay_pins (cur_band (main_load r0)) x).
  { unfold main_load. cbv zeta.
    match goal with |- context [main_screen ?x] => generalize x end.
    intros x. unfold main_screen. cbv zeta.
    unfold show_band, show_vfo, show_frequency1, show_sideband at 1.
    radio_simpl.
    destruct (set_band_relay_frame (cur_band x) x) as (g' & l' & E').
    exists (gpioa_odr x). rewrite set_band_relay_gpioa.
    rewrite E'. reflexivity. }
  destruct Hg as (x & Hg).
  unfold tracks. rewrite Hg. split; [apply relay_band_pins; exact Wb|].
  rewrite E. unfold last_band, last_vfo, eeprom_read, pref_sideband.
  cbn [cur_band cur_vfo sideband eeprom].
  fold (eeprom_read 256 r0). fold (eeprom_read 257 r0).
  pose proof (to_uchar_range (default 255 (eeprom r0 !! to_u16 256))) as H256.
  fold (eeprom_read 256 r0) in H256.
  split; [reflexivity|]. split; [reflexivity|].
  destruct ((eeprom_read 256 r0 <? 0) || (7 <? eeprom_read 256 r0)) eqn:Ec;
    [left; reflexivity|].
  apply orb_false_elim in Ec. destruct Ec as [Ec1 Ec2].
  apply Z.ltb_ge in Ec1, Ec2.
  assert (eeprom_read 256 r0 = 0 \/ eeprom_read 256 r0 = 1
          \/ eeprom_read 256 r0 = 2 \/ eeprom_read 256 r0 = 3
          \/ eeprom_read 256 r0 = 4 \/ eeprom_read 256 r0 = 5
          \/ eeprom_read 256 r0 = 6 \/ eeprom_read 256 r0 = 7)
    as [->|[->|[->|[->|[->|[->|[->| ->]]]]]]] by lia;
    cbn; tauto.
Qed.

End Tracks.

Section TracksLoop.

Lemma eeprom_read_frame a r r' :
  eeprom r' = eeprom r -> eeprom_read a r' = eeprom_read a r.
Proof. intros E. unfold eeprom_read. rewrite E. reflexivity. Qed.

Lemma main_tune_tracks r : tracks r -> tracks (main_tune r).
Proof.
  intros T. destruct (Z.eq_dec (tuning r) 0) as [E|Hne].
  - unfold main_tune. rewrite E. exact T.
  - destruct (main_tune_spec r Hne) as (g & l & ->).
    revert T. apply tracks_fields; reflexivity.
Qed.

Lemma last_vfo_bit v : 0 <= v <= 1 ->
  (if (to_uchar v <? 0) || (1 <? to_uchar v) then 0 else to_uchar v) = v.
Proof.
  intros Hv. rewrite to_uchar_id by lia.
  destruct (Z.ltb_spec v 0); destruct (Z.ltb_spec 1 v); cbn [orb]; lia.
Qed.

Lemma vfo_key_tracks r :
  0 <= cur_vfo r <= 1 -> tracks r ->
  tracks
    (let r := set_cur_vfo (c_not (cur_vfo r)) r in
     let r := eeprom_write 257 (cur_vfo r) r in
     let r := show_vfo (cur_vfo r) (cur_band r) 0 r in
     let r := set_frequency (idx2 (f_vfo r) (cur_band r) (cur_vfo r)) r in
     show_frequency1 (idx2 (f_vfo r) (cur_band r) (cur_vfo r)) 2 r).
Proof.
  intros Hv (T1 & T2 & T3 & T4). cbv zeta.
  match goal with |- context [set_frequency ?f ?x] =>
    destruct (set_frequency_frame f x) as (g & l & ->)
  end.
  unfold show_frequency1, show_vfo, eeprom_write. cbv zeta.
  unfold tracks, last_band, last_vfo. cbv zeta.
  set (cv := c_not (cur_vfo r)).
  assert (Hcv : 0 <= cv <= 1)
    by (unfold cv, c_not, c_bool; destruct (cur_vfo r =? 0); lia).
  match goal with |- context [eeprom_read 256 ?x] => set (x' := x) end.
  assert (Ee : eeprom x' = <[257 := to_uchar cv]> (eeprom r)) by reflexivity.
  assert (Ea : gpioa_odr x' = gpioa_odr r) by reflexivity.
  assert (Eb : cur_band x' = cur_band r) by reflexivity.
  assert (Ev : cur_vfo x' = cv) by reflexivity.
  assert (Es : sideband x' = sideband r) by reflexivity.
  clearbody x'.
  rewrite (eeprom_read_insert 257 256 _ r x'), (eeprom_read_insert 257 257 _ r x')
    by first [lia | exact Ee].
  cbn [Z.eqb Pos.eqb]. rewrite Ea, Eb, Ev, Es.
  rewrite (to_uchar_id cv) by lia.
  split; [exact T1|]. split; [exact T2|]. split; [|exact T4].
  apply last_vfo_bit. exact Hcv.
Qed.

Lemma save_key_tracks r :
  0 <= cur_vfo r <= 1 -> tracks r ->
  tracks
    (let r := save_all_vfos r in
     let r := show_msg "Saved." LIGHTGREEN r in
     set_runsecs_msg (runsecs r) r).
Proof.
  intros Hv (T1 & T2 & T3 & T4). cbv zeta.
  destruct (save_all_vfos_saved r) as (s & E & _ & _ & Hout & _).
  assert (R256 : eeprom_read 256 (save_all_vfos r) = eeprom_read 256 r).
  { rewrite E, eeprom_read_write_ne by (vm_compute; congruence).
    apply Hout. lia. }
  assert (R257 : eeprom_read 257 (save_all_vfos r) = to_uchar (cur_vfo r)).
  { rewrite E. apply eeprom_read_write_eq. }
  destruct (save_all_vfos_eeprom_only r) as (e & l & E').
  set (y := save_all_vfos r) in *.
  assert (Ea : gpioa_odr y = gpioa_odr r) by (rewrite E'; reflexivity).
  assert (Eb : cur_band y = cur_band r) by (rewrite E'; reflexivity).
  assert (Ev : cur_vfo y = cur_vfo r) by (rewrite E'; reflexivity).
  assert (Es : sideband y = sideband r) by (rewrite E'; reflexivity).
  clearbody y. clear E E'.
  unfold tracks, last_band, last_vfo, show_msg. cbv zeta. radio_simpl.
  rewrite (eeprom_read_frame 256 y), (eeprom_read_frame 257 y) by reflexivity.
  rewrite R256, R257, Ea, Eb, Ev, Es.
  split; [exact T1|]. split; [exact T2|]. split; [|exact T4].
  apply last_vfo_bit. exact Hv.
Qed.

Lemma set_lo_tracks sb r key r' :
  0 <= sb <= 1 -> tracks r -> set_lo sb r = Some (key, r') -> tracks r'.
Proof.
  intros Hsb T H.
  destruct (set_lo_spec sb r key r' H) as (r1 & f & K & [[_ ->]|[_ ->]]);
    apply (tracks_keeps_radio _ _ K) in T.
  - revert T. apply tracks_fields; reflexivity.
  - set (r2 := set_f_lo (upd (f_lo r1) sb f) r1).
    set (x := idx (upd (f_lo r1) sb f) sb).
    assert (R : forall a, 200 <= a < 65536 ->
                eeprom_read a (eeprom_store_frequency 8 sb x r2)
                = eeprom_read a r1).
    { intros a Ha. rewrite eeprom_store_frequency_store4.
      rewrite to_long_id by lia. rewrite eeprom_read_store4 by lia.
      reflexivity. }
    pose proof (R 256 ltac:(lia)) as R256.
    pose proof (R 257 ltac:(lia)) as R257. clear R.
    destruct (eeprom_store_frequency_frame 8 sb x r2) as (e & l & E).
    set (y := eeprom_store_frequency 8 sb x r2) in *.
    assert (Ea : gpioa_odr y = gpioa_odr r1) by (rewrite E; reflexivity).
    assert (Eb : cur_band y = cur_band r1) by (rewrite E; reflexivity).
    assert (Ev : cur_vfo y = cur_vfo r1) by (rewrite E; reflexivity).
    assert (Es : sideband y = sideband r1) by (rewrite E; reflexivity).
    clearbody y. clear E.
    revert T. apply tracks_fields;
      unfold show_msg; radio_simpl;
      rewrite ?(eeprom_read_frame 256 y), ?(eeprom_read_frame 257 y)
        by reflexivity; assumption.
Qed.

Lemma main_switch_tracks key r r' :
  radio_wf r -> tracks r -> main_switch key r = Some (tt, r') -> tracks r'.
Proof.
  intros (W1 & W2 & W3 & W4) T H.
  assert (Hlift : forall f, lift f r = Some (tt, r') -> r' = f r).
  { intros f Hf. unfold lift in Hf. congruence. }
  assert (Hlo : forall sb, 0 <= sb <= 1 ->
             (let* _ := set_lo sb in
              lift (fun r =>
                let r := show_frequency1
                           (idx2 (f_vfo r) (cur_band r) (cur_vfo r)) 2 r in
                show_sideband (sideband r) 0 r)) r = Some (tt, r') ->
             tracks r').
  { intros sb Hsb Hs. unfold bind, lift in Hs.
    destruct (set_lo sb r) as [[k r1]|] eqn:E1; [|discriminate].
    apply (set_lo_tracks sb r k r1 Hsb T) in E1.
    injection Hs as <-. revert E1. apply tracks_fields; reflexivity. }
  pose proof T as (T1 & T2 & T3 & T4).
  destruct (main_switch_cases key)
    as [->|[->|[->|[->|[->|[->|[->|E]]]]]]].
  - (* 0: band up *)
    apply Hlift in H. subst r'. unfold MAXBANDS.
    destruct (Z.ltb_spec (cur_band r) (8 - 1)); [|exact T].
    rewrite to_long_id by lia.
    apply main_band_changed_tracks; [cbn [cur_band set_cur_band]; lia | |];
      assumption.
  - (* 1: sideband *)
    apply Hlift in H. subst r'.
    unfold tracks, show_sideband, c_not, c_bool. radio_simpl.
    split; [exact T1|]. split; [exact T2|]. split; [exact T3|].
    destruct (sideband r =? 0); lia.
  - (* 2: VFO *)
    apply Hlift in H. subst r'. apply vfo_key_tracks; assumption.
  - (* 3: band down *)
    apply Hlift in H. subst r'.
    destruct (Z.ltb_spec 0 (cur_band r)); [|exact T].
    rewrite to_long_id by lia.
    apply main_band_changed_tracks; [cbn [cur_band set_cur_band]; lia | |];
      assumption.
  - (* 4: save *)
    apply Hlift in H. subst r'. apply save_key_tracks; assumption.
  - (* 6 *) exact (Hlo 0 ltac:(lia) H).
  - (* 7 *) exact (Hlo 1 ltac:(lia) H).
  - rewrite E in H. unfold ret in H. injection H as <-. exact T.
Qed.

Lemma main_step_tracks r r' :
  radio_wf r -> tracks r -> main_step r = Some (tt, r') -> tracks r'.
Proof.
  intros W T H. unfold main_step, bind, lift in H.
  destruct (get_keys (main_tune r)) as [[key r1]|] eqn:E1; [|discriminate].
  apply get_keys_radio in E1.
  apply (main_switch_tracks key r1 r'); [| |exact H].
  - apply (keeps_radio_wf _ _ E1). apply main_tune_wf. exact W.
  - apply (tracks_keeps_radio _ _ E1). apply main_tune_tracks. exact T.
Qed.

(** Every state at the top of the control loop is well formed, with the
    relays and the EEPROM following the selection. *)
Lemma running_inv r : running r -> radio_wf r /\ tracks r.
Proof.
  induction 1 as [ee ins | r r' _ [W T] H].
  - split; [apply main_load_wf | apply main_load_tracks].
  - split; [exact (main_step_wf r r' W H) | exact (main_step_tracks r r' W T H)].
Qed.

End TracksLoop.





(** ** All keys, and the encoder *)

Section KeypadAll.

Lemma key_value_entries :
  idx key_value 0 = 370 /\ idx key_value (0 + 1) = 735
  /\ idx key_value (0 + 1 + 1) = 1320
  /\ idx key_value (0 + 1 + 1 + 1) = 2462
  /\ idx key_value (0 + 1 + 1 + 1 + 1) = 1863
  /\ idx key_value (0 + 1 + 1 + 1 + 1 + 1) = 3135.
Proof. repeat split. Qed.

(** The six bands are disjoint: the average falls in at most one, and the
    matching loop finds it whatever its place in the table. *)
Lemma get_keys_match_key t v secs0 r :
  0 <= t < 6 ->
  idx key_value t - 100 < v < idx key_value t + 100 ->
  exists r',
    get_keys_match 6 0 v secs0 r
    = (if to_long (runsecs r - secs0) <? 2 then t else t + 6, r')
    /\ runsecs_msg r' = runsecs r.
Proof.
  intros Ht Hv.
  destruct key_value_entries as (K0 & K1 & K2 & K3 & K4 & K5).
  assert (t = 0 \/ t = 1 \/ t = 2 \/ t = 3 \/ t = 4 \/ t = 5)
    as [->|[->|[->|[->|[->| ->]]]]] by lia.
  - apply get_keys_match_here. exact Hv.
  - change (idx key_value 1) with 735 in Hv.
    rewrite get_keys_match_skip by (rewrite K0; lia).
    apply (get_keys_match_here 4 (0 + 1)). rewrite K1. exact Hv.
  - change (idx key_value 2) with 1320 in Hv.
    rewrite get_keys_match_skip by (rewrite K0; lia).
    rewrite get_keys_match_skip by (rewrite K1; lia).
    apply (get_keys_match_here 3 (0 + 1 + 1)). rewrite K2. exact Hv.
  - change (idx key_value 3) with 2462 in Hv.
    rewrite get_keys_match_skip by (rewrite K0; lia).
    rewrite get_keys_match_skip by (rewrite K1; lia).
    rewrite get_keys_match_skip by (rewrite K2; lia).
    apply (get_keys_match_here 2 (0 + 1 + 1 + 1)). rewrite K3. exact Hv.
  - change (idx key_value 4) with 1863 in Hv.
    rewrite get_keys_match_skip by (rewrite K0; lia).
    rewrite get_keys_match_skip by (rewrite K1; lia).
    rewrite get_keys_match_skip by (rewrite K2; lia).
    rewrite get_keys_match_skip by (rewrite K3; lia).
    apply (get_keys_match_here 1 (0 + 1 + 1 + 1 + 1)). rewrite K4. exact Hv.
  - change (idx key_value 5) with 3135 in Hv.
    rewrite get_keys_match_skip by (rewrite K0; lia).
    rewrite get_keys_match_skip by (rewrite K1; lia).
    rewrite get_keys_match_skip by (rewrite K2; lia).
    rewrite get_keys_match_skip by (rewrite K3; lia).
    rewrite get_keys_match_skip by (rewrite K4; lia).
    apply (get_keys_match_here 0 (0 + 1 + 1 + 1 + 1 + 1)). rewrite K5.
    exact Hv.
Qed.

(** The values the matching loop can return. *)
Lemma get_keys_match_range n t1 adcval0 secs0 r :
  let k := fst (get_keys_match n t1 adcval0 secs0 r) in
  k = -1 \/ t1 <= k < t1 + Z.of_nat n \/ t1 + 6 <= k < t1 + 6 + Z.of_nat n.
Proof.
  revert t1. induction n as [|n IH]; intros t1; [left; reflexivity|].
  cbn [get_keys_match].
  destruct ((idx key_value t1 - 100 <? adcval0)
            && (adcval0 <? idx key_value t1 + 100)).
  - cbv zeta.
    match goal with |- context [if ?c then _ else _] => destruct c end;
      cbn [fst]; lia.
  - specialize (IH (t1 + 1)). cbv zeta in IH. lia.
Qed.

End KeypadAll.

(** X12.  Each of the six keys is decoded: an average strictly within 100
    counts of [key_value[t]] gives the code [t] after a press of less than
    2 ticks and [t + 6] after a longer one, whatever the place of the key
    in the table (the six bands do not overlap), and the time of the key
    message is set to the current tick. *)
Theorem get_keys_decodes_key r a0 r1 s r2 t :
  get_adc 1 r = Some (a0, r1) -> a0 <= 4000 ->
  get_keys_sample (S (length (pending r))) (runsecs r1) 0 0 r1 = Some (s, r2) ->
  snd s <> 0 -> 0 <= t < 6 ->
  idx key_value t - 100 < to_long (Z.quot (fst s) (snd s))
                        < idx key_value t + 100 ->
  exists r3,
    get_keys r
    = Some (if to_long (runsecs r2 - runsecs r1) <? 2 then t else t + 6, r3)
    /\ runsecs_msg r3 = runsecs r2.
Proof.
  intros Hadc Ha Hs Hcnt Ht Hv.
  rewrite (get_keys_pressed r a0 r1 s r2 Hadc Ha Hs Hcnt).
  destruct (get_keys_match_key t _ (runsecs r1) r2 Ht Hv) as (r3 & E & Hm).
  exists r3. rewrite E. split; [reflexivity | exact Hm].
Qed.

(** X13.  Whatever the inputs, a key read that returns gives -1 (no key)
    or a code from 0 to 11. *)
Theorem get_keys_range r key r' :
  get_keys r = Some (key, r') -> key = -1 \/ 0 <= key <= 11.
Proof.
  unfold get_keys, bind, gets, get_adc, ret. intros H.
  destruct (await_adc (pending r) r) as [[a0 r1]|]; [|discriminate].
  destruct (4000 <? a0).
  - injection H as <- _. left. reflexivity.
  - destruct (get_keys_sample _ _ 0 0 r1) as [[s r2]|]; [|discriminate].
    destruct (snd s =? 0); [discriminate|].
    cbv beta zeta in H.
    match type of H with Some (get_keys_match ?n ?t ?a ?c ?x) = _ =>
      pose proof (get_keys_match_range n t a c x) as Hm;
      destruct (get_keys_match n t a c x) as [k x']
    end.
    injection H as <- _. cbv zeta in Hm. cbn [fst] in Hm. lia.
Qed.

(** A long press of the fourth key (2462): code 9. *)
Lemma get_keys_decodes_key_witness :
  let r := set_pending [Adc 2460; Adc 2461; Adc 2463; Tim2; Tim2; Adc 2465;
                        Adc 2461; Adc 4095]
             (main_load (power_on ∅ [])) in
  exists r3, get_keys r = Some (9, r3) /\ runsecs_msg r3 = 2.
Proof.
  intros r.
  edestruct (fun r1 s r2 => get_keys_decodes_key r 2460 r1 s r2 3)
    as (r3 & E & Hm).
  - vm_compute. reflexivity.
  - lia.
  - vm_compute. reflexivity.
  - vm_compute. discriminate.
  - lia.
  - vm_compute. split; reflexivity.
  - exists r3. split; [exact E | exact Hm].
Defined.

(** An average in none of the bands. *)
Lemma get_keys_range_witness :
  let r := set_pending [Adc 1000; Adc 1000; Adc 1000; Adc 4095]
             (main_load (power_on ∅ [])) in
  exists key r', get_keys r = Some (key, r') /\ (key = -1 \/ 0 <= key <= 11).
Proof.
  intros r. eexists _, _. split; [vm_compute; reflexivity|].
  eapply (get_keys_range r). vm_compute. reflexivity.
Defined.

Section Encoder.

(** Edges of the encoder served while the program waits for the ADC: every
    edge seen with PB0 high counts, whatever its direction, and the
    direction of the last one is kept. *)
Lemma await_adc_edges idrs v rest r :
  Forall (fun idr => Z.land (Z.land (to_u16 idr) 3) 1 <> 0) idrs ->
  pulses r + Z.of_nat (length idrs) < 2 ^ 31 -> - 2 ^ 31 <= pulses r ->
  exists r',
    await_adc (map Exti0 idrs ++ Adc v :: rest) r = Some (v, r')
    /\ pulses r' = pulses r + Z.of_nat (length idrs)
    /\ tuning r'
       = match last idrs with
         | Some idr => if Z.land (Z.land (to_u16 idr) 3) 2 =? 0 then -1 else 1
         | None => tuning r
         end
    /\ keeps_radio r r' /\ pending r' = rest.
Proof.
  revert r. induction idrs as [|idr idrs IH]; intros r Hall Hp Hn.
  - cbn. eexists. split; [reflexivity|]. radio_simpl.
    split; [lia|]. split; [reflexivity|]. split; [|reflexivity].
    repeat split.
  - apply Forall_cons_1 in Hall. destruct Hall as [H0 Hall].
    cbn [map app await_adc length] in *.
    set (r1 := EXTI0_IRQHandler idr r).
    assert (Hp1 : pulses r1 = pulses r + 1).
    { unfold r1, EXTI0_IRQHandler. cbv zeta.
      destruct (Z.eqb_spec (Z.land (Z.land (to_u16 idr) 3) 1) 0);
        [contradiction|].
      destruct (Z.land (Z.land (to_u16 idr) 3) 2 =? 0); radio_simpl;
        apply to_long_id; lia. }
    assert (Ht1 : tuning r1
                  = if Z.land (Z.land (to_u16 idr) 3) 2 =? 0 then -1 else 1).
    { unfold r1, EXTI0_IRQHandler. cbv zeta.
      destruct (Z.eqb_spec (Z.land (Z.land (to_u16 idr) 3) 1) 0);
        [contradiction|].
      destruct (Z.land (Z.land (to_u16 idr) 3) 2 =? 0); reflexivity. }
    assert (Hk1 : keeps_radio r r1)
      by (apply EXTI0_IRQHandler_radio, keeps_radio_refl).
    clearbody r1.
    destruct (IH r1 Hall) as (r' & E & Hp' & Ht' & Hk' & Hpend); [lia | lia|].
    exists r'. split; [exact E|]. split; [lia|]. split.
    + rewrite Ht'. destruct idrs as [|i idrs']; [exact Ht1|].
      rewrite last_cons_cons.
      destruct (last (i :: idrs')) eqn:El; [reflexivity|].
      apply last_None in El. discriminate El.
    + split; [exact (keeps_radio_trans _ _ _ Hk1 Hk') | exact Hpend].
Qed.

End Encoder.

(** X14.  Encoder edges that arrive while the program waits for the ADC,
    the pulse counter having been reset by the timer: with k edges seen
    with PB0 high, the counter is k whatever their directions, the
    direction flag is that of the last edge ([d] = +1 with PB1 high, -1
    otherwise), and the next tuning step moves the active VFO by d * k^2
    (no overflow of the 32-bit long assumed). *)
Theorem encoder_step idrs idr v rest r :
  radio_wf r -> pulses r = 0 ->
  Forall (fun i => Z.land (Z.land (to_u16 i) 3) 1 <> 0) (idrs ++ [idr]) ->
  pending r = map Exti0 (idrs ++ [idr]) ++ Adc v :: rest ->
  let k := Z.of_nat (length idrs) + 1 in
  let d := if Z.land (Z.land (to_u16 idr) 3) 2 =? 0 then -1 else 1 in
  let f := idx2 (f_vfo r) (cur_band r) (cur_vfo r) in
  k * k < 2 ^ 31 -> - 2 ^ 31 <= f + d * k * k < 2 ^ 31 ->
  exists r',
    get_adc 1 r = Some (v, r')
    /\ pulses r' = k /\ tuning r' = d
    /\ idx2 (f_vfo (main_tune r')) (cur_band r) (cur_vfo r) = f + d * k * k.
Proof.
  intros W Hp0 Hall Hpend k d f Hk Hf.
  unfold get_adc. rewrite Hpend.
  destruct (await_adc_edges (idrs ++ [idr]) v rest r Hall)
    as (x & E & Hp & Ht & Hkeep & _).
  { rewrite Hp0, length_app. cbn [length]. nia. }
  { lia. }
  exists x. split; [exact E|].
  rewrite last_snoc in Ht. fold d in Ht.
  rewrite length_app in Hp. cbn [length] in Hp.
  assert (Hpk : pulses x = k) by (unfold k; lia).
  split; [exact Hpk|]. split; [exact Ht|].
  destruct Hkeep as (K1 & K2 & _ & _ & K5 & _).
  destruct W as (W1 & _ & W3 & W4).
  assert (Hne : tuning x <> 0)
    by (rewrite Ht; unfold d; destruct (_ =? 0); lia).
  destruct (main_tune_spec x Hne) as (g & l & ->).
  radio_simpl. rewrite K1, K2, K5, Hpk, Ht. fold f.
  rewrite (idx2_upd2_eq 8 2) by (try exact W1; lia).
  assert (Hd : d = 1 \/ d = -1) by (unfold d; destruct (_ =? 0); lia).
  rewrite (to_long_id (k * k)) by lia.
  rewrite (to_long_id (k * k * d)) by (destruct Hd as [-> | ->]; lia).
  rewrite to_long_id by (destruct Hd as [-> | ->]; lia).
  lia.
Qed.

(** Two pulses up and one down before the conversion ends: three pulses
    counted, direction down, a step of -9 Hz. *)
Lemma encoder_step_witness :
  let r := main_load (power_on ∅ [Exti0 3; Exti0 3; Exti0 1; Adc 4095]) in
  exists r', get_adc 1 r = Some (4095, r')
             /\ pulses r' = 3 /\ tuning r' = -1
             /\ idx2 (f_vfo (main_tune r')) 2 0 = 7120000 - 9.
Proof.
  intros r.
  destruct (encoder_step [3; 3] 1 4095 [] r) as (r' & E & Hp & Ht & Hf).
  - apply main_load_wf.
  - vm_compute. reflexivity.
  - repeat constructor; vm_compute; discriminate.
  - vm_compute. reflexivity.
  - vm_compute. reflexivity.
  - vm_compute. split; [discriminate | reflexivity].
  - exists r'. split; [exact E|]. split; [exact Hp|]. split; [exact Ht|].
    assert (Eb : cur_band r = 2) by (vm_compute; reflexivity).
    assert (Ev : cur_vfo r = 0) by (vm_compute; reflexivity).
    rewrite Eb, Ev in Hf. rewrite Hf. vm_compute. reflexivity.
Defined.

(** ** The display link *)

Section Lcd.

Lemma lcd_shift_in_app prev w1 w2 :
  lcd_shift_in prev (w1 ++ w2)
  = lcd_shift_in prev w1 ++ lcd_shift_in (List.last w1 prev) w2.
Proof.
  revert prev. induction w1 as [|v w1 IH]; intros prev; [reflexivity|].
  cbn [lcd_shift_in app]. rewrite IH, <- app_assoc, last_cons. reflexivity.
Qed.

Lemma lcd_wrote_nil r : lcd_wrote r [] r.
Proof. unfold lcd_wrote. destruct r. reflexivity. Qed.

Lemma lcd_wrote_odr f r : lcd_wrote r [f (gpioa_odr r)] (relay_odr f r).
Proof. unfold lcd_wrote, relay_odr. reflexivity. Qed.

Lemma lcd_wrote_trans r w1 r1 w2 r2 :
  lcd_wrote r w1 r1 -> lcd_wrote r1 w2 r2 -> lcd_wrote r (w1 ++ w2) r2.
Proof.
  unfold lcd_wrote. intros -> ->. apply radio_ext; radio_simpl; try reflexivity.
  - symmetry. apply last_app_last.
  - rewrite map_app, rev_app_distr, app_assoc. reflexivity.
Qed.

Lemma lcd_wrote_odr_last r w r' :
  lcd_wrote r w r' -> gpioa_odr r' = List.last w (gpioa_odr r).
Proof. intros ->. reflexivity. Qed.

Lemma lcd_pins_only_refl g : lcd_pins_only g g.
Proof. intros q _. reflexivity. Qed.

Lemma lcd_pins_only_trans g1 g2 g3 :
  lcd_pins_only g1 g2 -> lcd_pins_only g2 g3 -> lcd_pins_only g1 g3.
Proof. intros H1 H2 q Hq. rewrite (H2 q Hq). apply H1. exact Hq. Qed.

Lemma last_pins_only w g :
  Forall (lcd_pins_only g) w -> lcd_pins_only g (List.last w g).
Proof.
  intros H. assert (G : lcd_pins_only g g) by apply lcd_pins_only_refl.
  revert G. generalize g at 2 4 as d. induction H as [|v w Hv _ IH]; intros d Hd.
  - exact Hd.
  - rewrite last_cons. apply IH. exact Hv.
Qed.

Lemma lcd_sent_pins r w bs r' :
  lcd_sent r w bs r' -> lcd_pins_only (gpioa_odr r) (gpioa_odr r').
Proof.
  intros (Hw & _ & Hs). rewrite (lcd_wrote_odr_last _ _ _ Hw).
  apply last_pins_only. exact Hs.
Qed.

Lemma lcd_sent_nil r : lcd_sent r [] [] r.
Proof. split; [apply lcd_wrote_nil|]. split; [reflexivity | constructor]. Qed.

Lemma lcd_sent_trans r w1 b1 r1 w2 b2 r2 :
  lcd_sent r w1 b1 r1 -> lcd_sent r1 w2 b2 r2 ->
  lcd_sent r (w1 ++ w2) (b1 ++ b2) r2.
Proof.
  intros H1 H2. pose proof (lcd_sent_pins _ _ _ _ H1) as Hs.
  destruct H1 as (Hw1 & Hb1 & Hs1). destruct H2 as (Hw2 & Hb2 & Hs2).
  split; [eapply lcd_wrote_trans; eassumption|]. split.
  - rewrite lcd_shift_in_app, Hb1.
    rewrite <- (lcd_wrote_odr_last _ _ _ Hw1), Hb2. reflexivity.
  - apply Forall_app. split; [exact Hs1|].
    eapply Forall_impl; [exact Hs2|].
    intros v Hv. exact (lcd_pins_only_trans _ _ _ Hs Hv).
Qed.

(** One bit: clock low, data, clock high; DC is as it was. *)
Lemma lcd_write_bit_sent (bit : bool) r :
  let v1 := odr_clr CLK (gpioa_odr r) in
  let v2 := if bit then odr_set DATA v1 else odr_clr DATA v1 in
  let v3 := odr_set CLK v2 in
  lcd_sent r [v1; v2; v3] [(Z.testbit (gpioa_odr r) DC_AO, bit)]
    (relay_odr (odr_set CLK)
       (relay_odr (if bit then odr_set DATA else odr_clr DATA)
          (relay_odr (odr_clr CLK) r)))
  /\ Z.testbit v3 DC_AO = Z.testbit (gpioa_odr r) DC_AO.
Proof.
  intros v1 v2 v3. split; [split; [|split]|].
  - unfold lcd_wrote, relay_odr. apply radio_ext; radio_simpl; try reflexivity.
    + subst v3 v2 v1. destruct bit; reflexivity.
    + subst v3 v2 v1. destruct bit; reflexivity.
  - subst v3 v2 v1. unfold lcd_shift_in, CLK, DATA, DC_AO.
    destruct bit;
      rewrite ?odr_set_testbit, ?odr_clr_testbit by lia;
      rewrite ?odr_set_testbit, ?odr_clr_testbit by lia;
      rewrite ?odr_set_testbit, ?odr_clr_testbit by lia;
      cbn; rewrite ?andb_false_r; reflexivity.
  - subst v3 v2 v1. unfold CLK, DATA.
    repeat constructor; intros q Hq; destruct bit;
      rewrite ?odr_set_testbit, ?odr_clr_testbit by lia;
      rewrite ?odr_set_testbit, ?odr_clr_testbit by lia;
      rewrite ?odr_set_testbit, ?odr_clr_testbit by lia;
      repeat match goal with
             | |- context [?a =? q] =>
                 destruct (Z.eqb_spec a q); [lia|]
             end; reflexivity.
  - subst v3 v2 v1. unfold CLK, DATA, DC_AO.
    destruct bit;
      rewrite ?odr_set_testbit, ?odr_clr_testbit by lia;
      rewrite ?odr_set_testbit, ?odr_clr_testbit by lia;
      rewrite ?odr_set_testbit, ?odr_clr_testbit by lia;
      reflexivity.
Qed.

Lemma lcd_write_bits_sent n value t1 r :
  Z.of_nat n <= t1 + 1 ->
  exists w,
    lcd_sent r w (lcd_bits n (Z.testbit (gpioa_odr r) DC_AO) value t1)
      (lcd_write_bits n value t1 r)
    /\ length w = (3 * n)%nat.
Proof.
  revert t1 r. induction n as [|n IH]; intros t1 r Ht.
  - exists []. split; [apply lcd_sent_nil | reflexivity].
  - cbn [lcd_write_bits lcd_bits]. cbv zeta.
    rewrite Z.land_comm, mask_test by lia.
    pose proof (lcd_write_bit_sent (Z.testbit value t1) r) as [H1 Hdc].
    cbv zeta in H1, Hdc.
    destruct (Z.testbit value t1) eqn:Eb; cbn [negb];
      match type of H1 with lcd_sent _ ?w _ ?r1 =>
        destruct (IH (t1 - 1) r1 ltac:(lia)) as (w' & H2 & Hl);
        exists (w ++ w');
        (split; [|rewrite length_app, Hl; cbn [length]; lia]);
        pose proof (lcd_sent_trans _ _ _ _ _ _ _ H1 H2) as H3;
        rewrite (lcd_wrote_odr_last _ _ _ (proj1 H1)) in H3;
        cbn [List.last] in H3; rewrite Hdc in H3;
        exact H3
      end.
Qed.

(** Selecting command or data creates no clock edge. *)
Lemma lcd_select_sent (dc : bool) r :
  lcd_sent r [(if dc then odr_set DC_AO else odr_clr DC_AO) (gpioa_odr r)] []
    (relay_odr (if dc then odr_set DC_AO else odr_clr DC_AO) r)
  /\ Z.testbit ((if dc then odr_set DC_AO else odr_clr DC_AO) (gpioa_odr r))
       DC_AO = dc.
Proof.
  split; [split; [apply lcd_wrote_odr|split]|].
  - unfold lcd_shift_in, CLK, DC_AO.
    destruct dc; rewrite ?odr_set_testbit, ?odr_clr_testbit by lia;
      cbn [Z.eqb negb andb orb];
      destruct (Z.testbit (gpioa_odr r) 0); reflexivity.
  - repeat constructor. intros q Hq. unfold DC_AO.
    destruct dc; rewrite ?odr_set_testbit, ?odr_clr_testbit by lia;
      destruct (Z.eqb_spec 2 q); try lia; reflexivity.
  - unfold DC_AO.
    destruct dc; rewrite ?odr_set_testbit, ?odr_clr_testbit by lia;
      reflexivity.
Qed.

(** One byte, as a command ([dc = false]) or as data. *)
Lemma lcd_write_byte_sent (dc : bool) value r :
  exists w,
    lcd_sent r w (lcd_byte_bits dc value)
      (if dc then lcd_write_data value r else lcd_write_command value r)
    /\ length w = 25%nat.
Proof.
  destruct (lcd_select_sent dc r) as [H0 Hdc].
  match type of H0 with lcd_sent _ _ _ ?r0 =>
    destruct (lcd_write_bits_sent 8 value 7 r0 ltac:(lia)) as (w & H1 & Hl);
    assert (E : gpioa_odr r0
                = (if dc then odr_set DC_AO else odr_clr DC_AO) (gpioa_odr r))
      by reflexivity
  end.
  rewrite E, Hdc in H1.
  exists ([(if dc then odr_set DC_AO else odr_clr DC_AO) (gpioa_odr r)] ++ w).
  split; [|cbn [length app]; rewrite Hl; reflexivity].
  pose proof (lcd_sent_trans _ _ _ _ _ _ _ H0 H1) as H.
  destruct dc; exact H.
Qed.

Lemma lcd_byte_bits_value dc value :
  bits_value (map snd (lcd_byte_bits dc value)) = value mod 256.
Proof.
  assert (E : map snd (lcd_byte_bits dc value)
              = mask_bits 8 value (Z.shiftl 1 7)).
  { unfold lcd_byte_bits. cbn [lcd_bits map snd mask_bits].
    change (Z.shiftr (Z.shiftl 1 7) 1) with (Z.shiftl 1 6).
    change (Z.shiftr (Z.shiftl 1 6) 1) with (Z.shiftl 1 5).
    change (Z.shiftr (Z.shiftl 1 5) 1) with (Z.shiftl 1 4).
    change (Z.shiftr (Z.shiftl 1 4) 1) with (Z.shiftl 1 3).
    change (Z.shiftr (Z.shiftl 1 3) 1) with (Z.shiftl 1 2).
    change (Z.shiftr (Z.shiftl 1 2) 1) with (Z.shiftl 1 1).
    change (Z.shiftr (Z.shiftl 1 1) 1) with (Z.shiftl 1 0).
    rewrite !(Z.land_comm value), !mask_test, !negb_involutive by lia.
    reflexivity. }
  rewrite E.
  rewrite (mask_bits_low 8 value (Z.shiftl 1 7))
    by (change (Z.shiftl 1 7) with 128; lia).
  apply mask_bits_byte. apply Z.mod_pos_bound. lia.
Qed.

Lemma lcd_byte_bits_low dc v v' :
  v mod 256 = v' mod 256 -> lcd_byte_bits dc v = lcd_byte_bits dc v'.
Proof.
  intros E. unfold lcd_byte_bits. cbn [lcd_bits].
  assert (B : forall t, 0 <= t < 8 -> Z.testbit v t = Z.testbit v' t).
  { intros t Ht.
    rewrite <- (Z.mod_pow2_bits_low v 8 t), <- (Z.mod_pow2_bits_low v' 8 t)
      by lia.
    change (2 ^ 8) with 256. rewrite E. reflexivity. }
  rewrite !(B _) by lia. reflexivity.
Qed.

Lemma to_long_low z : to_long z mod 256 = z mod 256.
Proof.
  unfold to_long.
  rewrite (Z.mod_eq (z + 2 ^ 31) (2 ^ 32)) by lia.
  replace (z + 2 ^ 31 - 2 ^ 32 * ((z + 2 ^ 31) / 2 ^ 32) - 2 ^ 31)
    with (z + (- ((z + 2 ^ 31) / 2 ^ 32) * 2 ^ 24) * 256) by lia.
  apply Z_mod_plus_full.
Qed.

Lemma relay_band_pins_only g v :
  lcd_pins_only g v -> relay_band v = relay_band g.
Proof.
  intros H. unfold relay_band. apply Z.bits_inj'. intros n Hn.
  rewrite !Z.land_spec, !Z.shiftr_spec by lia.
  destruct (Z.ltb_spec n 3) as [H3|H3].
  - rewrite (H (n + 10)) by lia. reflexivity.
  - assert (H7 : Z.testbit 7 n = false).
    { apply (Z.bits_above_log2 7 n); [lia|]. change (Z.log2 7) with 2. lia. }
    rewrite H7, !andb_false_r. reflexivity.
Qed.

Lemma lcd_setwindow_sent x0 y0 x1 y1 r :
  exists w,
    lcd_sent r w
      (lcd_frame [(false, ST7735_CASET); (true, 0); (true, x0); (true, 0);
                  (true, x1); (false, ST7735_RASET); (true, 0); (true, y0);
                  (true, 0); (true, y1)])
      (lcd_setwindow x0 y0 x1 y1 r)
    /\ length w = 250%nat.
Proof.
  unfold lcd_setwindow. cbv zeta.
  destruct (lcd_write_byte_sent false ST7735_CASET r) as (w1 & H1 & L1).
  match type of H1 with lcd_sent _ _ _ ?s =>
    destruct (lcd_write_byte_sent true 0 s) as (w2 & H2 & L2) end.
  match type of H2 with lcd_sent _ _ _ ?s =>
    destruct (lcd_write_byte_sent true x0 s) as (w3 & H3 & L3) end.
  match type of H3 with lcd_sent _ _ _ ?s =>
    destruct (lcd_write_byte_sent true 0 s) as (w4 & H4 & L4) end.
  match type of H4 with lcd_sent _ _ _ ?s =>
    destruct (lcd_write_byte_sent true x1 s) as (w5 & H5 & L5) end.
  match type of H5 with lcd_sent _ _ _ ?s =>
    destruct (lcd_write_byte_sent false ST7735_RASET s) as (w6 & H6 & L6) end.
  match type of H6 with lcd_sent _ _ _ ?s =>
    destruct (lcd_write_byte_sent true 0 s) as (w7 & H7 & L7) end.
  match type of H7 with lcd_sent _ _ _ ?s =>
    destruct (lcd_write_byte_sent true y0 s) as (w8 & H8 & L8) end.
  match type of H8 with lcd_sent _ _ _ ?s =>
    destruct (lcd_write_byte_sent true 0 s) as (w9 & H9 & L9) end.
  match type of H9 with lcd_sent _ _ _ ?s =>
    destruct (lcd_write_byte_sent true y1 s) as (w10 & H10 & L10) end.
  exists (w1 ++ w2 ++ w3 ++ w4 ++ w5 ++ w6 ++ w7 ++ w8 ++ w9 ++ w10).
  split; [|rewrite !length_app; lia].
  unfold lcd_frame. cbn [flat_map fst snd]. rewrite app_nil_r.
  exact (lcd_sent_trans _ _ _ _ _ _ _ H1
          (lcd_sent_trans _ _ _ _ _ _ _ H2
          (lcd_sent_trans _ _ _ _ _ _ _ H3
          (lcd_sent_trans _ _ _ _ _ _ _ H4
          (lcd_sent_trans _ _ _ _ _ _ _ H5
          (lcd_sent_trans _ _ _ _ _ _ _ H6
          (lcd_sent_trans _ _ _ _ _ _ _ H7
          (lcd_sent_trans _ _ _ _ _ _ _ H8
          (lcd_sent_trans _ _ _ _ _ _ _ H9 H10))))))))).
Qed.

(** The loop that fills the window with one colour. *)
Lemma lcd_fill_sent n t fcol r :
  exists w,
    lcd_sent r w
      (flat_map (fun b => lcd_byte_bits (fst b) (snd b))
         (concat (replicate n [(true, Z.shiftr fcol 8); (true, fcol)])))
      (for_loop n t
         (fun _ r => lcd_write_data fcol (lcd_write_data (Z.shiftr fcol 8) r))
         r)
    /\ length w = (50 * n)%nat.
Proof.
  revert t r. induction n as [|n IH]; intros t r.
  - exists []. split; [apply lcd_sent_nil | reflexivity].
  - cbn [for_loop replicate concat app flat_map fst snd].
    destruct (lcd_write_byte_sent true (Z.shiftr fcol 8) r) as (w1 & H1 & L1).
    match type of H1 with lcd_sent _ _ _ ?s =>
      destruct (lcd_write_byte_sent true fcol s) as (w2 & H2 & L2);
      match type of H2 with lcd_sent _ _ _ ?s2 =>
        destruct (IH (t + 1) s2) as (w3 & H3 & L3)
      end
    end.
    exists (w1 ++ w2 ++ w3). split; [|rewrite !length_app; lia].
    exact (lcd_sent_trans _ _ _ _ _ _ _ H1
             (lcd_sent_trans _ _ _ _ _ _ _ H2 H3)).
Qed.

End Lcd.

(** X17.  One byte to the display ([lcd_write_data] with [dc] true,
    [lcd_write_command] with [dc] false), for any value and any state of
    port A: 25 writes of the port; the display samples eight bits on the
    rising clock edges, each with the D/C line at [dc], and they are the
    bits 7 down to 0 of the value, so the byte received is the value
    modulo 256; the pins 3..31 of port A (the band relays among them)
    keep their state in every write. *)
Theorem lcd_write_byte (dc : bool) value r :
  exists w,
    lcd_wrote r w
      (if dc then lcd_write_data value r else lcd_write_command value r)
    /\ length w = 25%nat
    /\ lcd_shift_in (gpioa_odr r) w
       = map (fun t1 => (dc, Z.testbit value t1)) [7; 6; 5; 4; 3; 2; 1; 0]
    /\ bits_value (map (fun t1 => Z.testbit value t1) [7; 6; 5; 4; 3; 2; 1; 0])
       = value mod 256
    /\ Forall (fun v => forall q, 3 <= q < 32 ->
                        Z.testbit v q = Z.testbit (gpioa_odr r) q) w.
Proof.
  destruct (lcd_write_byte_sent dc value r) as (w & (Hw & Hb & Hp) & Hl).
  exists w. split; [exact Hw|]. split; [exact Hl|]. split; [exact Hb|].
  split; [exact (lcd_byte_bits_value dc value) | exact Hp].
Qed.

(** X18.  [draw_meter_bar] sends one complete frame to the display: the
    column window [x0 + 2, x1 + 2] (CASET), the row window [86, 94]
    (RASET), the RAMWR command, and then 4 * (x1 - x0) + 4 pixels, each
    the high and the low byte of the colour; the band relays keep their
    selection. *)
Theorem draw_meter_bar_frame x0 x1 fcol r :
  0 <= x0 <= x1 -> x1 <= 130 ->
  let n := 4 * (x1 - x0) + 4 in
  exists w,
    lcd_wrote r w (draw_meter_bar x0 x1 fcol r)
    /\ Z.of_nat (length w) = 25 * (11 + 2 * n)
    /\ lcd_shift_in (gpioa_odr r) w
       = lcd_frame ([(false, 0x2A); (true, 0); (true, x0 + 2); (true, 0);
                     (true, x1 + 2);
                     (false, 0x2B); (true, 0); (true, 86); (true, 0);
                     (true, 94);
                     (false, 0x2C)]
                    ++ concat (replicate (Z.to_nat n)
                                 [(true, Z.shiftr fcol 8); (true, fcol)]))
    /\ relay_band (gpioa_odr (draw_meter_bar x0 x1 fcol r))
       = relay_band (gpioa_odr r).
Proof.
  intros Hx0 Hx1 n. unfold draw_meter_bar. cbv zeta.
  rewrite Z.shiftl_mul_pow2 by lia. change (2 ^ 2) with 4.
  rewrite (to_long_id (x1 - x0)), (to_long_id ((x1 - x0) * 4)),
    (to_long_id ((x1 - x0) * 4 + 4)), (to_long_id (x0 + 2)),
    (to_long_id (x1 + 2)) by lia.
  replace ((x1 - x0) * 4 + 4) with n by (unfold n; lia).
  destruct (lcd_setwindow_sent (x0 + 2) METERY (x1 + 2) 94 r) as (w1 & H1 & L1).
  match type of H1 with lcd_sent _ _ _ ?s =>
    destruct (lcd_write_byte_sent false ST7735_RAMWR s) as (w2 & H2 & L2);
    match type of H2 with lcd_sent _ _ _ ?s2 =>
      destruct (lcd_fill_sent (Z.to_nat n) 0 fcol s2) as (w3 & H3 & L3)
    end
  end.
  pose proof (lcd_sent_trans _ _ _ _ _ _ _ H1
                (lcd_sent_trans _ _ _ _ _ _ _ H2 H3)) as H.
  exists (w1 ++ w2 ++ w3).
  pose proof (lcd_sent_pins _ _ _ _ H) as Hp.
  destruct H as (Hw & Hb & _).
  split; [exact Hw|]. split; [rewrite !length_app; lia|]. split.
  - rewrite Hb. unfold lcd_frame. rewrite flat_map_app.
    cbn [flat_map fst snd]. rewrite <- !app_assoc. reflexivity.
  - apply relay_band_pins_only. exact Hp.
Qed.

(** A bar over half of the meter while band 5 is selected. *)
Lemma draw_meter_bar_frame_witness :
  let r := main_load (power_on {[256 := 5]} []) in
  relay_band (gpioa_odr (draw_meter_bar 0 65 0x07EA r)) = 5.
Proof.
  intros r.
  destruct (draw_meter_bar_frame 0 65 0x07EA r) as (w & _ & _ & _ & Hr);
    [lia | lia |].
  rewrite Hr. vm_compute. reflexivity.
Defined.

(** ** The SI5351 registers *)

Section Si5351.

Lemma forallb_Zrange (P : Z -> bool) lo n z :
  forallb P (Zrange lo n) = true -> lo <= z < lo + Z.of_nat n -> P z = true.
Proof.
  intros H Hz. rewrite forallb_forall in H. apply H.
  unfold Zrange. apply in_map_iff. exists (Z.to_nat (z - lo)).
  split; [lia|]. apply in_seq. lia.
Qed.

Lemma land_byte x : Z.land x 0xFF = x mod 256.
Proof. exact (Z.land_ones x 8 ltac:(lia)). Qed.

Lemma land_byte1 x : Z.shiftr (Z.land x 0xFF00) 8 = (x / 256) mod 256.
Proof.
  rewrite Z.shiftr_land. change (Z.shiftr 0xFF00 8) with 0xFF.
  rewrite land_byte, Z.shiftr_div_pow2 by lia. reflexivity.
Qed.

Lemma land_bits16 x n :
  0 <= n -> Z.land (Z.shiftr x 16) (Z.ones n) = (x / 65536) mod 2 ^ n.
Proof.
  intros Hn. rewrite Z.land_ones, Z.shiftr_div_pow2 by lia. reflexivity.
Qed.

Lemma lor_nibble x : 0 <= x < 16 -> Z.lor 0xF0 x = 240 + x.
Proof.
  intros Hx.
  assert (x = 0 \/ x = 1 \/ x = 2 \/ x = 3 \/ x = 4 \/ x = 5 \/ x = 6
          \/ x = 7 \/ x = 8 \/ x = 9 \/ x = 10 \/ x = 11 \/ x = 12
          \/ x = 13 \/ x = 14 \/ x = 15)
    as [->|[->|[->|[->|[->|[->|[->|[->|[->|[->|[->|[->|[->|[->|[->| ->]]]]]]]]]]]]]]]
    by lia; reflexivity.
Qed.

Lemma three_bytes p :
  (p / 65536) * 65536 + ((p / 256) mod 256) * 256 + p mod 256 = p.
Proof.
  change 65536 with (256 * 256). rewrite <- (Z.div_div p 256 256) by lia.
  pose proof (Z.div_mod p 256 ltac:(lia)).
  pose proof (Z.div_mod (p / 256) 256 ltac:(lia)). lia.
Qed.

(** [p1] and [p2] without wrap-around. *)
Lemma si5351_p1_p2 a b :
  4 <= a < 2048 -> 0 <= b < 0xFFFFF ->
  let q := 128 * b / 0xFFFFF in
  si5351_p1 a b 0xFFFFF = 128 * a + q - 512
  /\ si5351_p2 b 0xFFFFF = 128 * b - 0xFFFFF * q
  /\ 0 <= q < 128.
Proof.
  intros Ha Hb q.
  assert (Hq : 0 <= q < 128).
  { unfold q. split; [apply Z.div_pos; lia|].
    apply Z.div_lt_upper_bound; lia. }
  assert (Hm : 0 <= 128 * b - 0xFFFFF * q < 0xFFFFF).
  { unfold q. pose proof (Z.mod_pos_bound (128 * b) 0xFFFFF ltac:(lia)) as H.
    rewrite Z.mod_eq in H by lia. exact H. }
  unfold si5351_p1, si5351_p2, to_ulong.
  rewrite (Z.mod_small (128 * a)), (Z.mod_small (128 * b)) by lia.
  fold q. rewrite (Z.mod_small (128 * a + q)) by lia.
  rewrite (Z.mod_small (0xFFFFF * q)) by lia.
  rewrite !Z.mod_small by lia. split; [reflexivity|]. split; [reflexivity|].
  exact Hq.
Qed.

Lemma si5351_regs_params synth a b :
  4 <= a < 2048 -> 0 <= b < 0xFFFFF ->
  let q := 128 * b / 0xFFFFF in
  si5351_params (map snd (si5351_regs synth a b))
  = (128 * a + q - 512, 128 * b - 0xFFFFF * q, 0xFFFFF).
Proof.
  intros Ha Hb q.
  destruct (si5351_p1_p2 a b Ha Hb) as (E1 & E2 & Hq). fold q in E1, E2.
  assert (Hm : 0 <= 128 * b - 0xFFFFF * q < 0xFFFFF).
  { unfold q. pose proof (Z.mod_pos_bound (128 * b) 0xFFFFF ltac:(lia)) as H.
    rewrite Z.mod_eq in H by lia. exact H. }
  unfold si5351_regs. cbv zeta. rewrite E1, E2.
  set (p1 := 128 * a + q - 512) in *. set (p2 := 128 * b - 0xFFFFF * q) in *.
  assert (H1 : 0 <= p1 < 262144) by (unfold p1; lia).
  clearbody p1 p2. clear E1 E2.
  rewrite (to_long_id p1), (to_long_id p2) by lia.
  change (to_long 0xFFFFF) with 0xFFFFF.
  unfold si5351_params. cbn [map snd]. cbv zeta.
  change (idx ?l 0) with (nth 0 l 0). change (idx ?l 1) with (nth 1 l 0).
  change (idx ?l 2) with (nth 2 l 0). change (idx ?l 3) with (nth 3 l 0).
  change (idx ?l 4) with (nth 4 l 0). change (idx ?l 5) with (nth 5 l 0).
  change (idx ?l 6) with (nth 6 l 0). change (idx ?l 7) with (nth 7 l 0).
  cbn [nth].
  rewrite !land_byte, !land_byte1.
  change 3 with (Z.ones 2). change 15 with (Z.ones 4).
  rewrite !land_bits16 by lia.
  change (Z.land 1048575 240) with 240.
  rewrite lor_nibble by (apply Z.mod_pos_bound; lia).
  unfold to_uchar. change (2 ^ 8) with 256. change (2 ^ 2) with 4.
  change (2 ^ 4) with 16.
  rewrite !Z.mod_mod by lia.
  assert (B1 : 0 <= p1 / 65536 < 4)
    by (split; [apply Z.div_pos; lia | apply Z.div_lt_upper_bound; lia]).
  assert (B2 : 0 <= p2 / 65536 < 16)
    by (split; [apply Z.div_pos; lia | apply Z.div_lt_upper_bound; lia]).
  rewrite (Z.mod_small (p1 / 65536) 4) by lia.
  rewrite (Z.mod_small (p2 / 65536) 16) by lia.
  rewrite (Z.mod_small (p1 / 65536) 256) by lia.
  rewrite (Z.mod_small (240 + p2 / 65536) 256) by lia.
  rewrite (Z.mod_small (p1 / 65536) 4) by lia.
  replace ((240 + p2 / 65536) mod 16) with (p2 / 65536)
    by (replace (240 + p2 / 65536) with (p2 / 65536 + 15 * 16) by lia;
        rewrite Z_mod_plus_full; symmetry; apply Z.mod_small; lia).
  replace ((240 + p2 / 65536) / 16) with 15
    by (apply (Z.div_unique _ 16 15 (p2 / 65536)); lia).
  rewrite !three_bytes. reflexivity.
Qed.

End Si5351.

(** X19.  The eight registers [si5351_set_freq] writes for a divider
    a + b / 0xFFFFF: the addresses are synth .. synth + 7, the denominator
    P3 read back from the bytes is 0xFFFFF, and the fields P1 (18 bits)
    and P2 read back satisfy (P1 + 512) * P3 + P2 = 128 * (a * P3 + b),
    the encoding of the divider the SI5351 expects, with P2 < P3. *)
Theorem si5351_regs_divider synth a b :
  0 <= synth <= 248 -> 4 <= a < 2048 -> 0 <= b < 0xFFFFF ->
  map fst (si5351_regs synth a b)
  = [synth; synth + 1; synth + 2; synth + 3; synth + 4; synth + 5; synth + 6;
     synth + 7]
  /\ exists p1 p2,
       si5351_params (map snd (si5351_regs synth a b)) = (p1, p2, 0xFFFFF)
       /\ 0 <= p1 < 2 ^ 18 /\ 0 <= p2 < 0xFFFFF
       /\ (p1 + 512) * 0xFFFFF + p2 = 128 * (a * 0xFFFFF + b).
Proof.
  intros Hs Ha Hb. split.
  - unfold si5351_regs. cbv zeta. cbn [map fst].
    rewrite !to_uchar_id by lia. rewrite Z.add_0_r. reflexivity.
  - rewrite (si5351_regs_params synth a b Ha Hb). cbv zeta.
    destruct (si5351_p1_p2 a b Ha Hb) as (_ & _ & Hq). cbv zeta in Hq.
    pose proof (Z.mod_pos_bound (128 * b) 0xFFFFF ltac:(lia)) as Hm.
    rewrite Z.mod_eq in Hm by lia.
    eexists _, _. split; [reflexivity|].
    split; [lia|]. split; [exact Hm | lia].
Qed.

(** The divider of 10001500 Hz from the 800 MHz PLL. *)
Lemma si5351_regs_divider_witness :
  map fst (si5351_regs 42 79 1035993) = [42; 43; 44; 45; 46; 47; 48; 49]
  /\ si5351_params (map snd (si5351_regs 42 79 1035993))
     = (9726, 486654, 1048575)
  /\ (9726 + 512) * 0xFFFFF + 486654 = 128 * (79 * 0xFFFFF + 1035993).
Proof.
  destruct (si5351_regs_divider 42 79 1035993) as (Hf & p1 & p2 & Hp & _);
    [lia | lia | lia |].
  split; [exact Hf|]. split; [vm_compute; reflexivity | reflexivity].
Defined.

Section Si5351Window.

(** Checked by evaluation for the 6001 frequencies of the window. *)
Lemma si5351_close_window :
  forallb si5351_close (Zrange (INTERFREQUENCY - 3000) (Z.to_nat 6001)) = true.
Proof. vm_compute. reflexivity. Qed.

End Si5351Window.

(** X20.  For every LO frequency the program accepts (10 MHz +- 3000 Hz)
    the binary64 computation of [si5351_set_freq] yields a divider whose
    output frequency, FXTAL * PLLRATIO divided by the divider read back
    from the register bytes, is within 1 Hz of the request:
    freq <= 800 MHz / divider < freq + 1.  The PLL registers written by
    [si5351_start] hold the integer ratio 32 (P1 = 128 * 32 - 512, P2 = 0). *)
Theorem si5351_set_freq_lo_window synth freq :
  INTERFREQUENCY - 3000 <= freq <= INTERFREQUENCY + 3000 ->
  si5351_params (map snd (drop 8 si5351_start_i2c))
  = (128 * PLLRATIO - 512, 0, 0xFFFFF)
  /\ exists p1 p2,
       si5351_params (map snd (si5351_set_freq_i2c synth freq))
       = (p1, p2, 0xFFFFF)
       /\ 0 <= p2 < 0xFFFFF
       /\ let n := (p1 + 512) * 0xFFFFF + p2 in
          freq * n <= 128 * (FXTAL * PLLRATIO) * 0xFFFFF < (freq + 1) * n.
Proof.
  intros Hf. split; [vm_compute; reflexivity|].
  pose proof (forallb_Zrange si5351_close _ _ freq si5351_close_window) as H.
  unfold INTERFREQUENCY in H, Hf. specialize (H ltac:(lia)).
  unfold si5351_close in H. cbv zeta in H.
  repeat (apply andb_prop in H; destruct H as [H ?]).
  repeat match goal with
         | H : (_ <=? _) = true |- _ => apply Z.leb_le in H
         | H : (_ <? _) = true |- _ => apply Z.ltb_lt in H
         end.
  unfold si5351_set_freq_i2c.
  set (a := si5351_a freq) in *. set (b := si5351_b freq) in *.
  clearbody a b.
  rewrite (si5351_regs_params synth a b) by lia. cbv zeta.
  pose proof (Z.mod_pos_bound (128 * b) 0xFFFFF ltac:(lia)) as Hm.
  rewrite Z.mod_eq in Hm by lia.
  eexists _, _. split; [reflexivity|]. split; [exact Hm|].
  unfold FXTAL, PLLRATIO in *. nia.
Qed.

(** The default LO of the upper sideband. *)
Lemma si5351_set_freq_lo_window_witness :
  exists p1 p2,
    si5351_params (map snd (si5351_set_freq_i2c SYNTH_MS_0 10001500))
    = (p1, p2, 0xFFFFF)
    /\ 10001500 * ((p1 + 512) * 0xFFFFF + p2)
       <= 128 * 800000000 * 0xFFFFF
       < 10001501 * ((p1 + 512) * 0xFFFFF + p2).
Proof.
  destruct (si5351_set_freq_lo_window SYNTH_MS_0 10001500)
    as (_ & p1 & p2 & Hp & _ & Hn); [unfold INTERFREQUENCY; lia|].
  exists p1, p2. split; [exact Hp | exact Hn].
Defined.

(** ** Supply voltage and PA temperature: the computations *)

Section Adc.

Lemma vdd_of_adc_all :
  forallb (fun adc => vdd_of_adc adc =? adc * 363 / 4096)
    (Zrange 0 (Z.to_nat 4096)) = true.
Proof. vm_compute. reflexivity. Qed.

Lemma pa_temp_of_adc_all :
  ascending (-92) (map pa_temp_of_adc (Zrange 0 (Z.to_nat 4096))) = true
  /\ pa_temp_of_adc 4095 = 232313.
Proof. vm_compute. split; reflexivity. Qed.

Lemma ascending_nth prev l i j :
  ascending prev l = true -> (i <= j < length l)%nat ->
  prev <= nth i l 0 <= nth j l 0.
Proof.
  revert prev i j. induction l as [|x l IH]; intros prev i j H Hij.
  - cbn in Hij. lia.
  - cbn [ascending] in H. apply andb_prop in H. destruct H as [H1 H2].
    apply Z.leb_le in H1.
    destruct j as [|j].
    + assert (i = 0)%nat as -> by lia. cbn. lia.
    + destruct i as [|i].
      * cbn [nth]. cbn [length] in Hij.
        pose proof (IH x 0%nat j H2 ltac:(lia)). lia.
      * cbn [nth]. cbn [length] in Hij.
        pose proof (IH x i j H2 ltac:(lia)). lia.
Qed.

Lemma nth_map_Zrange (f : Z -> Z) lo n i :
  (i < n)%nat -> nth i (map f (Zrange lo n)) 0 = f (lo + Z.of_nat i).
Proof.
  intros Hi. unfold Zrange. rewrite map_map.
  rewrite (nth_indep _ 0 (f (lo + Z.of_nat 0)))
    by (rewrite length_map, length_seq; exact Hi).
  rewrite (map_nth (fun x => f (lo + Z.of_nat x)) (seq 0 n) 0%nat).
  rewrite seq_nth by exact Hi. reflexivity.
Qed.

End Adc.

(** X21.  For every 12-bit conversion result the floating-point
    computation of [get_vdd] (binary64, truncated to int) equals the
    integer quotient adc * 363 / 4096 and lies between 0 and 362. *)
Theorem get_vdd_tenths r adc r' :
  get_adc VDD r = Some (adc, r') -> 0 <= adc < 4096 ->
  get_vdd r = Some (adc * 363 / 4096, r')
  /\ 0 <= adc * 363 / 4096 <= 362.
Proof.
  intros Hadc Ha. unfold get_vdd, bind, ret. rewrite Hadc.
  pose proof (forallb_Zrange _ 0 _ adc vdd_of_adc_all ltac:(lia)) as H.
  apply Z.eqb_eq in H. rewrite H. split; [reflexivity|].
  split; [apply Z.div_pos; lia|].
  apply Z.lt_succ_r. apply Z.div_lt_upper_bound; lia.
Qed.

(** 1354 counts: 11.9 V. *)
Lemma get_vdd_tenths_witness :
  let r := set_pending [Tim2; Adc 1354] (main_load (power_on ∅ [])) in
  exists r', get_vdd r = Some (119, r').
Proof.
  intros r. eexists.
  refine (proj1 (get_vdd_tenths r 1354 _ _ _)).
  - vm_compute. reflexivity.
  - lia.
Defined.

(** X22.  The temperature [get_pa_temp] computes from a 12-bit conversion
    result never decreases when the result grows, is -92 at least (the
    value for 0 counts, where the division by zero gives an infinity that
    the next division turns into 0) and 232313 at most. *)
Theorem get_pa_temp_monotone r adc r' adc' :
  get_adc TMP r = Some (adc, r') -> 0 <= adc <= adc' -> adc' < 4096 ->
  get_pa_temp r = Some (pa_temp_of_adc adc, r')
  /\ - 92 <= pa_temp_of_adc adc <= pa_temp_of_adc adc'
  /\ pa_temp_of_adc adc' <= 232313.
Proof.
  intros Hadc Ha Ha'. unfold get_pa_temp, bind, ret. rewrite Hadc.
  split; [reflexivity|].
  destruct pa_temp_of_adc_all as [Hasc Hmax].
  assert (Hlen : length (map pa_temp_of_adc (Zrange 0 (Z.to_nat 4096)))
                 = Z.to_nat 4096)
    by (unfold Zrange; rewrite !length_map, length_seq; reflexivity).
  pose proof (ascending_nth _ _ (Z.to_nat adc) (Z.to_nat adc') Hasc
                ltac:(rewrite Hlen; lia)) as H1.
  pose proof (ascending_nth _ _ (Z.to_nat adc') (Z.to_nat 4095) Hasc
                ltac:(rewrite Hlen; lia)) as H2.
  rewrite !nth_map_Zrange in H1, H2 by lia.
  rewrite !Z2Nat.id in H1, H2 by lia. rewrite !Z.add_0_l in H1, H2.
  rewrite Hmax in H2. lia.
Qed.

(** 0 counts against 2800 counts. *)
Lemma get_pa_temp_monotone_witness :
  let r := set_pending [Adc 0] (main_load (power_on ∅ [])) in
  exists r', get_pa_temp r = Some (-92, r')
             /\ pa_temp_of_adc 0 <= pa_temp_of_adc 2800.
Proof.
  intros r. eexists.
  destruct (get_pa_temp_monotone r 0 (set_pending [] r) 2800)
    as (H1 & H2 & _).
  - vm_compute. reflexivity.
  - lia.
  - lia.
  - split; [exact H1 | lia].
Defined.

(** ** Numbers as strings *)

Section Int2asc.

Lemma buf_set_app pre y post i x :
  i = Z.of_nat (length pre) ->
  buf_set (pre ++ y :: post) i x = Some (pre ++ to_uchar x :: post).
Proof.
  intros ->. unfold buf_set. rewrite length_app. cbn [length].
  destruct (Z.leb_spec 0 (Z.of_nat (length pre))); [|lia].
  destruct (Z.ltb_spec (Z.of_nat (length pre))
              (Z.of_nat (length pre + S (length post)))); [|lia].
  cbn [andb]. rewrite Nat2Z.id.
  rewrite insert_app_r_alt by lia. rewrite Nat.sub_diag. reflexivity.
Qed.

Lemma buf_get_app pre y post i :
  i = Z.of_nat (length pre) -> buf_get (pre ++ y :: post) i = Some y.
Proof.
  intros ->. unfold buf_get.
  destruct (Z.leb_spec 0 (Z.of_nat (length pre))); [|lia].
  rewrite Nat2Z.id. rewrite lookup_app_r by lia.
  rewrite Nat.sub_diag. reflexivity.
Qed.

Lemma snoc_app {A} (pre : list A) x post :
  pre ++ x :: post = (pre ++ [x]) ++ post.
Proof. rewrite <- app_assoc. reflexivity. Qed.

Lemma int2asc_fill_app mid : forall pre post i,
  i = Z.of_nat (length pre) ->
  int2asc_fill (length mid) i (pre ++ mid ++ post)
  = Some (pre ++ replicate (length mid) 0 ++ post).
Proof.
  induction mid as [|y mid IH]; intros pre post i Hi; [reflexivity|].
  cbn [length int2asc_fill app replicate].
  rewrite (buf_set_app pre y (mid ++ post) i 0 Hi). cbn [mbind option_bind].
  change (to_uchar 0) with 0.
  rewrite (snoc_app pre 0), IH by (rewrite length_app; cbn [length]; lia).
  rewrite <- app_assoc. reflexivity.
Qed.

Lemma digits_str_length c n dec :
  length (digits_str c n dec)
  = (S c + (if (1 <=? dec)%Z && (dec <=? Z.of_nat c)%Z then 1 else 0))%nat.
Proof.
  revert n. induction c as [|c IH]; intros n.
  - cbn [digits_str]. cbv zeta.
    destruct (Z.eqb_spec (Z.of_nat 0) dec) as [<-|]; cbn [andb negb Z.eqb];
      [reflexivity|].
    destruct (Z.leb_spec 1 dec); destruct (Z.leb_spec dec (Z.of_nat 0));
      cbn [andb length]; lia.
  - cbn [digits_str]. cbv zeta. cbn [length]. rewrite length_app, IH.
    destruct (Z.eqb_spec (Z.of_nat (S c)) dec) as [E|E];
      destruct (Z.eqb_spec dec 0); cbn [andb negb length];
      destruct (Z.leb_spec 1 dec); destruct (Z.leb_spec dec (Z.of_nat c));
      destruct (Z.leb_spec dec (Z.of_nat (S c))); cbn [andb]; lia.
Qed.

Lemma digits_str_S c n dec :
  digits_str (S c) n dec
  = (n / 10 ^ Z.of_nat (S c) + 48)
      :: (if (Z.of_nat (S c) =? dec) && negb (dec =? 0) then [46] else [])
      ++ digits_str c (n mod 10 ^ Z.of_nat (S c)) dec.
Proof. reflexivity. Qed.

Lemma int2asc_digits_S fuel n dd c xp dec buf :
  int2asc_digits (S fuel) n dd c xp dec buf
  = if dd =? 0 then Some (xp, buf)
    else
      let i := to_long (Z.quot n dd) in
      let n := to_long (n - to_long (i * dd)) in
      buf ← buf_set buf (9 - c + xp) (i + 48);
      let dd := Z.quot dd 10 in
      if (c =? dec) && negb (dec =? 0)
      then buf ← buf_set buf (9 - c + (xp + 1)) 46;
           int2asc_digits fuel n dd (c - 1) (xp + 1) dec buf
      else int2asc_digits fuel n dd (c - 1) xp dec buf.
Proof. reflexivity. Qed.

(** The digit loop writes [digits_str] from its first position on. *)
Lemma int2asc_digits_str c : forall n xp dec pre rest,
  (c <= 9)%nat -> 0 <= n < 10 ^ Z.of_nat (S c) -> n < 2 ^ 31 ->
  Z.of_nat (length pre) = 9 - Z.of_nat c + xp ->
  (length (digits_str c n dec) <= length rest)%nat ->
  exists xp',
    int2asc_digits (S (S c)) n (10 ^ Z.of_nat c) (Z.of_nat c) xp dec
      (pre ++ rest)
    = Some (xp', pre ++ digits_str c n dec
                   ++ drop (length (digits_str c n dec)) rest).
Proof.
  induction c as [|c IH]; intros n xp dec pre rest Hc Hn Hn31 Hpre Hlen.
  - cbn [digits_str int2asc_digits] in *. cbv zeta in *.
    change (10 ^ Z.of_nat 0) with 1 in *. change (1 =? 0) with false.
    cbn iota. rewrite Z.quot_1_r, Z.mul_1_r, Z.div_1_r.
    rewrite !(to_long_id n) by lia. rewrite Z.sub_diag.
    change (10 ^ Z.of_nat 1) with 10 in Hn.
    assert (Ept : (Z.of_nat 0 =? dec) && negb (dec =? 0) = false).
    { destruct (Z.eqb_spec (Z.of_nat 0) dec) as [<-|]; reflexivity. }
    rewrite Ept in *. cbn [length app] in *.
    destruct rest as [|y rest]; [cbn in Hlen; lia|].
    rewrite (buf_set_app pre y rest) by lia. cbn [mbind option_bind].
    change (Z.quot 1 10 =? 0) with true. cbn iota.
    rewrite to_uchar_id by lia. exists xp. reflexivity.
  - remember (S c) as c1 eqn:Ec1.
    rewrite int2asc_digits_S. cbv zeta.
    assert (Hdd : 0 < 10 ^ Z.of_nat c1) by (apply Z.pow_pos_nonneg; lia).
    destruct (Z.eqb_spec (10 ^ Z.of_nat c1) 0) as [E0|_]; [lia|].
    assert (Hpow : 10 ^ Z.of_nat (S c1) = 10 * 10 ^ Z.of_nat c1)
      by (rewrite Nat2Z.inj_succ, Z.pow_succ_r by lia; reflexivity).
    rewrite (Z.quot_div_nonneg n) by lia.
    set (d := n / 10 ^ Z.of_nat c1).
    assert (Hd : 0 <= d <= 9).
    { unfold d. split; [apply Z.div_pos; lia|].
      apply Z.lt_succ_r. apply Z.div_lt_upper_bound; lia. }
    assert (Hdn : d * 10 ^ Z.of_nat c1 <= n).
    { unfold d. rewrite Z.mul_comm. apply Z.mul_div_le. lia. }
    rewrite (to_long_id d) by lia.
    rewrite (to_long_id (d * _)) by nia.
    rewrite (to_long_id (n - _)) by nia.
    replace (n - d * 10 ^ Z.of_nat c1) with (n mod 10 ^ Z.of_nat c1)
      by (unfold d; rewrite Z.mod_eq by lia; lia).
    assert (Hq : Z.quot (10 ^ Z.of_nat c1) 10 = 10 ^ Z.of_nat c).
    { rewrite Ec1, Nat2Z.inj_succ, Z.pow_succ_r by lia.
      rewrite Z.mul_comm, Z.quot_mul by lia. reflexivity. }
    rewrite Hq.
    assert (Hm : 0 <= n mod 10 ^ Z.of_nat c1 < 10 ^ Z.of_nat c1)
      by (apply Z.mod_pos_bound; lia).
    assert (Hm31 : n mod 10 ^ Z.of_nat c1 <= n) by (apply Z.mod_le; lia).
    replace (Z.of_nat c1 - 1) with (Z.of_nat c) by lia.
    rewrite Ec1, digits_str_S, <- Ec1 in Hlen. fold d in Hlen.
    rewrite (f_equal (fun k => digits_str k n dec) Ec1), digits_str_S, <- Ec1.
    fold d.
    destruct rest as [|y rest]; [cbn in Hlen; lia|].
    rewrite (buf_set_app pre y rest) by lia. cbn [mbind option_bind].
    rewrite to_uchar_id by lia.
    destruct ((Z.of_nat c1 =? dec) && negb (dec =? 0)).
    + cbn [app length] in Hlen |- *.
      destruct rest as [|y' rest]; [cbn in Hlen; lia|].
      rewrite (snoc_app pre (d + 48)).
      rewrite (buf_set_app (pre ++ [d + 48]) y' rest)
        by (rewrite length_app; cbn [length]; lia).
      cbn [mbind option_bind]. change (to_uchar 46) with 46.
      rewrite (snoc_app (pre ++ [d + 48]) 46).
      destruct (IH (n mod 10 ^ Z.of_nat c1) (xp + 1) dec
                  ((pre ++ [d + 48]) ++ [46]) rest) as (xp' & E);
        [lia | exact Hm | lia | rewrite !length_app; cbn [length]; lia
         | cbn [length] in Hlen; lia |].
      exists xp'. rewrite E. rewrite <- !app_assoc. reflexivity.
    + cbn [app length] in Hlen |- *.
      rewrite (snoc_app pre (d + 48)).
      destruct (IH (n mod 10 ^ Z.of_nat c1) xp dec (pre ++ [d + 48]) rest)
        as (xp' & E);
        [lia | exact Hm | lia | rewrite !length_app; cbn [length]; lia
         | lia |].
      exists xp'. rewrite E. rewrite <- !app_assoc. reflexivity.
Qed.

Lemma int2asc_zeros_spec k : forall fuel i pre x post,
  i = Z.of_nat (length pre) -> x <> 48 -> (k < fuel)%nat ->
  int2asc_zeros fuel i (pre ++ replicate k 48 ++ x :: post)
  = Some (i + Z.of_nat k, pre ++ replicate k 32 ++ x :: post).
Proof.
  induction k as [|k IH]; intros fuel i pre x post Hi Hx Hf;
    (destruct fuel as [|fuel]; [lia|]); cbn [int2asc_zeros replicate app].
  - rewrite (buf_get_app pre x post i Hi). cbn [mbind option_bind].
    destruct (Z.eqb_spec x 48); [contradiction|].
    rewrite Z.add_0_r. reflexivity.
  - rewrite (buf_get_app pre 48 _ i Hi). cbn [mbind option_bind].
    change (48 =? 48) with true. cbn iota.
    rewrite (buf_set_app pre 48 _ i 32 Hi). cbn [mbind option_bind].
    change (to_uchar 32) with 32.
    rewrite (snoc_app pre 32), IH
      by (try rewrite length_app; cbn [length]; lia).
    rewrite <- app_assoc. cbn [app]. f_equal. f_equal. lia.
Qed.

(** The copy to the front: the string moves over the gap, which keeps its
    length. *)
Lemma int2asc_shift_spec s : forall fuel done gap post i c,
  c = Z.of_nat (length done) ->
  i = Z.of_nat (length done + length gap) ->
  Forall (fun x => x <> 0 /\ 0 <= x < 256) s -> (length s < fuel)%nat ->
  exists gap',
    length gap' = length gap
    /\ int2asc_shift fuel i c (done ++ gap ++ s ++ 0 :: post)
       = Some (c + Z.of_nat (length s), (done ++ s) ++ gap' ++ 0 :: post).
Proof.
  induction s as [|x s IH]; intros fuel done gap post i c Hc Hi Hs Hf;
    (destruct fuel as [|fuel]; [cbn in Hf; lia|]); cbn [int2asc_shift].
  - cbn [app]. rewrite app_assoc.
    rewrite (buf_get_app (done ++ gap) 0 post)
      by (rewrite length_app; lia).
    cbn [mbind option_bind]. change (0 =? 0) with true. cbn iota.
    exists gap. split; [reflexivity|].
    rewrite app_nil_r, <- app_assoc, Z.add_0_r. reflexivity.
  - apply Forall_cons_1 in Hs. destruct Hs as [[Hx0 Hx] Hs].
    cbn [app]. rewrite (app_assoc done gap).
    rewrite (buf_get_app (done ++ gap) x _) by (rewrite length_app; lia).
    cbn [mbind option_bind].
    destruct (Z.eqb_spec x 0); [contradiction|].
    rewrite <- app_assoc.
    destruct gap as [|g gap].
    + cbn [app]. rewrite (buf_set_app done x _ c x Hc).
      cbn [mbind option_bind]. rewrite to_uchar_id by lia.
      rewrite (snoc_app done x).
      destruct (IH fuel (done ++ [x]) [] post (i + 1) (c + 1))
        as (gap' & Hg & E);
        [rewrite length_app; cbn [length]; lia
        |rewrite length_app; cbn [length] in *; lia
        |exact Hs | cbn [length] in Hf; lia|].
      cbn [app] in E. rewrite E. exists gap'. split; [exact Hg|].
      cbn [length]. rewrite <- !app_assoc. cbn [app]. f_equal. f_equal. lia.
    + cbn [app]. rewrite (buf_set_app done g _ c x Hc).
      cbn [mbind option_bind]. rewrite to_uchar_id by lia.
      rewrite (snoc_app done x), (snoc_app gap x).
      destruct (IH fuel (done ++ [x]) (gap ++ [x]) post (i + 1) (c + 1))
        as (gap' & Hg & E);
        [rewrite length_app; cbn [length]; lia
        |rewrite !length_app; cbn [length] in *; lia
        |exact Hs | cbn [length] in Hf; lia|].
      rewrite E. exists gap'. split.
      * rewrite Hg, length_app. cbn [length]. lia.
      * cbn [length]. rewrite <- !app_assoc. cbn [app]. f_equal. f_equal. lia.
Qed.

Lemma strlen_loop_spec s : forall fuel pre tail t1,
  t1 = Z.of_nat (length pre) -> Forall (fun x => x <> 0) s ->
  (length s < fuel)%nat ->
  strlen_loop fuel t1 (pre ++ s ++ 0 :: tail)
  = Some (t1 + Z.of_nat (length s) + 1).
Proof.
  induction s as [|x s IH]; intros fuel pre tail t1 Ht Hs Hf;
    (destruct fuel as [|fuel]; [cbn in Hf; lia|]); cbn [strlen_loop app].
  - rewrite (buf_get_app pre 0 tail t1 Ht). cbn [mbind option_bind].
    change (0 =? 0) with true. cbn iota. rewrite Z.add_0_r. reflexivity.
  - apply Forall_cons_1 in Hs. destruct Hs as [Hx Hs].
    rewrite (buf_get_app pre x _ t1 Ht). cbn [mbind option_bind].
    destruct (Z.eqb_spec x 0); [contradiction|].
    rewrite (snoc_app pre x), IH
      by (try rewrite length_app; cbn [length] in *; (lia || exact Hs)).
    cbn [length]. f_equal. lia.
Qed.

(** [strlen] finds the first NUL. *)
Lemma strlen_spec s tail :
  Forall (fun x => x <> 0) s ->
  strlen (s ++ 0 :: tail) = Some (Z.of_nat (length s)).
Proof.
  intros Hs. unfold strlen.
  rewrite (strlen_loop_spec s _ [] tail 0 eq_refl Hs)
    by (rewrite length_app; cbn [length]; lia).
  cbn [mbind option_bind]. f_equal. lia.
Qed.

Lemma leading_split l :
  l = replicate (leading l) 48 ++ drop (leading l) l
  /\ match drop (leading l) l with x :: _ => x <> 48 | [] => True end.
Proof.
  induction l as [|x l [IH1 IH2]]; [split; [reflexivity | exact I]|].
  cbn [leading]. destruct (Z.eqb_spec x 48) as [->|Hx].
  - cbn [replicate app drop]. split; [f_equal; exact IH1 | exact IH2].
  - cbn [replicate app drop]. split; [reflexivity | exact Hx].
Qed.

Lemma digits_str_chars c : forall n dec,
  0 <= n < 10 ^ Z.of_nat (S c) ->
  Forall (fun x => x = 46 \/ 48 <= x <= 57) (digits_str c n dec).
Proof.
  induction c as [|c IH]; intros n dec Hn.
  - cbn [digits_str]. cbv zeta. change (10 ^ Z.of_nat 0) with 1.
    change (10 ^ Z.of_nat 1) with 10 in Hn. rewrite Z.div_1_r.
    constructor; [right; lia|].
    destruct ((Z.of_nat 0 =? dec) && negb (dec =? 0)); repeat constructor.
  - rewrite digits_str_S.
    assert (Hdd : 0 < 10 ^ Z.of_nat (S c)) by (apply Z.pow_pos_nonneg; lia).
    assert (Hpow : 10 ^ Z.of_nat (S (S c)) = 10 * 10 ^ Z.of_nat (S c))
      by (rewrite (Nat2Z.inj_succ (S c)), Z.pow_succ_r by lia; reflexivity).
    constructor.
    + right. split; [pose proof (Z.div_pos n _ (proj1 Hn) Hdd); lia|].
      assert (n / 10 ^ Z.of_nat (S c) < 10)
        by (apply Z.div_lt_upper_bound; lia). lia.
    + apply Forall_app. split.
      * destruct ((Z.of_nat (S c) =? dec) && negb (dec =? 0));
          repeat constructor.
      * apply IH. apply Z.mod_pos_bound. lia.
Qed.

Lemma digits_str_zero c : forall n dec,
  0 <= n < 10 ^ Z.of_nat (S c) ->
  Forall (fun x => x = 48) (digits_str c n dec) -> n = 0.
Proof.
  induction c as [|c IH]; intros n dec Hn H.
  - cbn [digits_str] in H. cbv zeta in H. change (10 ^ Z.of_nat 0) with 1 in H.
    rewrite Z.div_1_r in H. apply Forall_cons_1 in H. lia.
  - rewrite digits_str_S in H.
    assert (Hdd : 0 < 10 ^ Z.of_nat (S c)) by (apply Z.pow_pos_nonneg; lia).
    apply Forall_cons_1 in H. destruct H as [H0 H].
    apply Forall_app in H. destruct H as [_ H].
    apply IH in H; [|apply Z.mod_pos_bound; lia].
    rewrite (Z.div_mod n (10 ^ Z.of_nat (S c))) by lia. nia.
Qed.

Lemma leading_all l :
  drop (leading l) l = [] -> Forall (fun x => x = 48) l.
Proof.
  induction l as [|x l IH]; [constructor|].
  cbn [leading]. destruct (Z.eqb_spec x 48) as [->|Hx]; cbn [drop].
  - intros H. constructor; [reflexivity | exact (IH H)].
  - discriminate.
Qed.

Lemma digits_str_first n dec :
  0 <= n < 10 ^ 9 -> (1 <= leading (digits_str 9 n dec))%nat.
Proof.
  intros Hn. rewrite digits_str_S. cbn [leading].
  change (10 ^ Z.of_nat 9) with (10 ^ 9). rewrite Z.div_small by lia.
  change (0 + 48 =? 48) with true. cbn iota. lia.
Qed.

Lemma buf_set_nul s gap post :
  exists tail,
    buf_set (s ++ gap ++ 0 :: post) (Z.of_nat (length s)) 0
    = Some (s ++ 0 :: tail).
Proof.
  destruct gap as [|g gap]; cbn [app].
  - exists post. apply buf_set_app. reflexivity.
  - eexists. apply buf_set_app. reflexivity.
Qed.

(** The end of [int2asc], after the two loops on the leading zeros. *)
Lemma int2asc_finish fuel i buf s gap post tail :
  int2asc_shift fuel i 0 buf
  = Some (0 + Z.of_nat (length s), ([] ++ s) ++ gap ++ 0 :: post) ->
  buf_set (s ++ gap ++ 0 :: post) (Z.of_nat (length s)) 0
  = Some (s ++ 0 :: tail) ->
  (cb ← int2asc_shift fuel i 0 buf;
   buf ← buf_set (snd cb) (fst cb) 0; Some (fst cb, buf))
  = Some (Z.of_nat (length s), s ++ 0 :: tail).
Proof.
  intros Es Eb. rewrite Es. cbn [mbind option_bind fst snd].
  rewrite Z.add_0_l, app_nil_l, Eb. reflexivity.
Qed.

(** [int2asc] on a number other than 0: the digits without their leading
    zeros, after the sign, and a NUL. *)
Lemma int2asc_spec num dec buf :
  length buf = 16%nat -> num <> 0 -> - 2 ^ 31 < num < 2 ^ 31 ->
  let D := digits_str 9 (Z.abs num) dec in
  let s := (if num <? 0 then [45] else []) ++ drop (leading D) D in
  exists tail,
    int2asc num dec buf 16
    = if (num <? 0) && (leading D =? 0)%nat then None
      else Some (Z.of_nat (length s), s ++ 0 :: tail).
Proof.
  intros Hlen Hnum Hr D s. unfold int2asc.
  destruct (Z.eqb_spec num 0) as [|_]; [contradiction|].
  destruct (Z.eqb_spec num (- 2 ^ 31)) as [|_]; [lia|]. cbv zeta.
  set (n := if num <? 0 then - num else num).
  assert (En : n = Z.abs num) by (unfold n; destruct (Z.ltb_spec num 0); lia).
  clearbody n. subst n. set (n := Z.abs num) in *.
  assert (Hn : 0 < n < 2 ^ 31) by lia.
  (* fill *)
  pose proof (int2asc_fill_app buf [] [] 0 eq_refl) as Ef.
  cbn [app] in Ef. rewrite !app_nil_r, Hlen in Ef.
  change (Z.to_nat 16) with 16%nat. rewrite Ef. cbn [mbind option_bind].
  rewrite length_replicate.
  (* digits *)
  assert (HDlen : (10 <= length D <= 11)%nat).
  { unfold D. rewrite digits_str_length.
    destruct ((1 <=? dec) && (dec <=? Z.of_nat 9)); lia. }
  destruct (int2asc_digits_str 9 n 0 dec [] (replicate 16 0))
    as (xp' & Ed);
    [lia | change (10 ^ Z.of_nat 10) with 10000000000; lia | lia
    | reflexivity | rewrite length_replicate; fold D; lia |].
  fold D in Ed. cbn [app] in Ed.
  change (10 ^ Z.of_nat 9) with 1000000000 in Ed.
  change (Z.of_nat 9) with 9 in Ed.
  rewrite Ed. cbn [mbind option_bind snd].
  rewrite drop_replicate.
  assert (HDc : Forall (fun c => c = 46 \/ 48 <= c <= 57) D).
  { apply digits_str_chars.
    change (10 ^ Z.of_nat 10) with 10000000000. lia. }
  assert (HDz : ~ Forall (fun c => c = 48) D).
  { intros H. apply digits_str_zero in H;
      [lia | change (10 ^ Z.of_nat 10) with 10000000000; lia]. }
  unfold s. clear s Ed. clearbody D.
  (* the leading zeros *)
  destruct (leading_split D) as [HD Hx].
  set (k := leading D) in *.
  destruct (drop k D) as [|x D'] eqn:Edrop.
  { exfalso. apply HDz. apply leading_all. exact Edrop. }
  assert (Hk : (k + S (length D') = length D)%nat).
  { rewrite (f_equal length HD), length_app, length_replicate. reflexivity. }
  assert (HDc' : Forall (fun c => c = 46 \/ 48 <= c <= 57) (x :: D')).
  { rewrite <- Edrop. apply Forall_drop. exact HDc. }
  clear HDc. rename HDc' into HDc.
  destruct (replicate (16 - length D) 0) as [|z Zs] eqn:EZ.
  { apply (f_equal length) in EZ. rewrite length_replicate in EZ.
    cbn in EZ. lia. }
  assert (z = 0) as ->.
  { destruct (16 - length D)%nat; [discriminate|].
    cbn [replicate] in EZ. congruence. }
  clearbody k. subst D.
  rewrite <- !app_assoc. cbn [app].
  pose proof (int2asc_zeros_spec k 17 0 [] x (D' ++ 0 :: Zs) eq_refl Hx
                ltac:(lia)) as Ez.
  cbn [app] in Ez. rewrite Ez. clear Ez.
  cbn [mbind option_bind fst snd app]. rewrite Z.add_0_l.
  assert (Hbytes : forall l, Forall (fun c => c = 46 \/ 48 <= c <= 57) l ->
                     Forall (fun c => c <> 0 /\ 0 <= c < 256) l).
  { intros l H. eapply Forall_impl; [exact H|]. intros c Hc. cbv beta in Hc. lia. }
  destruct (Z.ltb_spec num 0) as [Hneg|Hpos].
  - (* the sign takes the place of the last leading zero *)
    destruct k as [|k']; [exists []; reflexivity|].
    cbn [andb Nat.eqb].
    replace (replicate (S k') 32) with (replicate k' 32 ++ [32])
      by (rewrite <- replicate_S_end; reflexivity).
    rewrite <- app_assoc. cbn [app].
    rewrite (buf_set_app (replicate k' 32) 32 _ _ 45)
      by (rewrite length_replicate; lia).
    cbn [mbind option_bind fst snd]. change (to_uchar 45) with 45.
    destruct (int2asc_shift_spec (45 :: x :: D') 17 [] (replicate k' 32) Zs
                (Z.of_nat (S k') - 1) 0)
      as (gap' & Hg & Es);
      [reflexivity | rewrite length_replicate; cbn [length]; lia
      | constructor; [lia | apply Hbytes; exact HDc]
      | cbn [length] in *; lia |].
    destruct (buf_set_nul (45 :: x :: D') gap' Zs) as (tail & Eb).
    exists tail. exact (int2asc_finish _ _ _ _ _ _ _ Es Eb).
  - cbn [andb].
    destruct (int2asc_shift_spec (x :: D') 17 [] (replicate k 32) Zs
                (Z.of_nat k) 0)
      as (gap' & Hg & Es);
      [reflexivity | rewrite length_replicate; cbn [length]; lia
      | apply Hbytes; exact HDc
      | cbn [length] in *; lia |].
    destruct (buf_set_nul (x :: D') gap' Zs) as (tail & Eb).
    exists tail. exact (int2asc_finish _ _ _ _ _ _ _ Es Eb).
Qed.

Lemma digits_str_nodot c : forall n dec,
  dec < 1 \/ Z.of_nat c < dec -> digits_str c n dec = digits_str c n 0.
Proof.
  induction c as [|c IH]; intros n dec Hd.
  - cbn [digits_str]. cbv zeta.
    destruct (Z.eqb_spec (Z.of_nat 0) dec) as [<-|]; reflexivity.
  - rewrite !digits_str_S. rewrite (IH _ dec) by lia.
    destruct (Z.eqb_spec (Z.of_nat (S c)) dec) as [E|E];
      destruct (Z.eqb_spec dec 0); cbn [andb negb]; try reflexivity; lia.
Qed.

Lemma digits_str_0_S c n :
  digits_str (S c) n 0
  = (n / 10 ^ Z.of_nat (S c) + 48)
      :: digits_str c (n mod 10 ^ Z.of_nat (S c)) 0.
Proof.
  rewrite digits_str_S. change (negb (0 =? 0)) with false.
  rewrite andb_false_r. reflexivity.
Qed.

Lemma digits_str_0_O n : digits_str 0 n 0 = [n + 48].
Proof.
  cbn [digits_str]. cbv zeta. change (10 ^ Z.of_nat 0) with 1.
  rewrite Z.div_1_r. reflexivity.
Qed.

Lemma pow10_S c : 10 ^ Z.of_nat (S c) = 10 * 10 ^ Z.of_nat c.
Proof. rewrite Nat2Z.inj_succ, Z.pow_succ_r by lia. reflexivity. Qed.

Lemma pow10_pos c : 0 < 10 ^ Z.of_nat c.
Proof. apply Z.pow_pos_nonneg; lia. Qed.

Lemma digits_str_digits c : forall n,
  0 <= n < 10 ^ Z.of_nat (S c) ->
  Forall (fun x => 48 <= x <= 57) (digits_str c n 0)
  /\ length (digits_str c n 0) = S c.
Proof.
  induction c as [|c IH]; intros n Hn.
  - rewrite digits_str_0_O. change (10 ^ Z.of_nat 1) with 10 in Hn.
    split; [repeat constructor; lia | reflexivity].
  - rewrite digits_str_0_S. pose proof (pow10_pos (S c)) as Hdd.
    rewrite (pow10_S (S c)) in Hn.
    destruct (IH (n mod 10 ^ Z.of_nat (S c))) as [IH1 IH2];
      [apply Z.mod_pos_bound; lia|].
    split; [|cbn [length]; rewrite IH2; reflexivity].
    constructor; [|exact IH1].
    split; [pose proof (Z.div_pos n _ (proj1 Hn) Hdd); lia|].
    assert (n / 10 ^ Z.of_nat (S c) < 10)
      by (apply Z.div_lt_upper_bound; lia). lia.
Qed.

Lemma digits_str_value c : forall n acc,
  fold_left (fun acc ch => 10 * acc + (ch - 48)) (digits_str c n 0) acc
  = acc * 10 ^ Z.of_nat (S c) + n.
Proof.
  induction c as [|c IH]; intros n acc.
  - rewrite digits_str_0_O. cbn [fold_left].
    change (10 ^ Z.of_nat 1) with 10. lia.
  - rewrite digits_str_0_S. cbn [fold_left]. rewrite IH.
    pose proof (pow10_pos (S c)) as Hdd.
    rewrite (pow10_S (S c)).
    pose proof (Z.div_mod n (10 ^ Z.of_nat (S c)) ltac:(lia)). nia.
Qed.

Lemma dec_value_leading l : dec_value (drop (leading l) l) = dec_value l.
Proof.
  induction l as [|x l IH]; [reflexivity|].
  cbn [leading]. destruct (Z.eqb_spec x 48) as [->|Hx]; [|reflexivity].
  cbn [drop]. rewrite IH. reflexivity.
Qed.

Lemma leading_le l : (leading l <= length l)%nat.
Proof.
  induction l as [|x l IH]; [reflexivity|].
  cbn [leading length]. destruct (x =? 48); lia.
Qed.

Lemma leading_point a b : leading (a ++ 46 :: b) = leading a.
Proof.
  induction a as [|x a IH]; [reflexivity|].
  cbn [app leading]. destruct (x =? 48); [rewrite IH|]; reflexivity.
Qed.

(** With the decimal point after the digit of weight 10^dec: the integer
    part, the point and [dec] digits. *)
Lemma digits_str_point j dec n :
  (1 <= dec)%nat -> 0 <= n ->
  digits_str (j + dec) n (Z.of_nat dec)
  = digits_str j (n / 10 ^ Z.of_nat dec) 0
      ++ 46 :: digits_str (dec - 1) (n mod 10 ^ Z.of_nat dec) 0.
Proof.
  intros Hd. revert n. induction j as [|j IH]; intros n Hn.
  - destruct dec as [|d]; [lia|]. cbn [Nat.add].
    rewrite digits_str_S, digits_str_0_O.
    rewrite Z.eqb_refl.
    destruct (Z.eqb_spec (Z.of_nat (S d)) 0); [lia|]. cbn [andb negb app].
    rewrite digits_str_nodot by lia.
    replace (S d - 1)%nat with d by lia. reflexivity.
  - cbn [Nat.add]. rewrite digits_str_S, digits_str_0_S.
    destruct (Z.eqb_spec (Z.of_nat (S (j + dec))) (Z.of_nat dec)); [lia|].
    cbn [andb app].
    pose proof (pow10_pos dec) as Hp. pose proof (pow10_pos (S j)) as Hq.
    assert (Hpow : 10 ^ Z.of_nat (S (j + dec))
                   = 10 ^ Z.of_nat dec * 10 ^ Z.of_nat (S j)).
    { rewrite <- Z.pow_add_r by lia. f_equal. lia. }
    rewrite IH by (apply Z.mod_pos_bound; apply pow10_pos).
    rewrite Hpow, Z.rem_mul_r by lia.
    rewrite <- Z.div_div by lia.
    replace ((n mod 10 ^ Z.of_nat dec
              + 10 ^ Z.of_nat dec * ((n / 10 ^ Z.of_nat dec)
                                       mod 10 ^ Z.of_nat (S j)))
             / 10 ^ Z.of_nat dec)
      with ((n / 10 ^ Z.of_nat dec) mod 10 ^ Z.of_nat (S j)).
    2:{ rewrite Z.add_comm, Z.mul_comm, Z.div_add_l by lia.
        rewrite (Z.div_small (n mod _)) by (apply Z.mod_pos_bound; lia).
        lia. }
    replace ((n mod 10 ^ Z.of_nat dec
              + 10 ^ Z.of_nat dec * ((n / 10 ^ Z.of_nat dec)
                                       mod 10 ^ Z.of_nat (S j)))
             mod 10 ^ Z.of_nat dec)
      with (n mod 10 ^ Z.of_nat dec).
    2:{ rewrite (Z.mul_comm (10 ^ Z.of_nat dec)), Z_mod_plus_full.
        rewrite Z.mod_mod by lia. reflexivity. }
    reflexivity.
Qed.

End Int2asc.

(** X23.  [int2asc] without a decimal point (dec <= 0 or dec > 9), for a
    positive [long] and a 16-byte buffer: the buffer starts with the
    decimal digits of the number without leading zero, followed by NUL;
    the value returned is the number of digits, and it is what [strlen]
    gives on the buffer and what [lcd_putnumber] takes as its length. *)
Theorem int2asc_decimal num dec buf :
  length buf = 16%nat -> 0 < num < 2 ^ 31 -> dec <= 0 \/ 9 < dec ->
  exists s tail,
    int2asc num dec buf 16 = Some (Z.of_nat (length s), s ++ 0 :: tail)
    /\ Forall (fun ch => 48 <= ch <= 57) s
    /\ hd 0 s <> 48
    /\ dec_value s = num
    /\ strlen (s ++ 0 :: tail) = Some (Z.of_nat (length s))
    /\ lcd_putnumber_slen num dec buf = Some (Z.of_nat (length s)).
Proof.
  intros Hlen Hnum Hdec.
  destruct (int2asc_spec num dec buf Hlen ltac:(lia) ltac:(lia)) as (tail & E).
  cbv zeta in E. destruct (Z.ltb_spec num 0) as [|_]; [lia|].
  cbn [andb app] in E. rewrite Z.abs_eq in E by lia.
  rewrite digits_str_nodot in E by (change (Z.of_nat 9) with 9; lia).
  set (D := digits_str 9 num 0) in *.
  assert (Hn10 : 0 <= num < 10 ^ Z.of_nat 10)
    by (change (10 ^ Z.of_nat 10) with 10000000000; lia).
  destruct (digits_str_digits 9 num Hn10) as [HDd _]. fold D in HDd.
  assert (Hs : Forall (fun ch => 48 <= ch <= 57) (drop (leading D) D))
    by (apply Forall_drop; exact HDd).
  assert (Hs0 : Forall (fun x => x <> 0) (drop (leading D) D)).
  { eapply Forall_impl; [exact Hs|]. intros c Hc. cbv beta in Hc. lia. }
  exists (drop (leading D) D), tail.
  split; [exact E|]. split; [exact Hs|]. split.
  - destruct (leading_split D) as [_ Hx].
    destruct (drop (leading D) D); cbn [hd]; [lia | exact Hx].
  - split.
    + rewrite dec_value_leading. unfold D, dec_value.
      rewrite digits_str_value. lia.
    + split; [apply strlen_spec; exact Hs0|].
      unfold lcd_putnumber_slen. rewrite E. cbn [mbind option_bind snd].
      apply strlen_spec. exact Hs0.
Qed.

(** 7120000, as the frequency display prints it. *)
Lemma int2asc_decimal_witness :
  exists tail,
    int2asc 7120000 (-1) (replicate 16 0xA5) 16
    = Some (7, [55; 49; 50; 48; 48; 48; 48] ++ 0 :: tail)
    /\ dec_value [55; 49; 50; 48; 48; 48; 48] = 7120000.
Proof.
  destruct (int2asc_decimal 7120000 (-1) (replicate 16 0xA5))
    as (s & tail & E & _ & _ & Hv & _); [reflexivity | lia | lia |].
  eexists. split; [vm_compute; reflexivity | reflexivity].
Defined.

(** X24.  [int2asc] with 1 <= dec <= 9, for a positive [long]: the buffer
    holds the digits of the integer part num / 10^dec without leading
    zero (none at all when it is zero: 5 with dec = 1 reads .5), a point,
    exactly [dec] digits of num mod 10^dec, and NUL; the value returned
    counts the point. *)
Theorem int2asc_point num dec buf :
  length buf = 16%nat -> 0 < num < 2 ^ 31 -> 1 <= dec <= 9 ->
  exists ip fp tail,
    int2asc num dec buf 16
    = Some (Z.of_nat (length (ip ++ 46 :: fp)), (ip ++ 46 :: fp) ++ 0 :: tail)
    /\ Forall (fun ch => 48 <= ch <= 57) ip
    /\ Forall (fun ch => 48 <= ch <= 57) fp
    /\ Z.of_nat (length fp) = dec
    /\ hd 0 ip <> 48
    /\ dec_value ip = num / 10 ^ dec
    /\ dec_value fp = num mod 10 ^ dec.
Proof.
  intros Hlen Hnum Hdec.
  destruct (int2asc_spec num dec buf Hlen ltac:(lia) ltac:(lia)) as (tail & E).
  cbv zeta in E. destruct (Z.ltb_spec num 0) as [|_]; [lia|].
  cbn [andb app] in E. rewrite Z.abs_eq in E by lia.
  set (d := Z.to_nat dec). set (j := (9 - d)%nat).
  assert (Ed : dec = Z.of_nat d) by (unfold d; lia).
  assert (E9 : 9%nat = (j + d)%nat) by (unfold j, d; lia).
  clearbody j. clearbody d. subst dec.
  rewrite E9 in E. rewrite digits_str_point in E by lia.
  pose proof (pow10_pos d) as Hp.
  set (hi := num / 10 ^ Z.of_nat d) in *.
  set (lo := num mod 10 ^ Z.of_nat d) in *.
  assert (Hhi : 0 <= hi < 10 ^ Z.of_nat (S j)).
  { unfold hi. split; [apply Z.div_pos; lia|].
    apply Z.div_lt_upper_bound; [lia|].
    rewrite <- Z.pow_add_r by lia.
    replace (Z.of_nat d + Z.of_nat (S j)) with 10 by lia. lia. }
  assert (Hlo : 0 <= lo < 10 ^ Z.of_nat (S (d - 1))).
  { replace (S (d - 1)) with d by lia. apply Z.mod_pos_bound. lia. }
  destruct (digits_str_digits j hi Hhi) as [Hid _].
  destruct (digits_str_digits (d - 1) lo Hlo) as [Hfd Hfl].
  set (ip10 := digits_str j hi 0) in *.
  set (fp := digits_str (d - 1) lo 0) in *.
  rewrite leading_point in E.
  rewrite drop_app_le in E by apply leading_le.
  exists (drop (leading ip10) ip10), fp, tail.
  split; [exact E|]. split; [apply Forall_drop; exact Hid|].
  split; [exact Hfd|]. split; [rewrite Hfl; lia|]. split.
  - destruct (leading_split ip10) as [_ Hx].
    destruct (drop (leading ip10) ip10); cbn [hd]; [lia | exact Hx].
  - split.
    + rewrite dec_value_leading. unfold ip10, dec_value.
      rewrite digits_str_value. lia.
    + unfold fp, dec_value. rewrite digits_str_value. lia.
Qed.

(** 119 tenths of a volt: 11.9. *)
Lemma int2asc_point_witness :
  exists tail,
    int2asc 119 1 (replicate 16 0) 16
    = Some (4, ([49; 49] ++ 46 :: [57]) ++ 0 :: tail)
    /\ dec_value [49; 49] = 119 / 10 ^ 1 /\ dec_value [57] = 119 mod 10 ^ 1.
Proof.
  destruct (int2asc_point 119 1 (replicate 16 0))
    as (ip & fp & tail & E & _); [reflexivity | lia | lia |].
  eexists. split; [vm_compute; reflexivity|]. split; reflexivity.
Defined.

(** X25.  [int2asc] on a negative [long]: above -10^9 the buffer is a
    minus sign followed by what the function writes for -num, and the
    length is one more; from -10^9 down the ten-digit field has no
    leading zero to take the sign, which the function then writes before
    the start of the buffer (undefined in C, no result here). *)
Theorem int2asc_negative num dec buf :
  length buf = 16%nat -> - 2 ^ 31 <= num < 0 ->
  if - 10 ^ 9 <? num
  then exists s tail tail',
         int2asc (- num) dec buf 16
         = Some (Z.of_nat (length s), s ++ 0 :: tail)
         /\ int2asc num dec buf 16
            = Some (Z.of_nat (length s) + 1, (45 :: s) ++ 0 :: tail')
  else int2asc num dec buf 16 = None.
Proof.
  intros Hlen Hnum.
  destruct (Z.eq_dec num (- 2 ^ 31)) as [->|Hmin]; [reflexivity|].
  destruct (int2asc_spec num dec buf Hlen ltac:(lia) ltac:(lia)) as (tail' & E).
  cbv zeta in E. destruct (Z.ltb_spec num 0) as [_|]; [|lia].
  cbn [andb app] in E.
  destruct (Z.ltb_spec (- 10 ^ 9) num) as [Hsmall|Hbig].
  - destruct (int2asc_spec (- num) dec buf Hlen ltac:(lia) ltac:(lia))
      as (tail & E2).
    cbv zeta in E2. destruct (Z.ltb_spec (- num) 0) as [|_]; [lia|].
    cbn [andb app] in E2.
    replace (Z.abs (- num)) with (Z.abs num) in E2 by lia.
    pose proof (digits_str_first (Z.abs num) dec ltac:(lia)) as Hk.
    destruct (Nat.eqb_spec (leading (digits_str 9 (Z.abs num) dec)) 0)
      as [E0|_]; [lia|].
    eexists _, tail, tail'. split; [exact E2|].
    rewrite E. cbn [length]. f_equal. f_equal. lia.
  - assert (Hk : leading (digits_str 9 (Z.abs num) dec) = 0%nat).
    { rewrite digits_str_S. cbn [leading].
      change (10 ^ Z.of_nat 9) with (10 ^ 9).
      assert (1 <= Z.abs num / 10 ^ 9)
        by (apply Z.div_le_lower_bound; lia).
      destruct (Z.eqb_spec (Z.abs num / 10 ^ 9 + 48) 48); [lia|].
      reflexivity. }
    rewrite Hk in E. exact E.
Qed.

(** -92 and -10^9. *)
Lemma int2asc_negative_witness :
  (exists tail',
     int2asc (-92) (-1) (replicate 16 0) 16
     = Some (3, (45 :: [57; 50]) ++ 0 :: tail'))
  /\ int2asc (-1000000000) (-1) (replicate 16 0) 16 = None.
Proof.
  split.
  - pose proof (int2asc_negative (-92) (-1) (replicate 16 0)
                  eq_refl ltac:(lia)) as H.
    cbn [Z.ltb Z.compare Z.pow Z.opp] in H.
    destruct H as (s & tail & tail' & _ & E).
    eexists. vm_compute. reflexivity.
  - exact (int2asc_negative (-1000000000) (-1) (replicate 16 0)
             eq_refl ltac:(lia)).
Defined.

(** ** The EEPROM layout *)

Section Layout.

Lemma log_ok_same r r' : log r' = log r -> log_ok r -> log_ok r'.
Proof. unfold log_ok. intros ->. tauto. Qed.

Lemma log_set_runsecs_msg a r : log (set_runsecs_msg a r) = log r.
Proof. reflexivity. Qed.

Lemma log_set_f_lo a r : log (set_f_lo a r) = log r.
Proof. reflexivity. Qed.

Lemma log_set_tuning a r : log (set_tuning a r) = log r.
Proof. reflexivity. Qed.

Lemma log_set_f_vfo a r : log (set_f_vfo a r) = log r.
Proof. reflexivity. Qed.

Lemma log_ok_emit e r : layout_ok e -> log_ok r -> log_ok (emit e r).
Proof. intros He Hr. unfold log_ok, emit. radio_simpl. constructor; assumption. Qed.

Lemma log_ok_eeprom_write a v r :
  128 <= a <= 199 \/ a = 256 \/ a = 257 ->
  log_ok r -> log_ok (eeprom_write a v r).
Proof.
  intros Ha Hr. unfold eeprom_write. cbv zeta. apply log_ok_emit.
  - cbn. unfold to_u16. rewrite Z.mod_small by lia.
    pose proof (to_uchar_range v). lia.
  - revert Hr. apply log_ok_same. reflexivity.
Qed.

Lemma log_ok_store band vfo f r :
  0 <= band <= 8 -> 0 <= vfo <= 1 ->
  log_ok r -> log_ok (eeprom_store_frequency band vfo f r).
Proof.
  intros Hb Hv Hr. rewrite eeprom_store_frequency_store4.
  rewrite to_long_id by lia.
  destruct (store_bytes f) as [[[b3 b2] b1] b0]. unfold store4.
  repeat apply log_ok_eeprom_write; try lia. exact Hr.
Qed.

Lemma log_ok_save r : log_ok r -> log_ok (save_all_vfos r).
Proof.
  intros Hr. unfold save_all_vfos. cbv zeta.
  apply log_ok_eeprom_write; [lia|].
  apply (for_loop_ind (fun i s => 0 <= i -> log_ok s) 8 0);
    [intros _; exact Hr | | lia].
  intros i s Hi Hs _.
  apply (for_loop_ind (fun j u => 0 <= j -> log_ok u) 2 0);
    [intros _; apply Hs; lia | | lia].
  intros j u Hj Hu _. apply log_ok_store; [lia | lia | apply Hu; lia].
Qed.

Lemma log_ok_wrote r w r' : dds_wrote r w r' -> log_ok r -> log_ok r'.
Proof.
  intros -> Hr. unfold log_ok. radio_simpl. apply Forall_app. split; [|exact Hr].
  apply Forall_rev. apply Forall_map. apply Forall_true. intros x. exact I.
Qed.

Lemma log_ok_set_frequency f r : log_ok r -> log_ok (set_frequency f r).
Proof.
  destruct (set_frequency_wrote f r) as (w & Hw). exact (log_ok_wrote _ _ _ Hw).
Qed.

Lemma log_ok_relay_odr f r : log_ok r -> log_ok (relay_odr f r).
Proof.
  intros Hr. unfold relay_odr. cbv zeta. apply log_ok_emit; [exact I|].
  revert Hr. apply log_ok_same. reflexivity.
Qed.

Lemma log_ok_set_band_relay b r : log_ok r -> log_ok (set_band_relay b r).
Proof.
  intros Hr. unfold set_band_relay. cbv zeta.
  unfold show_sideband, si5351_set_freq.
  apply log_ok_emit; [exact I|]. apply log_ok_emit; [exact I|].
  apply (for_loop_ind (fun _ s => log_ok s) 3 0); [exact Hr|].
  intros i s _ Hs.
  destruct (Z.land (Z.shiftl 1 i) b =? 0); apply log_ok_relay_odr; exact Hs.
Qed.

Lemma log_ok_TIM2 r : log_ok r -> log_ok (TIM2_IRQHandler r).
Proof. apply log_ok_same. reflexivity. Qed.

Lemma log_ok_EXTI0 idr r : log_ok r -> log_ok (EXTI0_IRQHandler idr r).
Proof.
  intros Hr. unfold EXTI0_IRQHandler. cbv zeta.
  assert (H : log_ok (emit (GpiocOdr (Z.lxor (gpioc_odr r) (Z.shiftl 1 13)))
                        (set_gpioc_odr
                           (Z.lxor (gpioc_odr r) (Z.shiftl 1 13)) r))).
  { apply log_ok_emit; [exact I|]. revert Hr. apply log_ok_same. reflexivity. }
  destruct (Z.land (Z.land (to_u16 idr) 3) 1 =? 0); [exact H|].
  destruct (Z.land (Z.land (to_u16 idr) 3) 2 =? 0);
    (revert H; apply log_ok_same; reflexivity).
Qed.

Lemma log_ok_await_adc ins r v r' :
  log_ok r -> await_adc ins r = Some (v, r') -> log_ok r'.
Proof.
  revert r. induction ins as [|i ins IH]; intros r H0 H; [discriminate|].
  destruct i as [dr|idr|]; cbn [await_adc] in H.
  - injection H as _ <-. revert H0. apply log_ok_same. reflexivity.
  - apply (IH _ (log_ok_EXTI0 idr r H0) H).
  - apply (IH _ (log_ok_TIM2 r H0) H).
Qed.

Lemma log_ok_get_keys_sample fuel secs0 adcval1 adcvalcnt r s r' :
  log_ok r ->
  get_keys_sample fuel secs0 adcval1 adcvalcnt r = Some (s, r') ->
  log_ok r'.
Proof.
  revert adcval1 adcvalcnt r.
  induction fuel as [|fuel IH]; intros adcval1 adcvalcnt r H0 H; [discriminate|].
  cbn [get_keys_sample] in H. unfold bind, get_adc in H.
  destruct (await_adc (pending r) r) as [[held r1]|] eqn:E1; [|discriminate].
  apply log_ok_await_adc in E1; [|exact H0].
  destruct (held <=? 4000).
  - destruct (await_adc (pending r1) r1) as [[a r2]|] eqn:E2; [|discriminate].
    apply log_ok_await_adc in E2; [|exact E1].
    unfold gets, lift in H.
    refine (IH _ _ _ _ H). apply log_ok_emit; [exact I | exact E2].
  - injection H as _ <-. exact E1.
Qed.

Lemma log_ok_get_keys_match n t1 adcval0 secs0 r :
  log_ok r -> log_ok (snd (get_keys_match n t1 adcval0 secs0 r)).
Proof.
  intros H0. revert t1. induction n as [|n IH]; intros t1; [exact H0|].
  cbn [get_keys_match].
  destruct ((idx key_value t1 - 100 <? adcval0)
            && (adcval0 <? idx key_value t1 + 100)); [|apply IH].
  cbv zeta.
  match goal with |- context [if ?c then _ else _] => destruct c end;
    cbn [snd]; (apply log_ok_emit; [exact I|]);
    (apply (log_ok_same (emit (LcdPutstring (calc_xpos 0) (calc_ypos 6)
                                 "KEY:    " WHITE backcolor 1 1) r));
     [reflexivity | apply log_ok_emit; [exact I | exact H0]]).
Qed.

Lemma log_ok_get_keys r key r' :
  log_ok r -> get_keys r = Some (key, r') -> log_ok r'.
Proof.
  unfold get_keys, bind, gets, get_adc. intros H0 H.
  destruct (await_adc (pending r) r) as [[a0 r1]|] eqn:E1; [|discriminate].
  apply log_ok_await_adc in E1; [|exact H0].
  destruct (4000 <? a0).
  - injection H as _ <-. exact E1.
  - destruct (get_keys_sample _ _ 0 0 r1) as [[s r2]|] eqn:E2; [|discriminate].
    apply log_ok_get_keys_sample in E2; [|exact E1].
    destruct (snd s =? 0); [discriminate|].
    cbv beta zeta in H.
    match type of H with Some (get_keys_match ?n ?t ?a ?c ?x) = _ =>
      pose proof (log_ok_get_keys_match n t a c x E2) as Hm;
      destruct (get_keys_match n t a c x) as [k x']
    end.
    injection H as _ <-. exact Hm.
Qed.

Lemma log_ok_set_lo_release fuel r u r' :
  log_ok r -> set_lo_release fuel r = Some (u, r') -> log_ok r'.
Proof.
  revert r. induction fuel as [|fuel IH]; intros r H0 H; [discriminate|].
  cbn [set_lo_release] in H. unfold bind in H.
  destruct (get_keys r) as [[key r1]|] eqn:E1; [|discriminate].
  apply log_ok_get_keys in E1; [|exact H0].
  destruct (key =? -1).
  - injection H as _ <-. exact E1.
  - exact (IH _ E1 H).
Qed.

Lemma log_ok_set_lo_tune fuel key f_lo_tmp r kf r' :
  log_ok r -> set_lo_tune fuel key f_lo_tmp r = Some (kf, r') -> log_ok r'.
Proof.
  revert key f_lo_tmp r.
  induction fuel as [|fuel IH]; intros key f_lo_tmp r H0 H; [discriminate|].
  cbn [set_lo_tune] in H.
  destruct ((key =? 6) || (key =? 7)).
  - injection H as _ <-. exact H0.
  - unfold bind, gets, lift, ret in H. cbv beta zeta in H.
    destruct (tuning r =? 0);
      match type of H with
      | match get_keys ?x with _ => _ end = _ =>
          assert (E0 : log_ok x)
            by (first
                  [ exact H0
                  | refine (log_ok_same _ _ (log_set_tuning _ _) _);
                    unfold si5351_set_freq, show_frequency1;
                    repeat (apply log_ok_emit; [exact I|]); exact H0 ]);
          destruct (get_keys x) as [[key' r1]|] eqn:E1; [|discriminate];
          apply log_ok_get_keys in E1; [|exact E0]
      end;
      exact (IH _ _ _ E1 H).
Qed.

Lemma log_ok_set_lo sb r key r' :
  0 <= sb <= 1 -> log_ok r -> set_lo sb r = Some (key, r') -> log_ok r'.
Proof.
  unfold set_lo, bind, gets, lift, ret. intros Hsb H0 H.
  match type of H with
  | match set_lo_release ?f ?x with _ => _ end = _ =>
      assert (E0 : log_ok x)
        by (unfold show_sideband, show_frequency1;
            repeat (apply log_ok_emit; [exact I|]); exact H0);
      destruct (set_lo_release f x) as [[u r1]|] eqn:E1; [|discriminate];
      apply log_ok_set_lo_release in E1; [|exact E0]
  end.
  destruct (get_keys r1) as [[k r2]|] eqn:E2; [|discriminate].
  apply log_ok_get_keys in E2; [|exact E1].
  destruct (set_lo_tune _ k _ r2) as [[kf r3]|] eqn:E3; [|discriminate].
  apply log_ok_set_lo_tune in E3; [|exact E2].
  cbv zeta in H.
  destruct (fst kf =? 6); [|destruct (fst kf =? 7)]; injection H as _ <-.
  - refine (log_ok_same _ _ (log_set_runsecs_msg _ _) _).
    unfold show_msg, si5351_set_freq.
    repeat (apply log_ok_emit; [exact I|]). exact E3.
  - refine (log_ok_same _ _ (log_set_runsecs_msg _ _) _).
    unfold show_msg. apply log_ok_emit; [exact I|].
    apply log_ok_store; [lia | lia |].
    refine (log_ok_same _ _ (log_set_f_lo _ _) _). exact E3.
  - exact E3.
Qed.

Lemma log_ok_main_tune r : log_ok r -> log_ok (main_tune r).
Proof.
  intros H0. unfold main_tune. destruct (tuning r =? 0); [exact H0|].
  cbv zeta.
  refine (log_ok_same _ _ (log_set_tuning _ _) _).
  unfold show_frequency1. apply log_ok_emit; [exact I|].
  apply log_ok_set_frequency.
  refine (log_ok_same _ _ (log_set_f_vfo _ _) _). exact H0.
Qed.

Lemma log_ok_main_band_changed r :
  log_ok r -> log_ok (main_band_changed r).
Proof.
  intros H0. unfold main_band_changed. cbv zeta.
  apply log_ok_eeprom_write; [lia|].
  apply log_ok_set_band_relay.
  unfold show_band, show_frequency1.
  do 3 (apply log_ok_emit; [exact I|]).
  apply log_ok_set_frequency. exact H0.
Qed.

Lemma log_ok_main_switch key r r' :
  log_ok r -> main_switch key r = Some (tt, r') -> log_ok r'.
Proof.
  intros H0 H.
  assert (Hlift : forall f, lift f r = Some (tt, r') -> r' = f r).
  { intros f Hf. unfold lift in Hf. congruence. }
  assert (Hlo : forall sb, 0 <= sb <= 1 ->
             (let* _ := set_lo sb in
              lift (fun r =>
                let r := show_frequency1
                           (idx2 (f_vfo r) (cur_band r) (cur_vfo r)) 2 r in
                show_sideband (sideband r) 0 r)) r = Some (tt, r') ->
             log_ok r').
  { intros sb Hsb Hs. unfold bind, lift in Hs.
    destruct (set_lo sb r) as [[k r1]|] eqn:E1; [|discriminate].
    apply (log_ok_set_lo sb r k r1 Hsb H0) in E1.
    injection Hs as <-. unfold show_sideband, show_frequency1.
    repeat (apply log_ok_emit; [exact I|]). exact E1. }
  assert (Hcur : forall x, log_ok (set_cur_band x r)).
  { intros x. revert H0. apply log_ok_same. reflexivity. }
  destruct (main_switch_cases key)
    as [->|[->|[->|[->|[->|[->|[->|E]]]]]]].
  - apply Hlift in H. subst r'.
    destruct (cur_band r <? MAXBANDS - 1); [|exact H0].
    apply log_ok_main_band_changed, Hcur.
  - apply Hlift in H. subst r'. cbv zeta. unfold show_sideband.
    apply log_ok_emit; [exact I|]. revert H0. apply log_ok_same. reflexivity.
  - apply Hlift in H. subst r'. cbv zeta. unfold show_frequency1.
    apply log_ok_emit; [exact I|]. apply log_ok_set_frequency.
    unfold show_vfo. apply log_ok_emit; [exact I|].
    apply log_ok_eeprom_write; [lia|].
    revert H0. apply log_ok_same. reflexivity.
  - apply Hlift in H. subst r'.
    destruct (0 <? cur_band r); [|exact H0].
    apply log_ok_main_band_changed, Hcur.
  - apply Hlift in H. subst r'. cbv zeta.
    refine (log_ok_same _ _ (log_set_runsecs_msg _ _) _).
    unfold show_msg. apply log_ok_emit; [exact I|].
    apply log_ok_save. exact H0.
  - exact (Hlo 0 ltac:(lia) H).
  - exact (Hlo 1 ltac:(lia) H).
  - rewrite E in H. unfold ret in H. injection H as <-. exact H0.
Qed.

Lemma log_ok_main_step r r' :
  log_ok r -> main_step r = Some (tt, r') -> log_ok r'.
Proof.
  intros H0 H. unfold main_step, bind, lift in H.
  destruct (get_keys (main_tune r)) as [[key r1]|] eqn:E1; [|discriminate].
  apply log_ok_get_keys in E1; [|apply log_ok_main_tune; exact H0].
  exact (log_ok_main_switch key r1 r' E1 H).
Qed.

Lemma log_ok_main_load r :
  rows 8 2 (f_vfo r) -> length (f_lo r) = 2%nat ->
  log_ok r -> log_ok (main_load r).
Proof.
  intros Hrows Hlen H0. unfold main_load. cbv zeta.
  assert (H1 : log_ok (main_load_last r)
               /\ rows 8 2 (f_vfo (main_load_last r))
               /\ length (f_lo (main_load_last r)) = 2%nat).
  { rewrite main_load_last_spec. split; [|split; assumption].
    revert H0. apply log_ok_same. reflexivity. }
  destruct H1 as (H1 & Hrows1 & Hlen1).
  destruct (load_all_vfos_spec _ Hrows1) as (tbl & E & _). rewrite E.
  set (r2 := set_sideband _ _).
  assert (H2 : log_ok r2 /\ length (f_lo r2) = 2%nat).
  { split; [|exact Hlen1]. revert H1. apply log_ok_same. reflexivity. }
  clearbody r2.
  assert (H3 : log_ok (for_loop 2 0 main_load_lo r2)).
  { refine (proj1 (for_loop_ind
                     (fun i s => log_ok s /\ length (f_lo s) = 2%nat)
                     2 0 main_load_lo r2 H2 _)).
    intros i s Hi [Hs Hl].
    destruct (main_load_lo_spec i s Hl ltac:(lia)) as (lo & -> & Hlo & _).
    split; [|exact Hlo]. apply log_ok_emit; [exact I|].
    revert Hs. apply log_ok_same. reflexivity. }
  unfold main_screen. cbv zeta.
  unfold show_sideband at 1. unfold show_frequency1, show_vfo, show_band.
  do 4 (apply log_ok_emit; [exact I|]).
  apply log_ok_set_band_relay. exact H3.
Qed.

Lemma running_log_ok r : running r -> log_ok r.
Proof.
  induction 1 as [ee ins | r r' _ IH H].
  - apply log_ok_main_load;
      [apply power_on_rows | apply power_on_f_lo | constructor].
  - exact (log_ok_main_step r r' IH H).
Qed.

End Layout.



(** ** Power cycles, the VFO key, one byte to the DDS *)

(** X1.  [save_all_vfos] followed by a reload gives every VFO back: both
    [load_all_vfos] on the spot and the start-up after a power cycle (any
    inputs) set [f_vfo[b][v]] to the value it had when saved if that value
    is inside the band b, and to the factory default otherwise. *)
Theorem save_all_vfos_restart r ins b v :
  rows 8 2 (f_vfo r) -> 0 <= b <= 7 -> 0 <= v <= 1 ->
  let f := idx2 (f_vfo r) b v in
  - 2 ^ 31 <= f < 2 ^ 31 ->
  let kept := if (idx band_f0 b <=? f) && (f <=? idx band_f1 b)
              then f else idx2 f_vfo0 b v in
  idx2 (f_vfo (load_all_vfos (save_all_vfos r))) b v = kept
  /\ idx2 (f_vfo (main_load (power_on (eeprom (save_all_vfos r)) ins))) b v
     = kept.
Proof.
  intros Hrows Hb Hv f Hf kept.
  destruct (save_all_vfos_saved r) as (s & E & Hfv & Hc & Hout & Hdone).
  assert (Hload : forall x,
             eeprom x = eeprom (save_all_vfos r) ->
             vfo_checked x b v = kept).
  { intros x Hx. unfold vfo_checked. cbv zeta.
    rewrite (load_frequency_frame b v _ _ Hx).
    rewrite E, eeprom_load_frequency_write by lia.
    rewrite Hdone by lia. fold f. rewrite (to_long_id f) by exact Hf.
    unfold is_freq_ok, kept.
    destruct ((idx band_f0 b <=? f) && (f <=? idx band_f1 b)); reflexivity. }
  split.
  - assert (Hrows' : rows 8 2 (f_vfo (save_all_vfos r))).
    { rewrite E. cbn [eeprom_write f_vfo set_eeprom emit set_log].
      rewrite Hfv. exact Hrows. }
    destruct (load_all_vfos_spec _ Hrows') as (tbl & -> & _ & Htbl).
    cbn [f_vfo set_f_vfo]. rewrite Htbl by lia. apply Hload. reflexivity.
  - set (r0 := power_on (eeprom (save_all_vfos r)) ins).
    destruct (main_load_spec r0 (power_on_rows _ ins) (power_on_f_lo _ ins))
      as (lo & tbl & g & l & -> & Htbl & _).
    cbn [f_vfo]. rewrite Htbl by lia. apply Hload. reflexivity.
Qed.

(** A VFO tuned inside its band and one left outside. *)
Lemma save_all_vfos_restart_witness :
  let r := set_f_vfo (upd2 (upd2 f_vfo0 2 0 7123456) 3 1 999)
             (main_load (power_on ∅ [])) in
  idx2 (f_vfo (main_load (power_on (eeprom (save_all_vfos r)) []))) 2 0
  = 7123456
  /\ idx2 (f_vfo (main_load (power_on (eeprom (save_all_vfos r)) []))) 3 1
     = 14280000.
Proof.
  intros r. split.
  - refine (eq_trans (proj2 (save_all_vfos_restart r [] 2 0 _ _ _ _)) _);
      [repeat constructor | lia | lia | vm_compute; split; congruence
      | reflexivity].
  - refine (eq_trans (proj2 (save_all_vfos_restart r [] 3 1 _ _ _ _)) _);
      [repeat constructor | lia | lia | vm_compute; split; congruence
      | reflexivity].
Defined.

(** X4.  An LO value stored by the calibration dialogue (key 7) survives a
    power cycle: the start-up sets [f_lo[sb]] to the stored value if it is
    within 10 MHz +- 3000 Hz, and to the default of the sideband if the
    operator tuned it out of this window. *)
Theorem set_lo_restart sb r r' ins :
  0 <= sb <= 1 -> set_lo sb r = Some (7, r') ->
  let f := to_long (idx (f_lo r') sb) in
  idx (f_lo (main_load (power_on (eeprom r') ins))) sb
  = if (INTERFREQUENCY - 3000 <=? f) && (f <=? INTERFREQUENCY + 3000)
    then f else INTERFREQUENCY + 1500 * (2 * sb - 1).
Proof.
  intros Hsb H f.
  destruct (set_lo_spec sb r 7 r' H) as (r1 & x & _ & [[E _]|[_ E]]);
    [discriminate|].
  assert (El : eeprom_load_frequency 8 sb r' = f).
  { unfold f. rewrite E.
    pose proof (eeprom_show_msg (runsecs r1) "Stored." LIGHTGREEN
                  (eeprom_store_frequency 8 sb
                     (idx (upd (f_lo r1) sb x) sb)
                     (set_f_lo (upd (f_lo r1) sb x) r1))) as Hee.
    rewrite (load_frequency_frame _ _ _ _ Hee).
    rewrite eeprom_load_store by lia.
    destruct (eeprom_store_frequency_frame 8 sb
                (idx (upd (f_lo r1) sb x) sb)
                (set_f_lo (upd (f_lo r1) sb x) r1)) as (e & l & ->).
    unfold show_msg. radio_simpl. reflexivity. }
  set (r0 := power_on (eeprom r') ins).
  destruct (main_load_spec r0 (power_on_rows _ ins) (power_on_f_lo _ ins))
    as (lo & tbl & g & l & -> & _ & Hlo & _).
  cbn [f_lo]. rewrite Hlo by lia. unfold lo_checked. cbv zeta.
  rewrite (load_frequency_frame 8 sb r' r0) by reflexivity.
  rewrite El. unfold INTERFREQUENCY.
  destruct (Z.ltb_spec f (10000000 - 3000));
    destruct (Z.ltb_spec (10000000 + 3000) f);
    destruct (Z.leb_spec (10000000 - 3000) f);
    destruct (Z.leb_spec f (10000000 + 3000));
    cbn [orb andb]; try lia; try reflexivity;
    rewrite to_long_id by lia; lia.
Qed.

(** The LO of the upper sideband tuned one step up and stored. *)
Lemma set_lo_restart_witness :
  let r := set_pending [Adc 4095; Exti0 3; Adc 4095; Adc 735; Adc 735;
                        Adc 735; Tim2; Tim2; Adc 4095]
             (main_load (power_on ∅ [])) in
  exists r', set_lo 1 r = Some (7, r')
             /\ idx (f_lo (main_load (power_on (eeprom r') []))) 1 = 10001501.
Proof.
  intros r. eexists. split; [vm_compute; reflexivity|].
  match goal with |- idx (f_lo (main_load (power_on (eeprom ?x) []))) 1 = _ =>
    set (r' := x)
  end.
  rewrite (set_lo_restart 1 r r' []); [vm_compute; reflexivity | lia |].
  vm_compute. reflexivity.
Defined.

(** X11.  The VFO key (code 2) toggles between the two VFOs and writes
    the selection to the EEPROM each time; pressed twice it is back on
    the first VFO, with the frequency table and the band as they were. *)
Theorem vfo_key_twice r r1 r2 :
  0 <= cur_vfo r <= 1 ->
  main_switch 2 r = Some (tt, r1) -> main_switch 2 r1 = Some (tt, r2) ->
  cur_vfo r1 = 1 - cur_vfo r /\ eeprom_read 257 r1 = cur_vfo r1
  /\ cur_vfo r2 = cur_vfo r /\ eeprom_read 257 r2 = cur_vfo r
  /\ f_vfo r2 = f_vfo r /\ cur_band r2 = cur_band r.
Proof.
  intros Hv H1 H2.
  assert (Hkey : forall x y, 0 <= cur_vfo x <= 1 ->
             main_switch 2 x = Some (tt, y) ->
             cur_vfo y = 1 - cur_vfo x /\ eeprom_read 257 y = cur_vfo y
             /\ f_vfo y = f_vfo x /\ cur_band y = cur_band x).
  { intros x y Hx H.
    assert (Hlift : forall f (a b : radio), lift f a = Some (tt, b) -> b = f a)
      by (intros f a b Hf; unfold lift in Hf; congruence).
    apply Hlift in H. subst y. cbv beta zeta.
    match goal with |- context [set_frequency ?f ?s] =>
      destruct (set_frequency_frame f s) as (g & l & ->)
    end.
    unfold show_frequency1, show_vfo, eeprom_write. cbv zeta.
    set (cv := c_not (cur_vfo x)).
    assert (Hcv : cv = 1 - cur_vfo x)
      by (unfold cv, c_not, c_bool; destruct (Z.eqb_spec (cur_vfo x) 0); lia).
    match goal with |- cur_vfo ?s = _ /\ _ => set (y := s) end.
    assert (Ee : eeprom y = <[257 := to_uchar cv]> (eeprom x)) by reflexivity.
    assert (Ev : cur_vfo y = cv) by reflexivity.
    assert (Ef : f_vfo y = f_vfo x) by reflexivity.
    assert (Eb : cur_band y = cur_band x) by reflexivity.
    clearbody y.
    rewrite (eeprom_read_insert 257 257 _ x y) by first [lia | exact Ee].
    cbn [Z.eqb Pos.eqb]. rewrite Ev, Ef, Eb, !(to_uchar_id cv) by lia.
    rewrite Hcv. repeat split. }
  destruct (Hkey r r1 Hv H1) as (A1 & A2 & A3 & A4).
  destruct (Hkey r1 r2 ltac:(lia) H2) as (B1 & B2 & B3 & B4).
  split; [exact A1|]. split; [exact A2|].
  split; [lia|]. split; [lia|]. split; congruence.
Qed.

(** From the start-up selection (VFO A) to B and back. *)
Lemma vfo_key_twice_witness :
  let r := main_load (power_on ∅ []) in
  exists r1 r2,
    main_switch 2 r = Some (tt, r1) /\ main_switch 2 r1 = Some (tt, r2)
    /\ cur_vfo r1 = 1 /\ cur_vfo r2 = 0.
Proof.
  intros r. eexists _, _. split; [vm_compute; reflexivity|].
  split; [vm_compute; reflexivity|].
  match goal with |- cur_vfo ?a = 1 /\ cur_vfo ?b = 0 =>
    destruct (vfo_key_twice r a b) as (H1 & _ & H2 & _)
  end.
  - vm_compute. split; discriminate.
  - vm_compute. reflexivity.
  - vm_compute. reflexivity.
  - split; [rewrite H1 | rewrite H2]; reflexivity.
Defined.

(** Three writes of the port for each bit. *)
Lemma spi_send_bits_count n sbyte x r :
  exists w,
    dds_sent r w (mask_bits n sbyte x) (spi_send_bits n sbyte x r)
    /\ length w = (3 * n)%nat.
Proof.
  revert x r. induction n as [|n IH]; intros x r.
  - exists []. split; [apply dds_sent_nil | reflexivity].
  - cbn [spi_send_bits mask_bits]. cbv zeta.
    pose proof (spi_send_bit_sent (negb (Z.land sbyte x =? 0)) r) as H1.
    cbv zeta in H1.
    destruct (Z.land sbyte x =? 0); cbn [negb] in H1;
      match type of H1 with dds_sent _ ?w _ ?r1 =>
        destruct (IH (Z.shiftr x 1) r1) as (w' & H2 & Hl);
        exists (w ++ w');
        (split; [exact (dds_sent_trans _ _ _ _ _ _ _ H1 H2)
                |rewrite length_app, Hl; cbn [length]; lia])
      end.
Qed.

(** X16.  [spi_send_byte] for any argument and any state of port B: 24
    writes of the port, from which the AD9951 samples eight bits whose
    value, most significant first, is the argument modulo 256; the
    IO_UD line keeps its state in every write. *)
Theorem spi_send_byte_byte sbyte r :
  exists w bs,
    dds_wrote r w (spi_send_byte sbyte r)
    /\ length w = 24%nat
    /\ dds_shift_in (gpiob_odr r) w = bs
    /\ length bs = 8%nat /\ bits_value bs = sbyte mod 256
    /\ Forall (fun v => Z.testbit v DDS_IO_UD
                        = Z.testbit (gpiob_odr r) DDS_IO_UD) w.
Proof.
  destruct (spi_send_bits_count 8 (to_ulong sbyte) (Z.shiftl 1 7) r)
    as (w & (Hw & Hb & Hs) & Hl).
  exists w, (mask_bits 8 (to_ulong sbyte) (Z.shiftl 1 7)).
  split; [exact Hw|]. split; [exact Hl|].
  split; [exact Hb|]. split; [apply mask_bits_length|].
  split; [apply spi_send_byte_value | exact Hs].
Qed.


